(** * EMR integration planner and executor: a shallow embedding in Rocq

    Sources embedded here:
    - [src/backend/agent/emr_runner.py]: [_get_path], [_apply_fhir_mapping],
      [_build_headers], [_build_url], [execute_request_plan];
    - [src/backend/agent/graph.py]: [_parse_json_from_llm], [split_queries],
      [plan_emr], [persist_mapping];
    - [src/backend/agent/models.py]: [RequestSpec], [EMRMappingResult];
    - [src/backend/config.py]: the Connect Login token exchange and the
      header brokers of the scribe and EMR domains.

    Python [str] values are modelled as Rocq [string]s whose characters are
    Latin-1 code points (an [ascii] is an 8-bit code, read as U+0000..U+00FF).
    Python exceptions are the [Err] branch of [pyres]; effects on module
    state (the token caches) and on the outside world (HTTP calls) are
    explicit state passing. *)

From Stdlib Require Import ZArith String Ascii.
From stdpp Require Import base list gmap strings.

Set Warnings "-register-all".
Open Scope Z_scope.

(* ================================================================= *)
(** ** Python results and exceptions *)

Inductive exn :=
| ValueError (msg : string)
| AttributeError (msg : string)
| TypeError (msg : string)
| ValidationError (msg : string)
| HTTPStatusError (status : Z)
| TransportError (msg : string)
| RecursionError (msg : string).

Inductive pyres (A : Type) :=
| Ok (a : A)
| Err (e : exn).
Arguments Ok {A} a.
Arguments Err {A} e.

Definition pbind {A B} (r : pyres A) (k : A -> pyres B) : pyres B :=
  match r with Ok a => k a | Err e => Err e end.

Notation "'let!' x ':=' r 'in' k" := (pbind r (fun x => k))
  (at level 200, x name, r at level 100, k at level 200).

(* ================================================================= *)
(** ** Python string methods on Latin-1 strings *)

Module PyStr.

Definition code (c : ascii) : nat := nat_of_ascii c.

(** [str.isspace] on one Latin-1 character: TAB..CR, the separators
    U+001C..U+001F, SPACE, NEL (U+0085) and NO-BREAK SPACE (U+00A0). *)
Definition is_space (c : ascii) : bool :=
  let n := code c in
  ((9 <=? n) && (n <=? 13))%nat || ((28 <=? n) && (n <=? 32))%nat
  || (n =? 133)%nat || (n =? 160)%nat.

(** [str.isdigit] on one Latin-1 character: the ASCII digits and the
    superscripts U+00B2, U+00B3, U+00B9 (Numeric_Type=Digit). *)
Definition is_digit_char (c : ascii) : bool :=
  let n := code c in
  ((48 <=? n) && (n <=? 57))%nat || (n =? 178)%nat || (n =? 179)%nat
  || (n =? 185)%nat.

(** The characters that [int()] accepts as decimal digits. *)
Definition is_decimal_char (c : ascii) : bool :=
  let n := code c in ((48 <=? n) && (n <=? 57))%nat.

Fixpoint all_chars (p : ascii -> bool) (s : string) : bool :=
  match s with
  | EmptyString => true
  | String c r => p c && all_chars p r
  end.

(** [s.isdigit()]: non-empty and every character a digit. *)
Definition isdigit (s : string) : bool :=
  match s with
  | EmptyString => false
  | _ => all_chars is_digit_char s
  end.

(** The value of a string of decimal digits; [None] when some character
    is not a decimal digit. *)
Fixpoint digits_value (acc : Z) (s : string) : option Z :=
  match s with
  | EmptyString => Some acc
  | String c r =>
      if is_decimal_char c
      then digits_value (10 * acc + Z.of_nat (code c - 48)) r
      else None
  end.

(** The number of decimal digits [int()] reads before the first other
    character: the count it checks against [sys.get_int_max_str_digits()]. *)
Fixpoint lead_decimals (s : string) : nat :=
  match s with
  | EmptyString => O
  | String c r => if is_decimal_char c then S (lead_decimals r) else O
  end.

Fixpoint lstrip (s : string) : string :=
  match s with
  | EmptyString => EmptyString
  | String c r => if is_space c then lstrip r else s
  end.

Fixpoint rstrip (s : string) : string :=
  match s with
  | EmptyString => EmptyString
  | String c r =>
      let r' := rstrip r in
      match r' with
      | EmptyString => if is_space c then EmptyString else String c EmptyString
      | _ => String c r'
      end
  end.

(** [s.strip()]. *)
Definition strip (s : string) : string := rstrip (lstrip s).

(** [s.lstrip(ch)] and [s.rstrip(ch)] for a one-character argument. *)
Fixpoint lstrip_char (ch : ascii) (s : string) : string :=
  match s with
  | EmptyString => EmptyString
  | String c r => if Ascii.eqb c ch then lstrip_char ch r else s
  end.

Fixpoint rstrip_char (ch : ascii) (s : string) : string :=
  match s with
  | EmptyString => EmptyString
  | String c r =>
      let r' := rstrip_char ch r in
      match r' with
      | EmptyString => if Ascii.eqb c ch then EmptyString else String c EmptyString
      | _ => String c r'
      end
  end.

(** [s.startswith(p)] and [s.endswith(p)]. *)
Definition startswith (s p : string) : bool := String.prefix p s.

Definition endswith (s p : string) : bool :=
  (String.length p <=? String.length s)%nat
  && String.eqb (substring (String.length s - String.length p) (String.length p) s) p.

(** [s[i:j]] with [0 <= i] and [j] counted from the end ([s[i:-k]]). *)
Definition slice_from_to_end (i k : nat) (s : string) : string :=
  substring i (String.length s - k - i) s.

(** [s[:n]]. *)
Definition take (n : nat) (s : string) : string := substring 0 n s.

(** [s.split(sep)] for a one-character separator: never an empty list. *)
Fixpoint split (sep : ascii) (s : string) : list string :=
  match s with
  | EmptyString => [EmptyString]
  | String c r =>
      if Ascii.eqb c sep then EmptyString :: split sep r
      else match split sep r with
           | h :: t => String c h :: t
           | [] => [String c EmptyString]
           end
  end.

(** [s.replace(ch, "")] for a one-character [ch]. *)
Fixpoint remove_char (ch : ascii) (s : string) : string :=
  match s with
  | EmptyString => EmptyString
  | String c r => if Ascii.eqb c ch then remove_char ch r else String c (remove_char ch r)
  end.

(** [s.upper()] on ASCII letters (Latin-1 letters above U+007F are kept). *)
Definition upper_char (c : ascii) : ascii :=
  let n := code c in
  if ((97 <=? n) && (n <=? 122))%nat then ascii_of_nat (n - 32) else c.

Fixpoint upper (s : string) : string :=
  match s with
  | EmptyString => EmptyString
  | String c r => String (upper_char c) (upper r)
  end.

(** [str(n)] for an integer. *)
Fixpoint digits_of_pos (fuel : nat) (n : Z) (acc : string) : string :=
  match fuel with
  | O => acc
  | S f =>
      let d := ascii_of_nat (Z.to_nat (n mod 10) + 48) in
      if n <? 10 then String d acc else digits_of_pos f (n / 10) (String d acc)
  end.

Definition str_of_Z (z : Z) : string :=
  let fuel n := S (Z.to_nat (Z.log2 n)) in
  if z <? 0 then String "-" (digits_of_pos (fuel (- z)) (- z) EmptyString)
  else digits_of_pos (fuel z) z EmptyString.

(** The default [sys.get_int_max_str_digits()] (Python 3.11 and later). *)
Definition int_max_str_digits : nat := 4300.

(** The [ValueError] message of a decimal conversion of [n] digits over
    the limit. *)
Definition int_limit_msg (n : nat) : string :=
  ("Exceeds the limit (4300 digits) for integer string conversion: value has "
   ++ str_of_Z (Z.of_nat n) ++ " digits; use sys.set_int_max_str_digits() to increase the limit")%string.

(** [int(s)] for a string [s] with [s.isdigit()]: a [ValueError] when
    more than 4300 decimal digits lead the string (checked first, as
    CPython does), else the value when every character is a decimal
    digit, else the [ValueError] with [repr(s)] (the characters of [s] are
    printable, so the repr is [s] in single quotes). *)
Definition py_int (s : string) : pyres Z :=
  if (int_max_str_digits <? lead_decimals s)%nat
  then Err (ValueError (int_limit_msg (lead_decimals s)))
  else
    match digits_value 0 s with
    | Some z => Ok z
    | None => Err (ValueError ("invalid literal for int() with base 10: '" ++ s ++ "'")%string)
    end.

(** A JSON float literal denotes zero (is falsy) when its mantissa, the
    part before an exponent, has only the digit 0. *)
Fixpoint mantissa_is_zero (s : string) : bool :=
  match s with
  | EmptyString => true
  | String c r =>
      if Ascii.eqb c "e" || Ascii.eqb c "E" then true
      else (Ascii.eqb c "0" || Ascii.eqb c "." || Ascii.eqb c "-") && mantissa_is_zero r
  end.

Definition float_lit_is_zero (lit : string) : bool :=
  match lit with
  | EmptyString => false
  | _ => mantissa_is_zero lit
  end.

End PyStr.

(* ================================================================= *)
(** ** JSON-like Python values *)

(** The values the code handles: [None], [bool], [int], [float] (kept as
    its decimal literal), [str], [list], [dict] with string keys.  A
    [dict] is its list of items in insertion order; as in Python its keys
    are pairwise distinct. *)
Inductive json :=
| JNull
| JBool (b : bool)
| JInt (z : Z)
| JFloat (lit : string)
| JStr (s : string)
| JArr (xs : list json)
| JObj (kvs : list (string * json)).

(** Python truthiness. *)
Definition truthy (v : json) : bool :=
  match v with
  | JNull => false
  | JBool b => b
  | JInt z => negb (z =? 0)
  | JFloat lit => negb (PyStr.float_lit_is_zero lit)
  | JStr s => negb (String.eqb s EmptyString)
  | JArr xs => negb (Nat.eqb (length xs) 0)
  | JObj kvs => negb (Nat.eqb (length kvs) 0)
  end.

Fixpoint assoc_get {V} (k : string) (kvs : list (string * V)) : option V :=
  match kvs with
  | [] => None
  | (k', v) :: r => if String.eqb k k' then Some v else assoc_get k r
  end.

(** [d.get(k)] on a dict: [None] when the key is missing. *)
Definition dict_get (kvs : list (string * json)) (k : string) : json :=
  match assoc_get k kvs with Some v => v | None => JNull end.

(** [d[k] = v] on a dict: the value replaced in place, or a new last item. *)
Fixpoint assoc_set {V} (k : string) (v : V) (kvs : list (string * V)) : list (string * V) :=
  match kvs with
  | [] => [(k, v)]
  | (k', v') :: r => if String.eqb k k' then (k, v) :: r else (k', v') :: assoc_set k v r
  end.

(* ================================================================= *)
(** ** Path navigation: [_get_path] (emr_runner.py, lines 10-25) *)

Module Templating.

(** One segment applied to the current value ([obj.get(seg)], the
    bounds-checked list index, or [None]). *)
Definition step (obj : json) (seg : string) : pyres json :=
  match obj with
  | JObj kvs => Ok (dict_get kvs seg)
  | JArr xs =>
      if PyStr.isdigit seg then
        let! n := PyStr.py_int seg in
        Ok (if n <? Z.of_nat (length xs) then nth (Z.to_nat n) xs JNull else JNull)
      else Ok JNull
  | _ => Ok JNull
  end.

(** The inner loop over [part.split(".")]; [None] is the early
    [return None]. *)
Fixpoint walk_segs (obj : json) (segs : list string) : pyres (option json) :=
  match segs with
  | [] => Ok (Some obj)
  | seg :: rest =>
      if String.eqb seg EmptyString then walk_segs obj rest
      else
        let! obj' := step obj seg in
        match obj' with
        | JNull => Ok None
        | _ => walk_segs obj' rest
        end
  end.

(** The outer loop over [path.replace("]", "").split("[")]. *)
Fixpoint walk_parts (obj : json) (parts : list string) : pyres (option json) :=
  match parts with
  | [] => Ok (Some obj)
  | part :: rest =>
      let! r := walk_segs obj (PyStr.split "." part) in
      match r with
      | None => Ok None
      | Some obj' => walk_parts obj' rest
      end
  end.

Definition get_path (obj : json) (path : string) : pyres json :=
  let! r := walk_parts obj (PyStr.split "[" (PyStr.remove_char "]" path)) in
  Ok (match r with None => JNull | Some v => v end).

(* ================================================================= *)
(** ** The templating engine: [_apply_fhir_mapping] (lines 28-42) *)

Definition is_placeholder (v : json) : option string :=
  match v with
  | JStr s =>
      if PyStr.startswith s "{{" && PyStr.endswith s "}}"
      then Some (PyStr.strip (PyStr.slice_from_to_end 2 2 s))
      else None
  | _ => None
  end.

Fixpoint apply_fhir_mapping (body_template : json) (fhir_mapping : list (string * string))
    (fhir_bundle : json) : pyres json :=
  if Nat.eqb (length fhir_mapping) 0 then Ok body_template else
  match body_template with
  | JNull => Ok body_template
  | JObj kvs =>
      let fix go (kvs : list (string * json)) : pyres (list (string * json)) :=
        match kvs with
        | [] => Ok []
        | (k, v) :: r =>
            let! v' := match is_placeholder v with
                       | Some path => get_path fhir_bundle path
                       | None => apply_fhir_mapping v fhir_mapping fhir_bundle
                       end in
            let! r' := go r in
            Ok ((k, v') :: r')
        end in
      let! out := go kvs in Ok (JObj out)
  | JArr xs =>
      let fix go (xs : list json) : pyres (list json) :=
        match xs with
        | [] => Ok []
        | x :: r =>
            let! x' := apply_fhir_mapping x fhir_mapping fhir_bundle in
            let! r' := go r in
            Ok (x' :: r')
        end in
      let! out := go xs in Ok (JArr out)
  | _ => Ok body_template
  end.

End Templating.

(** The templating engine as the spec words it (spec section 4.5): a
    mapping value of the exact form ["{{" ++ p ++ "}}"] becomes the path
    navigation of [strip p]; every other value is copied, and mappings and
    sequences are walked recursively.  Kept apart from the source function
    to be compared with it. *)
Module TemplatingSpec.

Fixpoint chop_prefix (p s : string) : option string :=
  match p, s with
  | EmptyString, _ => Some s
  | String a p', String b s' => if Ascii.eqb a b then chop_prefix p' s' else None
  | String _ _, EmptyString => None
  end.

Fixpoint chop_suffix (suf s : string) : option string :=
  if String.eqb s suf then Some EmptyString
  else match s with
       | EmptyString => None
       | String c r => option_map (String c) (chop_suffix suf r)
       end.

(** [Some p] exactly when the string is ["{{" ++ p ++ "}}"]. *)
Definition placeholder_of (s : string) : option string :=
  match chop_prefix "{{" s with
  | Some r => chop_suffix "}}" r
  | None => None
  end.

Fixpoint copy_subst (t bundle : json) : pyres json :=
  match t with
  | JObj kvs =>
      let fix go (kvs : list (string * json)) : pyres (list (string * json)) :=
        match kvs with
        | [] => Ok []
        | (k, v) :: r =>
            let! v' := match v with
                       | JStr s =>
                           match placeholder_of s with
                           | Some p => Templating.get_path bundle (PyStr.strip p)
                           | None => Ok v
                           end
                       | _ => copy_subst v bundle
                       end in
            let! r' := go r in
            Ok ((k, v') :: r')
        end in
      let! out := go kvs in Ok (JObj out)
  | JArr xs =>
      let fix go (xs : list json) : pyres (list json) :=
        match xs with
        | [] => Ok []
        | x :: r =>
            let! x' := copy_subst x bundle in
            let! r' := go r in
            Ok (x' :: r')
        end in
      let! out := go xs in Ok (JArr out)
  | _ => Ok t
  end.

End TemplatingSpec.

(* ================================================================= *)
(** ** The plan executor: [execute_request_plan] (emr_runner.py, 45-101) *)

Module Executor.

(** A request spec as the executor reads it with [spec.get(...)]: [None]
    for a missing key; [rs_body_template] is [JNull] when missing or
    [None]; [rs_headers] and [rs_fhir_mapping] are [[]] when missing. *)
Record request_spec := {
  rs_method : option string;
  rs_url : option string;
  rs_headers : list (string * string);
  rs_body_template : json;
  rs_fhir_mapping : list (string * string)
}.

(** The credential record ([dict | None]): missing keys are [None]. *)
Record credentials := {
  cr_api_token : option string;
  cr_client_id : option string;
  cr_base_url : option string
}.

(** A request plan: [push_fhir] and [get_fhir], [None] when missing. *)
Record request_plan := {
  push_fhir : option (list request_spec);
  get_fhir : option (list request_spec)
}.

(** [x or default] for an optional string. *)
Definition or_str (o : option string) (d : string) : string :=
  match o with
  | Some s => if String.eqb s EmptyString then d else s
  | None => d
  end.

Definition str_truthy (o : option string) : bool :=
  match o with Some s => negb (String.eqb s EmptyString) | None => false end.

Definition build_headers (spec : request_spec) (cred : option credentials)
    : list (string * string) :=
  let headers := rs_headers spec in
  match cred with
  | None => headers
  | Some c =>
      let headers :=
        match cr_api_token c with
        | Some t => if str_truthy (Some t) then assoc_set "Authorization" ("Bearer " ++ t)%string headers else headers
        | None => headers
        end in
      match cr_client_id c with
      | Some i => if str_truthy (Some i) then assoc_set "client-id" i headers else headers
      | None => headers
      end
  end.

Definition build_url (spec : request_spec) (cred : option credentials) : string :=
  let url := or_str (rs_url spec) EmptyString in
  let base := PyStr.rstrip_char "/"
                (match cred with Some c => match cr_base_url c with Some b => b | None => EmptyString end
                                 | None => EmptyString end) in
  if negb (String.eqb base EmptyString) && negb (String.eqb url EmptyString)
     && negb (PyStr.startswith url "http")
  then (base ++ "/" ++ PyStr.lstrip_char "/" url)%string
  else url.

(** [headers.setdefault(k, v)]. *)
Definition setdefault (k v : string) (h : list (string * string)) : list (string * string) :=
  match assoc_get k h with Some _ => h | None => h ++ [(k, v)] end.

(** One HTTP call as issued through [httpx]: the JSON body is absent for
    [GET] and when the body is [None]. *)
Record http_request := {
  req_method : string;
  req_url : string;
  req_headers : list (string * string);
  req_json : option json
}.

Inductive http_outcome :=
| Response (status : Z) (text : string)
| Transport (msg : string).

(** Everything the loop body computes before the call (lines 78-84);
    only the templating engine can raise here. *)
Definition build_request (cred : option credentials) (bundle : json) (spec : request_spec)
    : pyres http_request :=
  let url := build_url spec cred in
  let headers := setdefault "Content-Type" "application/json" (build_headers spec cred) in
  let method := PyStr.upper (or_str (rs_method spec) "GET") in
  let! body := match rs_body_template spec with
               | JNull => Ok JNull
               | bt => Templating.apply_fhir_mapping bt (rs_fhir_mapping spec) bundle
               end in
  Ok {| req_method := method; req_url := url; req_headers := headers;
        req_json := if String.eqb method "GET" then None
                    else match body with JNull => None | b => Some b end |}.

(** [(ok, last_status, last_body, last_error)]. *)
Definition exec_result : Type := bool * option Z * string * option string.

Inductive loop_outcome :=
| Halt (r : exec_result)
| Continue (last_status : option Z) (last_body : string).

Section Run.
(** The live EMR: the outcome of a call may depend on every call issued
    before it. *)
Variable send : list http_request -> http_request -> http_outcome.
Variable cred : option credentials.
Variable bundle : json.

Fixpoint run_specs (specs : list request_spec) (last_status : option Z) (last_body : string)
    (issued : list http_request) : pyres loop_outcome * list http_request :=
  match specs with
  | [] => (Ok (Continue last_status last_body), issued)
  | spec :: rest =>
      match build_request cred bundle spec with
      | Err e => (Err e, issued)
      | Ok req =>
          let issued' := issued ++ [req] in
          match send issued req with
          | Transport msg => (Ok (Halt (false, None, EmptyString, Some msg)), issued')
          | Response code text =>
              let body := PyStr.take 2000 text in
              if 400 <=? code
              then (Ok (Halt (false, Some code, body,
                              Some ("HTTP " ++ PyStr.str_of_Z code ++ ": " ++ PyStr.take 500 body)%string)),
                    issued')
              else run_specs rest (Some code) body issued'
          end
      end
  end.

Definition execute_request_plan (plan : request_plan) (execute_get : bool)
    (issued : list http_request) : pyres exec_result * list http_request :=
  let specs := match (if execute_get then get_fhir plan else push_fhir plan) with
               | Some l => l
               | None => []
               end in
  match specs with
  | [] => (Ok (false, None, EmptyString, Some "No request specs in plan"), issued)
  | _ =>
      match run_specs specs None EmptyString issued with
      | (Ok (Halt r), l) => (Ok r, l)
      | (Ok (Continue st b), l) => (Ok (true, st, b, None), l)
      | (Err e, l) => (Err e, l)
      end
  end.

End Run.

End Executor.

(* ================================================================= *)
(** ** [json.loads] (the standard library's strict decoder) *)

(** The decoder is part of Python's library, not of this repository; it
    is written out here so that model outputs can be decoded by
    evaluation.  It follows the grammar of [json.scanner] and
    [json.decoder]: whitespace is SPACE, TAB, LF, CR; strings reject raw
    control characters; a number is an optional minus, [0] or a digit
    string without leading zero, then an optional fraction and an optional
    exponent, and it is an [int] without fraction or exponent; [NaN], [Infinity] and
    [-Infinity] are accepted; duplicate object keys keep the last value.
    A [\u] escape beyond U+00FF, outside the Latin-1 alphabet of the
    model, decodes to ["?"].  Two exceptions are not [JSONDecodeError]s:
    an [int] token of more than 4300 digits raises [ValueError], and
    nesting beyond the scanner's recursion budget raises [RecursionError]. *)
Module JsonDecode.

Local Open Scope nat_scope.
Local Open Scope list_scope.

(** The double quote, ASCII 34. *)
Local Abbreviation QUOTE := (Ascii false true false false false true false false).

Definition is_ws (c : ascii) : bool :=
  Ascii.eqb c " " || Ascii.eqb c (ascii_of_nat 9) || Ascii.eqb c (ascii_of_nat 10)
  || Ascii.eqb c (ascii_of_nat 13).

Fixpoint skip_ws (l : list ascii) : list ascii :=
  match l with
  | c :: r => if is_ws c then skip_ws r else l
  | [] => []
  end.

Definition is_dig (c : ascii) : bool := PyStr.is_decimal_char c.

Fixpoint take_digits (l : list ascii) : list ascii * list ascii :=
  match l with
  | c :: r => if is_dig c then let (d, r') := take_digits r in (c :: d, r') else ([], l)
  | [] => ([], [])
  end.

Fixpoint starts_with (p l : list ascii) : option (list ascii) :=
  match p, l with
  | [], _ => Some l
  | a :: p', b :: l' => if Ascii.eqb a b then starts_with p' l' else None
  | _ :: _, [] => None
  end.

Definition lit (s : string) : list ascii := list_ascii_of_string s.

Definition digits_Z (d : list ascii) : Z :=
  match PyStr.digits_value 0 (string_of_list_ascii d) with Some z => z | None => 0 end.

(** The number pattern; [None] when no integer part matches.  An [int]
    token is converted by [int()], whose digit limit raises [ValueError]
    (the sign is not counted); a float token is kept as its literal. *)
Definition parse_number (l : list ascii) : option (pyres json * list ascii) :=
  let '(neg, l1) := match l with "-"%char :: r => (true, r) | _ => (false, l) end in
  let int_part :=
    match l1 with
    | "0"%char :: r => Some (["0"%char], r)
    | c :: _ => if is_dig c then Some (take_digits l1) else None
    | [] => None
    end in
  match int_part with
  | None => None
  | Some (ip, r1) =>
      let '(frac, r2) :=
        match r1 with
        | "."%char :: r => match take_digits r with
                           | ([], _) => ([], r1)
                           | (d, r') => ("."%char :: d, r')
                           end
        | _ => ([], r1)
        end in
      let '(expo, r3) :=
        match r2 with
        | e :: r =>
            if Ascii.eqb e "e" || Ascii.eqb e "E" then
              let '(sg, r') := match r with
                               | s :: r'' => if Ascii.eqb s "+" || Ascii.eqb s "-" then ([s], r'') else ([], r)
                               | [] => ([], r)
                               end in
              match take_digits r' with
              | ([], _) => ([], r2)
              | (d, r'') => (e :: sg ++ d, r'')
              end
            else ([], r2)
        | [] => ([], r2)
        end in
      match frac, expo with
      | [], [] =>
          if PyStr.int_max_str_digits <? length ip
          then Some (Err (ValueError (PyStr.int_limit_msg (length ip))), r1)
          else Some (Ok (JInt (if neg then (- digits_Z ip)%Z else digits_Z ip)), r1)
      | _, _ =>
          Some (Ok (JFloat (string_of_list_ascii ((if neg then ["-"%char] else []) ++ ip ++ frac ++ expo))), r3)
      end
  end.

Definition hex_val (c : ascii) : option N :=
  let n := nat_of_ascii c in
  if (48 <=? n) && (n <=? 57) then Some (N.of_nat (n - 48))
  else if (65 <=? n) && (n <=? 70) then Some (N.of_nat (n - 55))
  else if (97 <=? n) && (n <=? 102) then Some (N.of_nat (n - 87))
  else None.

Definition hex4 (l : list ascii) : option (N * list ascii) :=
  match l with
  | a :: b :: c :: d :: r =>
      match hex_val a, hex_val b, hex_val c, hex_val d with
      | Some x, Some y, Some z, Some w => Some ((((x * 16 + y) * 16 + z) * 16 + w)%N, r)
      | _, _, _, _ => None
      end
  | _ => None
  end.

Definition char_of_code (n : N) : ascii :=
  if (n <=? 255)%N then ascii_of_N n else "?"%char.

(** The body of a string literal after its opening quote. *)
Fixpoint parse_string_body (fuel : nat) (l : list ascii) : option (list ascii * list ascii) :=
  match fuel with
  | O => None
  | S f =>
      match l with
      | [] => None
      | c :: r =>
          if Ascii.eqb c QUOTE then Some ([], r)
          else if nat_of_ascii c <? 32 then None
          else if Ascii.eqb c "\" then
            match r with
            | [] => None
            | e :: r' =>
                let simple x := option_map (fun '(s, rest) => (x :: s, rest)) (parse_string_body f r') in
                if Ascii.eqb e QUOTE then simple QUOTE
                else if Ascii.eqb e "\" then simple "\"%char
                else if Ascii.eqb e "/" then simple "/"%char
                else if Ascii.eqb e "b" then simple (ascii_of_nat 8)
                else if Ascii.eqb e "f" then simple (ascii_of_nat 12)
                else if Ascii.eqb e "n" then simple (ascii_of_nat 10)
                else if Ascii.eqb e "r" then simple (ascii_of_nat 13)
                else if Ascii.eqb e "t" then simple (ascii_of_nat 9)
                else if Ascii.eqb e "u" then
                  match hex4 r' with
                  | None => None
                  | Some (u, r'') =>
                      let '(cp, rest) :=
                        if ((55296 <=? u) && (u <=? 56319))%N then
                          match r'' with
                          | "\"%char :: "u"%char :: r3 =>
                              match hex4 r3 with
                              | Some (u2, r4) =>
                                  if ((56320 <=? u2) && (u2 <=? 57343))%N
                                  then ((65536 + (u - 55296) * 1024 + (u2 - 56320))%N, r4)
                                  else (u, r'')
                              | None => (u, r'')
                              end
                          | _ => (u, r'')
                          end
                        else (u, r'') in
                      option_map (fun '(s, rest') => (char_of_code cp :: s, rest'))
                                 (parse_string_body f rest)
                  end
                else None
            end
          else option_map (fun '(s, rest) => (c :: s, rest)) (parse_string_body f r)
      end
  end.

(** The outcome of scanning a value: the value and the rest of the
    input, a [JSONDecodeError] ([SFail]), or an exception that is not a
    [JSONDecodeError] and escapes [json.loads] ([SRaise]). *)
Inductive scan :=
| SOk (v : json) (rest : list ascii)
| SFail
| SRaise (e : exn).

Definition recursion_msg (what : string) : string :=
  ("maximum recursion depth exceeded while decoding a JSON " ++ what ++ " from a unicode string")%string.

(** [depth] is the recursion budget of the C scanner: entering an object
    or array costs one level ([Py_EnterRecursiveCall]), checked before
    its contents are read; with no level left it raises [RecursionError]. *)
Fixpoint parse_value (fuel depth : nat) (l : list ascii) : scan :=
  match fuel with
  | O => SFail
  | S f =>
      match l with
      | QUOTE :: r =>
          match parse_string_body (length r + 1) r with
          | Some (s, rest) => SOk (JStr (string_of_list_ascii s)) rest
          | None => SFail
          end
      | "{"%char :: r =>
          match depth with
          | O => SRaise (RecursionError (recursion_msg "object"))
          | S d =>
              match skip_ws r with
              | "}"%char :: r' => SOk (JObj []) r'
              | r' => parse_members f d r' []
              end
          end
      | "["%char :: r =>
          match depth with
          | O => SRaise (RecursionError (recursion_msg "array"))
          | S d =>
              match skip_ws r with
              | "]"%char :: r' => SOk (JArr []) r'
              | r' => parse_elems f d r' []
              end
          end
      | _ =>
          match starts_with (lit "null") l with Some r => SOk JNull r | None =>
          match starts_with (lit "true") l with Some r => SOk (JBool true) r | None =>
          match starts_with (lit "false") l with Some r => SOk (JBool false) r | None =>
          match parse_number l with
          | Some (Ok v, r) => SOk v r
          | Some (Err e, _) => SRaise e
          | None =>
          match starts_with (lit "NaN") l with Some r => SOk (JFloat "NaN") r | None =>
          match starts_with (lit "Infinity") l with Some r => SOk (JFloat "Infinity") r | None =>
          match starts_with (lit "-Infinity") l with Some r => SOk (JFloat "-Infinity") r | None =>
          SFail end end end end end end end
      end
  end
with parse_elems (fuel depth : nat) (l : list ascii) (acc : list json) : scan :=
  match fuel with
  | O => SFail
  | S f =>
      match parse_value f depth l with
      | SOk v r =>
          match skip_ws r with
          | ","%char :: r' => parse_elems f depth (skip_ws r') (acc ++ [v])
          | "]"%char :: r' => SOk (JArr (acc ++ [v])) r'
          | _ => SFail
          end
      | o => o
      end
  end
with parse_members (fuel depth : nat) (l : list ascii) (acc : list (string * json)) : scan :=
  match fuel with
  | O => SFail
  | S f =>
      match l with
      | QUOTE :: r =>
          match parse_string_body (length r + 1) r with
          | None => SFail
          | Some (k, r1) =>
              match skip_ws r1 with
              | ":"%char :: r2 =>
                  match parse_value f depth (skip_ws r2) with
                  | SOk v r3 =>
                      let acc' := assoc_set (string_of_list_ascii k) v acc in
                      match skip_ws r3 with
                      | ","%char :: r4 => parse_members f depth (skip_ws r4) acc'
                      | "}"%char :: r4 => SOk (JObj acc') r4
                      | _ => SFail
                      end
                  | o => o
                  end
              | _ => SFail
              end
          end
      | _ => SFail
      end
  end.

(** [json.loads(s)] with the scanner's recursion budget [depth]:
    [Ok (Some v)] is the value, [Ok None] a [JSONDecodeError], [Err e]
    another exception ([ValueError] of the integer digit limit,
    [RecursionError]). *)
Definition json_loads (depth : nat) (s : string) : pyres (option json) :=
  let l := list_ascii_of_string s in
  match parse_value (2 * length l + 2) depth (skip_ws l) with
  | SOk v r => match skip_ws r with [] => Ok (Some v) | _ => Ok None end
  | SFail => Ok None
  | SRaise e => Err e
  end.

End JsonDecode.

(* ================================================================= *)
(** ** The LLM-facing stages (graph.py) *)

Module Stages.

Local Open Scope list_scope.

(** [\s] of a [str] pattern: the characters of [str.isspace]. *)
Fixpoint skip_space (l : list ascii) : list ascii :=
  match l with
  | c :: r => if PyStr.is_space c then skip_space r else l
  | [] => []
  end.

Definition ticks : list ascii := JsonDecode.lit "```".

(** The lazy group [([\s\S]*?)] followed by [\s*```]: the shortest prefix
    after which optional whitespace and three backticks follow. *)
Fixpoint lazy_group (l : list ascii) : option (list ascii) :=
  match JsonDecode.starts_with ticks (skip_space l) with
  | Some _ => Some []
  | None =>
      match l with
      | [] => None
      | c :: r => option_map (cons c) (lazy_group r)
      end
  end.

(** The pattern anchored at one position: three backticks, the optional
    [json] (tried first), the greedy [\s*], then the lazy group. *)
Definition fence_at (l : list ascii) : option (list ascii) :=
  match JsonDecode.starts_with ticks l with
  | None => None
  | Some r =>
      let r := match JsonDecode.starts_with (JsonDecode.lit "json") r with
               | Some r' => r'
               | None => r
               end in
      lazy_group (skip_space r)
  end.

(** [re.search]: the leftmost position where the pattern matches. *)
Fixpoint fence_search (l : list ascii) : option (list ascii) :=
  match fence_at l with
  | Some g => Some g
  | None => match l with [] => None | _ :: r => fence_search r end
  end.

(** The text [_parse_json_from_llm] hands to [json.loads]. *)
Definition llm_json_text (text : string) : string :=
  let t := PyStr.strip text in
  match fence_search (list_ascii_of_string t) with
  | Some g => PyStr.strip (string_of_list_ascii g)
  | None => t
  end.

(** [_parse_json_from_llm], with the recursion budget [depth] of
    [json.loads]: [Ok None] is the [JSONDecodeError]. *)
Definition parse_json_from_llm (depth : nat) (text : string) : pyres (option json) :=
  JsonDecode.json_loads depth (llm_json_text text).

(** [SearchQueries(queries=...)]: pydantic's [list[str]]. *)
Fixpoint validate_str_list (xs : list json) : pyres (list string) :=
  match xs with
  | [] => Ok []
  | JStr s :: r => let! r' := validate_str_list r in Ok (s :: r')
  | _ :: _ => Err (ValidationError "queries: Input should be a valid string")
  end.

Definition validate_queries (v : json) : pyres (list string) :=
  match v with
  | JArr xs => validate_str_list xs
  | _ => Err (ValidationError "queries: Input should be a valid list")
  end.

(** The part of [split_queries] (lines 46-63) after the model call
    (lines 56-61), for the document URL [url] (after [or ""]) and the
    model's reply [text]: the list stored under [search_queries.queries].
    The node as a whole, with [_get_llm] and the prompt's [format] before
    the call, is [Agent.split_queries_node]. *)
Definition split_queries (depth : nat) (url text : string) : pyres (list string) :=
  match parse_json_from_llm depth text with
  | Err e => Err e
  | Ok None =>
      Ok [(url ++ " API documentation")%string; "EMR REST API endpoints"%string;
          "FHIR API push"%string]
  | Ok (Some (JObj kvs)) =>
      let q := dict_get kvs "queries" in
      validate_queries (if truthy q then q else JArr [])
  | Ok (Some _) => Err (AttributeError "object has no attribute 'get'")
  end.

Definition empty_plan : json := JObj [("push_fhir", JArr []); ("get_fhir", JArr [])].

(** [len(x)] is defined. *)
Definition has_len (v : json) : bool :=
  match v with JStr _ | JArr _ | JObj _ => true | _ => false end.

(** [plan_emr] (lines 94-114) from the model's reply [text] on (lines
    107-114), with the recursion budget [depth] of [json.loads]: the new
    [request_plan] and [reasoning].  Only a [JSONDecodeError] is caught. *)
Definition plan_emr (depth : nat) (text : string) : pyres (json * string) :=
  let! parsed := parse_json_from_llm depth text in
  let plan := match parsed with
              | None => empty_plan
              | Some p => p
              end in
  match plan with
  | JObj kvs =>
      let field k := let v := dict_get kvs k in if truthy v then v else JArr [] in
      if has_len (field "push_fhir") && has_len (field "get_fhir")
      then Ok (plan, PyStr.take 500 text)
      else Err (TypeError "object has no len()")
  | _ => Err (AttributeError "object has no attribute 'get'")
  end.

(** [RequestSpec] (models.py) and its [model_validate] in pydantic's lax
    mode: a [dict] whose present fields have the declared types; unknown
    keys are ignored. *)
Record RequestSpec := {
  method : string;
  url : string;
  headers : list (string * string);
  body_template : json;
  fhir_mapping : list (string * string);
  description : string
}.

Definition v_str (kvs : list (string * json)) (k d : string) : pyres string :=
  match assoc_get k kvs with
  | None => Ok d
  | Some (JStr s) => Ok s
  | Some _ => Err (ValidationError (k ++ ": Input should be a valid string")%string)
  end.

Fixpoint str_dict (kvs : list (string * json)) : option (list (string * string)) :=
  match kvs with
  | [] => Some []
  | (k, JStr s) :: r => option_map (cons (k, s)) (str_dict r)
  | _ :: _ => None
  end.

Definition v_str_dict (kvs : list (string * json)) (k : string) : pyres (list (string * string)) :=
  match assoc_get k kvs with
  | None => Ok []
  | Some (JObj d) =>
      match str_dict d with
      | Some d' => Ok d'
      | None => Err (ValidationError (k ++ ": Input should be a valid string")%string)
      end
  | Some _ => Err (ValidationError (k ++ ": Input should be a valid dictionary")%string)
  end.

Definition v_body (kvs : list (string * json)) : pyres json :=
  match assoc_get "body_template" kvs with
  | None => Ok JNull
  | Some ((JObj _ | JArr _ | JNull) as v) => Ok v
  | Some _ => Err (ValidationError "body_template: Input should be a valid dictionary or list")
  end.

Definition validate_spec (v : json) : pyres RequestSpec :=
  match v with
  | JObj kvs =>
      let! m := v_str kvs "method" "POST" in
      let! u := v_str kvs "url" "" in
      let! h := v_str_dict kvs "headers" in
      let! b := v_body kvs in
      let! f := v_str_dict kvs "fhir_mapping" in
      let! d := v_str kvs "description" "" in
      Ok {| method := m; url := u; headers := h; body_template := b;
            fhir_mapping := f; description := d |}
  | _ => Err (ValidationError "Input should be a valid dictionary or instance of RequestSpec")
  end.

Definition dump_spec (s : RequestSpec) : json :=
  JObj [("method", JStr (method s)); ("url", JStr (url s));
        ("headers", JObj (map (fun '(k, v) => (k, JStr v)) (headers s)));
        ("body_template", body_template s);
        ("fhir_mapping", JObj (map (fun '(k, v) => (k, JStr v)) (fhir_mapping s)));
        ("description", JStr (description s))].

(** [EMRMappingResult(...).model_dump()]. *)
Definition dump_mapping (push get : list RequestSpec) : json :=
  JObj [("push_fhir", JArr (map dump_spec push)); ("get_fhir", JArr (map dump_spec get))].

(** The items of [for s in x] over a value. *)
Definition py_iter (v : json) : pyres (list json) :=
  match v with
  | JArr xs => Ok xs
  | JStr s => Ok (map (fun c => JStr (String c EmptyString)) (list_ascii_of_string s))
  | JObj kvs => Ok (map (fun '(k, _) => JStr k) kvs)
  | _ => Err (TypeError "object is not iterable")
  end.

Fixpoint validate_all (xs : list json) : pyres (list RequestSpec) :=
  match xs with
  | [] => Ok []
  | x :: r => let! s := validate_spec x in let! r' := validate_all r in Ok (s :: r')
  end.

(** A [dict] value, with [or default]. *)
Definition get_or (kvs : list (string * json)) (k : string) (d : json) : json :=
  let v := dict_get kvs k in if truthy v then v else d.

(** The validation part of [persist_mapping] (lines 119-127): the push and
    get specs it builds, or the exception it raises. *)
Definition persist_specs (state : list (string * json)) : pyres (list RequestSpec * list RequestSpec) :=
  match get_or state "request_plan" (JObj []) with
  | JObj plan =>
      let! push_items := py_iter (get_or plan "push_fhir" (JArr [])) in
      let! push := validate_all push_items in
      let! get_items := py_iter (get_or plan "get_fhir" (JArr [])) in
      let! get := validate_all get_items in
      Ok (push, get)
  | _ => Err (AttributeError "object has no attribute 'get'")
  end.

(** [persist_mapping] (lines 117-136) over the pipeline state (the
    [AgentState] dict) and the plan store's [upsert_emr_mapping] (emr_id,
    push specs, get specs, doc URL), whose exception is caught and logged.
    The result is the state delta. *)
Definition persist_mapping
    (upsert_emr_mapping : json -> json -> json -> json -> pyres unit)
    (state : list (string * json)) : pyres (list (string * json)) :=
  let! specs := persist_specs state in
  let '(push, get) := specs in
  let emr_id := get_or state "emr_id" (JStr "default") in
  let api_doc_url := dict_get state "api_doc_url" in
  let _ := upsert_emr_mapping emr_id (JArr (map dump_spec push)) (JArr (map dump_spec get))
             api_doc_url in
  Ok [("final_mapping", dump_mapping push get); ("success", JBool true)].

End Stages.

(* ================================================================= *)
(** ** The credential broker (config.py, lines 85-198) *)

Module Broker.

(** The process configuration read at import time (the domain defaults). *)
Record config := {
  EKASCRIBE_API_TOKEN : option string;
  EKASCRIBE_CLIENT_ID : option string;
  EKASCRIBE_CLIENT_SECRET : option string;
  EKASCRIBE_BASE_URL : string;
  EKAEMR_API_TOKEN : option string;
  EKAEMR_CLIENT_ID : option string;
  EKAEMR_CLIENT_SECRET : option string;
  EKAEMR_BASE_URL : string
}.

(** A Connect Login call: [POST url] with [{client_id, client_secret}]. *)
Record login_request := {
  lq_url : string;
  lq_client_id : option string;
  lq_client_secret : option string
}.

(** The decoded login response; a missing field is [None]. *)
Record login_response := {
  lr_access_token : option string;
  lr_expires_in : option Z
}.

(** A cached token [{access_token, expires_at}]. *)
Record cache_entry := {
  access_token : string;
  expires_at : Z
}.

(** [(domain, client_id, client_secret, base_url)]. *)
Abbreviation cache_key := (string * string * string * string)%type.

(** The module-level state: [_emr_connect_cache] (shared by both domains
    and keyed), [_scribe_token_cache] (one entry, its two fields [None]
    while unset) and the log of login calls made so far. *)
Record broker_state := {
  emr_connect_cache : gmap cache_key cache_entry;
  scribe_token : option string;
  scribe_expires_at : option Z;
  logins : list login_request
}.

Inductive domain := Scribe | Emr.

Definition domain_name (d : domain) : string :=
  match d with Scribe => "scribe" | Emr => "emr" end.

(** Per-call override parameters. *)
Record params := {
  p_api_token : option string;
  p_client_id : option string;
  p_client_secret : option string;
  p_base_url : option string
}.

Definition bearer (t : string) : list (string * string) :=
  [("Authorization", ("Bearer " ++ t)%string)].

Definition set_cache (st : broker_state) (m : gmap cache_key cache_entry) : broker_state :=
  {| emr_connect_cache := m; scribe_token := scribe_token st;
     scribe_expires_at := scribe_expires_at st; logins := logins st |}.

Definition add_login (st : broker_state) (q : login_request) : broker_state :=
  {| emr_connect_cache := emr_connect_cache st; scribe_token := scribe_token st;
     scribe_expires_at := scribe_expires_at st; logins := logins st ++ [q] |}.

Definition login_url (base : string) : string :=
  (PyStr.rstrip_char "/" base ++ "/connect-auth/v1/account/login")%string.

Section Broker.

(** The login endpoint: [None] when the call raises (transport error or
    [raise_for_status]); the answer may depend on the earlier calls. *)
Variable login : list login_request -> login_request -> option login_response.

(** The exchange itself: the request is logged, then its outcome read. *)
Definition exchange (q : login_request) (st : broker_state)
    : option login_response * broker_state :=
  (login (logins st) q, add_login st q).

Definition token_of (r : login_response) : pyres string :=
  match lr_access_token r with
  | Some t => if String.eqb t EmptyString
              then Err (ValueError "Connect Login response missing access_token") else Ok t
  | None => Err (ValueError "Connect Login response missing access_token")
  end.

(** [_fetch_connect_token_from_params]: no cache write. *)
Definition fetch_connect_token_from_params (client_id client_secret base_url : string)
    (st : broker_state) : pyres string * broker_state :=
  let q := {| lq_url := login_url base_url; lq_client_id := Some client_id;
              lq_client_secret := Some client_secret |} in
  let '(r, st') := exchange q st in
  match r with
  | None => (Err (TransportError "Connect Login failed"), st')
  | Some resp => (token_of resp, st')
  end.

(** [_fetch_connect_token_scribe]: [t_after] is the [time.time()] read
    after the call. *)
Definition fetch_connect_token_scribe (cfg : config) (t_after : Z) (st : broker_state)
    : pyres string * broker_state :=
  let q := {| lq_url := login_url (EKASCRIBE_BASE_URL cfg);
              lq_client_id := EKASCRIBE_CLIENT_ID cfg;
              lq_client_secret := EKASCRIBE_CLIENT_SECRET cfg |} in
  let '(r, st') := exchange q st in
  match r with
  | None => (Err (TransportError "Connect Login failed"), st')
  | Some resp =>
      match token_of resp with
      | Err e => (Err e, st')
      | Ok token =>
          let expires_in := match lr_expires_in resp with Some e => e | None => 1800 end - 60 in
          (Ok token,
           {| emr_connect_cache := emr_connect_cache st'; scribe_token := Some token;
              scribe_expires_at := Some (t_after + expires_in); logins := logins st' |})
      end
  end.

Definition truthy_s (o : option string) : bool := Executor.str_truthy o.

(** The login of [_fetch_connect_token_from_params] followed by the cache
    write of its callers: [expires_at = time.time() + 1800 - 60]. *)
Definition exchange_and_store (key : cache_key) (cid csec base : string) (t_after : Z)
    (st : broker_state) : pyres string * broker_state :=
  let '(r, st') := fetch_connect_token_from_params cid csec base st in
  match r with
  | Err e => (Err e, st')
  | Ok t => (Ok t, set_cache st' (<[key := {| access_token := t;
                                             expires_at := t_after + 1800 - 60 |}]>
                                     (emr_connect_cache st')))
  end.

(** [base = (base_url or <domain default> or "https://api.eka.care").rstrip("/")]. *)
Definition param_base (dom : domain) (cfg : config) (p : params) : string :=
  let cfg_base := match dom with Scribe => EKASCRIBE_BASE_URL cfg | Emr => EKAEMR_BASE_URL cfg end in
  PyStr.rstrip_char "/"
    (Executor.or_str (p_base_url p) (Executor.or_str (Some cfg_base) "https://api.eka.care")).

Definition validate_eka_scribe_config (cfg : config) : pyres unit :=
  if truthy_s (EKASCRIBE_API_TOKEN cfg) then Ok tt
  else if truthy_s (EKASCRIBE_CLIENT_ID cfg) && truthy_s (EKASCRIBE_CLIENT_SECRET cfg) then Ok tt
  else Err (ValueError "EkaScribe requires EKASCRIBE_API_TOKEN or client credentials").

Definition validate_eka_emr_config (cfg : config) : pyres unit :=
  if truthy_s (EKAEMR_API_TOKEN cfg) then Ok tt
  else if truthy_s (EKAEMR_CLIENT_ID cfg) && truthy_s (EKAEMR_CLIENT_SECRET cfg) then Ok tt
  else Err (ValueError "Eka EMR requires EKAEMR_API_TOKEN or client credentials").

Definition os (o : option string) : string := match o with Some s => s | None => EmptyString end.

(** [get_eka_scribe_headers]: [now] is the first [time.time()]. *)
Definition get_eka_scribe_headers (cfg : config) (now t_after : Z) (st : broker_state)
    : pyres (list (string * string)) * broker_state :=
  match validate_eka_scribe_config cfg with
  | Err e => (Err e, st)
  | Ok _ =>
      if truthy_s (EKASCRIBE_CLIENT_ID cfg) && truthy_s (EKASCRIBE_CLIENT_SECRET cfg) then
        if negb (truthy_s (scribe_token st))
           || (match scribe_expires_at st with Some e => e | None => 0 end <=? now)
        then let '(r, st') := fetch_connect_token_scribe cfg t_after st in
             (let! t := r in Ok (bearer t), st')
        else (Ok (bearer (os (scribe_token st))), st)
      else (Ok (bearer (os (EKASCRIBE_API_TOKEN cfg))), st)
  end.

(** [get_eka_emr_headers]. *)
Definition get_eka_emr_headers (cfg : config) (now t_after : Z) (st : broker_state)
    : pyres (list (string * string)) * broker_state :=
  match validate_eka_emr_config cfg with
  | Err e => (Err e, st)
  | Ok _ =>
      if truthy_s (EKAEMR_CLIENT_ID cfg) && truthy_s (EKAEMR_CLIENT_SECRET cfg) then
        let cid := os (EKAEMR_CLIENT_ID cfg) in
        let csec := os (EKAEMR_CLIENT_SECRET cfg) in
        let key : cache_key := ("emr", cid, csec, EKAEMR_BASE_URL cfg)%string in
        match emr_connect_cache st !! key with
        | Some c =>
            if now <? expires_at c then (Ok (bearer (access_token c)), st)
            else let '(r, st') := exchange_and_store key cid csec (EKAEMR_BASE_URL cfg) t_after st in
                 (let! t := r in Ok (bearer t), st')
        | None =>
            let '(r, st') := exchange_and_store key cid csec (EKAEMR_BASE_URL cfg) t_after st in
            (let! t := r in Ok (bearer t), st')
        end
      else (Ok (bearer (os (EKAEMR_API_TOKEN cfg))), st)
  end.

(** [get_eka_scribe_headers_from_params] and
    [get_eka_emr_headers_from_params]: the two functions differ only in
    the domain name of the key, the configured base URL and the default
    they fall back to. *)
Definition headers_from_params (dom : domain) (cfg : config) (p : params) (now t_after : Z)
    (st : broker_state) : pyres (list (string * string) * string) * broker_state :=
  let base := param_base dom cfg p in
  if truthy_s (p_api_token p) then (Ok (bearer (PyStr.strip (os (p_api_token p))), base), st)
  else if truthy_s (p_client_id p) && truthy_s (p_client_secret p) then
    let cid := PyStr.strip (os (p_client_id p)) in
    let csec := PyStr.strip (os (p_client_secret p)) in
    if String.eqb cid EmptyString || String.eqb csec EmptyString
    then (Err (ValueError "client_id and client_secret must be non-empty"), st)
    else
      let key : cache_key := (domain_name dom, cid, csec, base) in
      match emr_connect_cache st !! key with
      | Some c =>
          if now <? expires_at c then (Ok (bearer (access_token c), base), st)
          else let '(r, st') := exchange_and_store key cid csec base t_after st in
               (let! t := r in Ok (bearer t, base), st')
      | None =>
          let '(r, st') := exchange_and_store key cid csec base t_after st in
          (let! t := r in Ok (bearer t, base), st')
      end
  else
    let '(r, st') := match dom with
                     | Scribe => get_eka_scribe_headers cfg now t_after st
                     | Emr => get_eka_emr_headers cfg now t_after st
                     end in
    (let! h := r in Ok (h, base), st').

Definition get_eka_scribe_headers_from_params := headers_from_params Scribe.
Definition get_eka_emr_headers_from_params := headers_from_params Emr.

End Broker.

(** The cache key a call with per-call parameters resolves through: the
    client-credential strategy (no static token, both credentials given
    and non-blank after [strip]). *)
Definition client_credentials_key (dom : domain) (cfg : config) (p : params) : option cache_key :=
  if truthy_s (p_api_token p) then None
  else if truthy_s (p_client_id p) && truthy_s (p_client_secret p) then
    let cid := PyStr.strip (os (p_client_id p)) in
    let csec := PyStr.strip (os (p_client_secret p)) in
    if String.eqb cid EmptyString || String.eqb csec EmptyString then None
    else Some (domain_name dom, cid, csec, param_base dom cfg p)
  else None.

(** The login call made for a key. *)
Definition login_request_for (key : cache_key) : login_request :=
  let '(_, cid, csec, base) := key in
  {| lq_url := login_url base; lq_client_id := Some cid; lq_client_secret := Some csec |}.

End Broker.

(* ================================================================= *)
(** ** [str.format] with keyword arguments (CPython's [unicode_format.h]) *)

Module PyFormat.

Local Open Scope list_scope.

(** The exceptions of this layer: the [exn]s of the stages, and the
    [KeyError] and [IndexError] that [str.format] raises on a field it
    cannot resolve. *)
Inductive agent_exn :=
| PyExn (e : exn)
| KeyError (key : string)
| IndexError (msg : string).

Inductive ares (A : Type) := AOk (a : A) | AErr (e : agent_exn).
Arguments AOk {A} a.
Arguments AErr {A} e.

Definition abind {A B} (r : ares A) (k : A -> ares B) : ares B :=
  match r with AOk a => k a | AErr e => AErr e end.

Notation "'let?' x := r 'in' k" := (abind r (fun x => k))
  (at level 200, x name, r at level 100, k at level 200).

Definition lift {A} (r : pyres A) : ares A :=
  match r with Ok a => AOk a | Err e => AErr (PyExn e) end.

Definition value_error {A} (msg : string) : ares A := AErr (PyExn (ValueError msg)).

(** A parsed replacement field: name, conversion character, format spec. *)
Record field := { f_name : list ascii; f_conv : option ascii; f_spec : list ascii }.

(** The format spec after a conversion or [:]: up to the matching [}]. *)
Fixpoint spec_scan (count : nat) (l acc : list ascii) : ares (list ascii * list ascii) :=
  match l with
  | [] => value_error "unmatched '{' in format spec"
  | c :: r =>
      if Ascii.eqb c "{" then spec_scan (S count) r (acc ++ [c])
      else if Ascii.eqb c "}" then
        match count with
        | O | S O => AOk (acc, r)
        | S n => spec_scan n r (acc ++ [c])
        end
      else spec_scan count r (acc ++ [c])
  end.

(** The bracket loop of the field-name scan: up to, not past, [']']. *)
Fixpoint to_bracket (l acc : list ascii) : list ascii * list ascii :=
  match l with
  | [] => (acc, [])
  | c :: r => if Ascii.eqb c "]" then (acc, l) else to_bracket r (acc ++ [c])
  end.

(** [parse_field]: the field starts right after its [{]; the result is
    the field and the text after its closing [}]. *)
Fixpoint name_scan (fuel : nat) (l acc : list ascii) : ares (field * list ascii) :=
  match fuel with
  | O => value_error "expected '}' before end of string"
  | S f =>
  match l with
  | [] => value_error "expected '}' before end of string"
  | c :: r =>
      if Ascii.eqb c "{" then value_error "unexpected '{' in field name"
      else if Ascii.eqb c "[" then
        let '(inside, r') := to_bracket r [] in
        match r' with
        | [] => value_error "expected '}' before end of string"
        | _ => name_scan f r' (acc ++ c :: inside)
        end
      else if Ascii.eqb c "}" then AOk ({| f_name := acc; f_conv := None; f_spec := [] |}, r)
      else if Ascii.eqb c ":" then
        let? sr := spec_scan 1 r [] in let '(spec, r') := sr in
        AOk ({| f_name := acc; f_conv := None; f_spec := spec |}, r')
      else if Ascii.eqb c "!" then
        match r with
        | [] => value_error "end of string while looking for conversion specifier"
        | conv :: [] => value_error "unmatched '{' in format spec"
        | conv :: c2 :: r2 =>
            if Ascii.eqb c2 "}" then AOk ({| f_name := acc; f_conv := Some conv; f_spec := [] |}, r2)
            else if Ascii.eqb c2 ":" then
              let? sr := spec_scan 1 r2 [] in let '(spec, r') := sr in
              AOk ({| f_name := acc; f_conv := Some conv; f_spec := spec |}, r')
            else value_error "expected ':' after conversion specifier"
        end
      else name_scan f r (acc ++ [c])
  end
  end.

(** [field_name_split]: the part before the first [.] or [[]. *)
Fixpoint first_part (l : list ascii) : list ascii * list ascii :=
  match l with
  | [] => ([], [])
  | c :: r =>
      if Ascii.eqb c "." || Ascii.eqb c "[" then ([], l)
      else let '(a, b) := first_part r in (c :: a, b)
  end.

(** [get_integer]: [None] when some character is not a decimal digit
    (or the part is empty). *)
Definition get_integer (l : list ascii) : option Z :=
  match l with
  | [] => None
  | _ => if forallb PyStr.is_decimal_char l
         then PyStr.digits_value 0 (string_of_list_ascii l) else None
  end.

Definition ssize_max : Z := 2 ^ 63 - 1.

Section Format.

(** The keyword arguments, all strings here. *)
Variable kwargs : list (string * string).

(** The rendering of a resolved field that has an attribute or index
    access, a conversion or a format spec ([getattr], [__getitem__],
    [repr], [__format__]): not written out; every such field is passed
    to it. *)
Variable render : string -> list ascii -> option ascii -> list ascii -> ares string.

(** [get_field_object], then the rendering.  [str.format] has no
    positional arguments here, so a positional field always fails. *)
Definition resolve (fl : field) : ares string :=
  let '(first, rest) := first_part (f_name fl) in
  match first with
  | [] => AErr (IndexError "Replacement index 0 out of range for positional args tuple")
  | _ =>
      match get_integer first with
      | Some n =>
          if ssize_max <? n then value_error "Too many decimal digits in format string"
          else AErr (IndexError ("Replacement index " ++ PyStr.str_of_Z n
                                 ++ " out of range for positional args tuple")%string)
      | None =>
          match assoc_get (string_of_list_ascii first) kwargs with
          | None => AErr (KeyError (string_of_list_ascii first))
          | Some v =>
              match rest, f_conv fl, f_spec fl with
              | [], None, [] => AOk v
              | _, _, _ => render v rest (f_conv fl) (f_spec fl)
              end
          end
      end
  end.

(** [MarkupIterator_next] and the output loop; the fuel is the length
    of the text. *)
Fixpoint format_loop (fuel : nat) (l out : list ascii) : ares (list ascii) :=
  match fuel with
  | O => AOk (out ++ l)
  | S f =>
  match l with
  | [] => AOk out
  | c :: r =>
      if Ascii.eqb c "}" then
        match r with
        | c2 :: r2 => if Ascii.eqb c2 "}" then format_loop f r2 (out ++ [c])
                      else value_error "Single '}' encountered in format string"
        | [] => value_error "Single '}' encountered in format string"
        end
      else if Ascii.eqb c "{" then
        match r with
        | [] => value_error "Single '{' encountered in format string"
        | c2 :: r2 =>
            if Ascii.eqb c2 "{" then format_loop f r2 (out ++ [c])
            else
              let? fr := name_scan (length r) r [] in let '(fl, rest) := fr in
              let? v := resolve fl in
              format_loop f rest (out ++ list_ascii_of_string v)
        end
      else format_loop f r (out ++ [c])
  end
  end.

Definition py_format (fmt : string) : ares string :=
  let? out := format_loop (String.length fmt) (list_ascii_of_string fmt) [] in
  AOk (string_of_list_ascii out).

End Format.

End PyFormat.

(* ================================================================= *)
(** ** The mapping agent's entry points (graph.py, prompts.py,
    routers/agent_router.py) *)

Module Agent.

Import PyFormat.

Definition dq : string := String (ascii_of_nat 34) EmptyString.
Definition nl : string := String (ascii_of_nat 10) EmptyString.

(** [SPLIT_QUERIES_SYSTEM] and [SPLIT_QUERIES_USER] (prompts.py, 1-4). *)
Definition SPLIT_QUERIES_SYSTEM : string :=
  ("You are an expert at finding API documentation via web search. Given an EMR or API doc URL (or base URL), output 3-5 short search queries that will find the actual API documentation pages (endpoints, authentication, request/response format). Output ONLY a JSON object: {"
   ++ dq ++ "queries" ++ dq ++ ": [" ++ dq ++ "query1" ++ dq ++ ", " ++ dq ++ "query2" ++ dq
   ++ ", ...]}.")%string.

Definition SPLIT_QUERIES_USER : string :=
  ("API doc URL or EMR base URL: {api_doc_url}" ++ nl
   ++ "Generate 3-5 web search queries to find this EMR's API documentation (REST endpoints, auth, POST/GET, request body format). Output only JSON: {"
   ++ dq ++ "queries" ++ dq ++ ": [" ++ dq ++ "..." ++ dq ++ ", ...]}.")%string.

(** The text [split_queries] puts in place of a missing URL,
    ["(none – use EMR API docs search)"]; its dash U+2013 lies outside the
    Latin-1 alphabet of the model and is written ["?"]. *)
Definition none_text : string := "(none ? use EMR API docs search)".

(** [x or d] on values. *)
Definition or_json (v d : json) : json := if truthy v then v else d.

Definition ostr (o : option string) : json :=
  match o with Some s => JStr s | None => JNull end.

(** [_get_llm] (graph.py, 18-26) with the configured [GROQ_API_KEY] and
    [GROQ_MODEL]: the model name and key handed to [ChatGroq], whose
    construction does no I/O. *)
Definition get_llm (GROQ_API_KEY GROQ_MODEL : option string) (api_key model : json)
    : ares (string * string) :=
  match or_json api_key (or_json (ostr GROQ_API_KEY) (JStr EmptyString)) with
  | JStr k =>
      let key := PyStr.strip k in
      if String.eqb key EmptyString
      then value_error "GROQ_API_KEY is required for the mapping agent (set in config or .env)"
      else
        match or_json model (or_json (ostr GROQ_MODEL) (JStr "llama-3.3-70b-versatile")) with
        | JStr m => AOk (PyStr.strip m, key)
        | _ => AErr (PyExn (AttributeError "object has no attribute 'strip'"))
        end
  | _ => AErr (PyExn (AttributeError "object has no attribute 'strip'"))
  end.

Section Graph.

Variable GROQ_API_KEY GROQ_MODEL : option string.

(** [str(v)] of a value that is not a [str], and the rendering of
    formatted fields with a conversion or spec: Python's, not written out. *)
Variable py_str : json -> string.
Variable render : string -> list ascii -> option ascii -> list ascii -> ares string.

(** The chat model: the reply text for a system and a user message. *)
Variable invoke : string -> string -> string.

(** The recursion budget [json.loads] has when the node parses the reply:
    how many nested containers its scanner may enter before it raises
    [RecursionError]; it depends on the interpreter's stack at the call. *)
Variable json_depth : nat.

Definition to_str (v : json) : string := match v with JStr s => s | _ => py_str v end.

(** The [split_queries] node (graph.py, 46-63) on the pipeline state: the
    state update. *)
Definition split_queries_node (state : list (string * json)) : ares (list (string * json)) :=
  let urlv := Stages.get_or state "api_doc_url" (JStr EmptyString) in
  let? _ := get_llm GROQ_API_KEY GROQ_MODEL (dict_get state "groq_api_key")
                    (dict_get state "groq_model") in
  let? user := py_format [("api_doc_url", if truthy urlv then to_str urlv else none_text)]
                         render SPLIT_QUERIES_USER in
  let text := invoke SPLIT_QUERIES_SYSTEM user in
  let? qs := lift (Stages.split_queries json_depth (to_str urlv) text) in
  AOk [("search_queries", JObj [("queries", JArr (map JStr qs))])].

(** A node's update merged into the state (LangGraph's default channel
    write: the value of each returned key replaced). *)
Definition merge (state delta : list (string * json)) : list (string * json) :=
  fold_left (fun acc '(k, v) => assoc_set k v acc) delta state.

(** The nodes after [split_queries] ([search_docs], [fetch_docs],
    [plan_emr], [persist_mapping]), run in that order on the merged state:
    the final state, or the exception one of them raises. *)
Variable rest : list (string * json) -> ares (list (string * json)).

(** [run_emr_mapping_agent] (graph.py, 156-178): the graph invoked on its
    initial state; [START -> split_queries -> ...]. *)
Definition run_emr_mapping_agent (api_doc_url fhir_bundle emr_id : json)
    (groq_api_key groq_model : option string) : ares (list (string * json)) :=
  let initial := [("api_doc_url", api_doc_url); ("fhir_bundle", fhir_bundle);
                  ("emr_id", emr_id); ("groq_api_key", ostr groq_api_key);
                  ("groq_model", ostr groq_model)] in
  let? delta := split_queries_node initial in
  rest (merge initial delta).

(** [run_mapping_agent] (graph.py, 181-201). *)
Definition run_mapping_agent (input_data : json) (groq_api_key groq_model : option string)
    : ares (list (string * json)) :=
  match input_data with
  | JStr _ => value_error "EMR mapping agent expects dict with api_doc_url and fhir_bundle"
  | _ =>
      let data := match input_data with JObj kvs => kvs | _ => [] end in
      let url := Stages.get_or data "api_doc_url" (JStr EmptyString) in
      let bundle := or_json (dict_get data "fhir_bundle") (dict_get data "fhir_bundle_json") in
      match bundle with
      | JObj (_ :: _) =>
          run_emr_mapping_agent url bundle
            (match assoc_get "emr_id" data with Some v => v | None => JStr "default" end)
            groq_api_key groq_model
      | _ => value_error "fhir_bundle (or first row from Supabase) is required"
      end
  end.

(** An HTTP answer of the API: the result, or an [HTTPException] with its
    status and the exception whose [str] is its detail. *)
Inductive api_response :=
| Http200 (body : list (string * json))
| HttpException (status : Z) (e : agent_exn)
| HttpDetail (status : Z) (detail : string).

(** The [ValueError] family: pydantic's [ValidationError] is one. *)
Definition is_value_error (e : agent_exn) : bool :=
  match e with
  | PyExn (ValueError _) | PyExn (ValidationError _) => true
  | _ => false
  end.

(** [POST /mapping] (agent_router.py, 24-44) from the request's [data]
    dict on: [bundle] is what [get_first_fhir_bundle] returns, the two
    options the app's configured Groq key and model. *)
Definition run_mapping (data : list (string * json)) (bundle : option json)
    (app_groq_key app_groq_model : option string) : api_response :=
  match bundle with
  | None => HttpDetail 400 "No FHIR bundle in DB (fhir_bundles table empty)"
  | Some b =>
      match run_mapping_agent (JObj (assoc_set "fhir_bundle" b data)) app_groq_key app_groq_model with
      | AOk r => Http200 r
      | AErr e => HttpException (if is_value_error e then 400 else 502) e
      end
  end.

End Graph.

End Agent.

(* ================================================================= *)
(** ** Documentation search and fetch (agent/tools.py) *)

Module Tools.

Local Open Scope list_scope.

(** [DocSearchResultItem]. *)
Record doc_item := { di_url : string; di_title : string; di_content : string }.

(** A Tavily search result object: each attribute [getattr] reads, [None]
    when absent or [None]. *)
Record tavily_hit := {
  th_url : option string; th_href : option string; th_title : option string;
  th_content : option string; th_snippet : option string
}.

(** A DuckDuckGo result dict: [href], [title], [body]. *)
Record ddg_hit := { dh_href : option string; dh_title : option string; dh_body : option string }.

Definition or_str := Executor.or_str.

(** The loop over one query's results: a URL is kept when non-empty and
    not [seen] before. *)
Definition add_item (seen : list string) (items : list doc_item) (url title content : string)
    : list string * list doc_item :=
  if negb (String.eqb url EmptyString) && negb (existsb (String.eqb url) seen)
  then (seen ++ [url], items ++ [{| di_url := url; di_title := title;
                                     di_content := PyStr.take 2000 content |}])
  else (seen, items).

Fixpoint add_tavily (seen : list string) (items : list doc_item) (hits : list tavily_hit)
    : list string * list doc_item :=
  match hits with
  | [] => (seen, items)
  | r :: rest =>
      let '(seen', items') :=
        add_item seen items (or_str (th_url r) (or_str (th_href r) EmptyString))
                 (or_str (th_title r) EmptyString)
                 (or_str (th_content r) (or_str (th_snippet r) EmptyString)) in
      add_tavily seen' items' rest
  end.

Fixpoint add_ddg (seen : list string) (items : list doc_item) (hits : list ddg_hit)
    : list string * list doc_item :=
  match hits with
  | [] => (seen, items)
  | r :: rest =>
      let '(seen', items') :=
        add_item seen items (or_str (dh_href r) EmptyString) (or_str (dh_title r) EmptyString)
                 (or_str (dh_body r) EmptyString) in
      add_ddg seen' items' rest
  end.

(** The [for q in queries[:5]] loop; a query whose search raises
    ([None]) is skipped. *)
Fixpoint query_loop {H} (add : list string -> list doc_item -> list H -> list string * list doc_item)
    (search : string -> option (list H)) (qs : list string) (seen : list string)
    (items : list doc_item) : list doc_item :=
  match qs with
  | [] => items
  | q :: rest =>
      match search q with
      | None => query_loop add search rest seen items
      | Some hits => let '(seen', items') := add seen items hits in
                     query_loop add search rest seen' items'
      end
  end.

(** [tavily_search] (23-51): [client] is [None] when the import or the
    client construction raises; [search q] is [None] when the query
    raises. *)
Definition tavily_search (TAVILY_API_KEY : option string)
    (client : option (string -> option (list tavily_hit))) (queries : list string) : list doc_item :=
  if negb (Executor.str_truthy TAVILY_API_KEY && negb (Nat.eqb (length queries) 0)) then []
  else match client with
       | None => []
       | Some search => query_loop add_tavily search (firstn 5 queries) [] []
       end.

(** [fallback_web_search] (54-76): [ddgs] is [None] when opening the
    DuckDuckGo client raises. *)
Definition fallback_web_search (ddgs : option (string -> option (list ddg_hit)))
    (queries : list string) : list doc_item :=
  match ddgs with
  | None => []
  | Some text => query_loop add_ddg text (firstn 5 queries) [] []
  end.

(** [search_docs] (79-83). *)
Definition search_docs (TAVILY_API_KEY : option string)
    (client : option (string -> option (list tavily_hit)))
    (ddgs : option (string -> option (list ddg_hit))) (queries : list string) : list doc_item :=
  match tavily_search TAVILY_API_KEY client queries with
  | [] => fallback_web_search ddgs queries
  | r => r
  end.

Definition MAX_FETCH_CHARS : Z := 80000.

(** [fetch_url] (13-20): [get url] is the response text, [None] when the
    call or [raise_for_status] raises. *)
Definition fetch_url (get : string -> option string) (url : string) : option string :=
  match get url with
  | None => None
  | Some text =>
      Some (if MAX_FETCH_CHARS <? Z.of_nat (String.length text)
            then (PyStr.take (Z.to_nat MAX_FETCH_CHARS) text ++ String (ascii_of_nat 10) "... [truncated]")%string
            else text)
  end.

(** [fetch_docs_from_urls] (86-98): the [(url, content)] of the fetched
    documents, in order. *)
Definition fetch_docs_from_urls (get : string -> option string) (urls : list string)
    : list (string * string) :=
  flat_map (fun url =>
              if String.eqb url EmptyString || negb (PyStr.startswith url "http") then []
              else match fetch_url get url with
                   | Some content => [(url, content)]
                   | None => []
                   end)
           (firstn 10 urls).

End Tools.

(* ================================================================= *)
(** ** The search and fetch nodes (graph.py, 66-91) *)

Module Nodes.

Import Tools.

Local Open Scope list_scope.

(** [DocSearchResultItem.model_dump()]. *)
Definition dump_item (d : doc_item) : json :=
  JObj [("url", JStr (di_url d)); ("title", JStr (di_title d)); ("content", JStr (di_content d))].

Definition default_queries : json :=
  JArr [JStr "EMR API documentation"; JStr "REST API FHIR endpoints"].

(** [search_docs_node] (66-74): [search] is [search_docs] on the value
    it is given. *)
Definition search_docs_node (search : json -> list doc_item) (state : list (string * json))
    : pyres (list (string * json)) :=
  match Stages.get_or state "search_queries" (JObj []) with
  | JObj qd =>
      let queries := Stages.get_or qd "queries" (JArr []) in
      let queries := if truthy queries then queries else default_queries in
      Ok [("doc_search_result", JObj [("results", JArr (map dump_item (search queries)))])]
  | _ => Err (AttributeError "object has no attribute 'get'")
  end.

(** [[r.get("url", "") for r in results if r.get("url")]]. *)
Fixpoint result_urls (results : list json) : pyres (list json) :=
  match results with
  | [] => Ok []
  | JObj r :: rest =>
      let url := match assoc_get "url" r with Some v => v | None => JStr EmptyString end in
      let! us := result_urls rest in
      Ok (if truthy url then url :: us else us)
  | _ :: _ => Err (AttributeError "object has no attribute 'get'")
  end.

(** The [url.startswith] of [fetch_docs_from_urls] on each of the first
    ten URLs: a value that is not a [str] raises. *)
Fixpoint str_urls (urls : list json) : pyres (list string) :=
  match urls with
  | [] => Ok []
  | JStr u :: rest => let! us := str_urls rest in Ok (u :: us)
  | _ :: _ => Err (AttributeError "object has no attribute 'startswith'")
  end.

(** [sep.join(parts)]. *)
Fixpoint join (sep : string) (parts : list string) : string :=
  match parts with
  | [] => EmptyString
  | [p] => p
  | p :: rest => (p ++ sep ++ join sep rest)%string
  end.

Definition two_nl : string := String (ascii_of_nat 10) (String (ascii_of_nat 10) EmptyString).

(** [f"--- URL: {d.url} ---\n{d.content[:15000]}"]. *)
Definition doc_part (d : string * string) : string :=
  ("--- URL: " ++ fst d ++ " ---" ++ String (ascii_of_nat 10) EmptyString
   ++ PyStr.take (Z.to_nat 15000) (snd d))%string.

(** [fetch_docs_node] (77-91): [get] as for [fetch_url]. *)
Definition fetch_docs_node (get : string -> option string) (state : list (string * json))
    : pyres (list (string * json)) :=
  match Stages.get_or state "doc_search_result" (JObj []) with
  | JObj sd =>
      let! results := Stages.py_iter (Stages.get_or sd "results" (JArr [])) in
      let! urls := result_urls results in
      match urls with
      | [] => Ok [("fetched_docs", JObj [("docs", JArr [])]);
                  ("doc_content", JStr "(no docs fetched)")]
      | _ =>
          let! us := str_urls (firstn 10 urls) in
          let fetched := fetch_docs_from_urls get us in
          let parts := map doc_part fetched in
          let doc_content := match parts with
                             | [] => "(no content)"%string
                             | _ => PyStr.take (Z.to_nat 100000) (join two_nl parts)
                             end in
          Ok [("fetched_docs",
               JObj [("docs", JArr (map (fun '(u, c) => JObj [("url", JStr u); ("content", JStr c)])
                                        fetched))]);
              ("doc_content", JStr doc_content)]
      end
  | _ => Err (AttributeError "object has no attribute 'get'")
  end.

End Nodes.

(* ================================================================= *)
(** ** The configuration read at import (config.py, 16-61) *)

Module Settings.

(** [os.getenv(k, "").strip() or None]; [env k] is [os.getenv(k)]. *)
Definition env_str (env : string -> option string) (k : string) : option string :=
  let v := PyStr.strip (match env k with Some s => s | None => EmptyString end) in
  if String.eqb v EmptyString then None else Some v.

(** [a or b] on values that are [None] or non-empty strings. *)
Definition or_opt (a b : option string) : option string :=
  match a with Some _ => a | None => b end.

Definition or_default (a : option string) (d : string) : string :=
  match a with Some s => s | None => d end.

Definition load_config (env : string -> option string) : Broker.config :=
  let EKA_API_TOKEN := env_str env "EKA_API_TOKEN" in
  let EKA_CLIENT_ID := env_str env "EKA_CLIENT_ID" in
  let EKA_CLIENT_SECRET := env_str env "EKA_CLIENT_SECRET" in
  let EKA_BASE_URL := or_default (env_str env "EKA_BASE_URL") "https://api.eka.care" in
  let EKA_CLIENT_SCRIBE_SECRET := env_str env "EKA_CLIENT_SCRIBE_SECRET" in
  let EKA_CLIENT_SCRIBE_CLIENT_ID := env_str env "EKA_CLIENT_SCRIBE_CLIENT_ID" in
  {| Broker.EKASCRIBE_API_TOKEN :=
       or_opt (env_str env "EKASCRIBE_API_TOKEN") (or_opt EKA_API_TOKEN EKA_CLIENT_SCRIBE_SECRET);
     Broker.EKASCRIBE_CLIENT_ID :=
       or_opt (env_str env "EKASCRIBE_CLIENT_ID") (or_opt EKA_CLIENT_ID EKA_CLIENT_SCRIBE_CLIENT_ID);
     Broker.EKASCRIBE_CLIENT_SECRET := or_opt (env_str env "EKASCRIBE_CLIENT_SECRET") EKA_CLIENT_SECRET;
     Broker.EKASCRIBE_BASE_URL := or_default (env_str env "EKASCRIBE_BASE_URL") EKA_BASE_URL;
     Broker.EKAEMR_API_TOKEN := or_opt (env_str env "EKAEMR_API_TOKEN") EKA_API_TOKEN;
     Broker.EKAEMR_CLIENT_ID := or_opt (env_str env "EKAEMR_CLIENT_ID") EKA_CLIENT_ID;
     Broker.EKAEMR_CLIENT_SECRET := or_opt (env_str env "EKAEMR_CLIENT_SECRET") EKA_CLIENT_SECRET;
     Broker.EKAEMR_BASE_URL := or_default (env_str env "EKAEMR_BASE_URL") EKA_BASE_URL |}.

(** [CORS_ORIGINS] (lines 59-60). *)
Definition cors_origins (env : string -> option string) : list string :=
  let raw := PyStr.strip (or_default (env "CORS_ORIGINS") "http://localhost:3000") in
  if String.eqb raw "*" then ["*"%string]
  else match List.filter (fun o => negb (String.eqb o EmptyString))
                    (map PyStr.strip (PyStr.split "," raw)) with
       | [] => ["http://localhost:3000"%string]
       | l => l
       end.

(** [GROQ_API_KEY] and [GROQ_MODEL] (lines 54-55). *)
Definition groq_api_key (env : string -> option string) : option string := env_str env "GROQ_API_KEY".

Definition groq_model (env : string -> option string) : string :=
  or_default (env_str env "GROQ_MODEL") "llama-3.3-70b-versatile".

End Settings.

(* ================================================================= *)
(** ** A caller of the broker: [_eka_headers_and_base]
    (services/eka_abdm.py, 33-41) *)

Module Abdm.

Import Broker.

Definition EKAEMR_BASE : string := "https://api.eka.care".

Section Login.
Variable login : list login_request -> login_request -> option login_response.

(** [eka_auth] is [None] for [None] or an empty dict, otherwise its four
    [get]s. *)
Definition eka_headers_and_base (cfg : config) (eka_auth : option params) (now t_after : Z)
    (st : broker_state) : pyres (list (string * string) * string) * broker_state :=
  match eka_auth with
  | Some p =>
      if truthy_s (p_api_token p) || (truthy_s (p_client_id p) && truthy_s (p_client_secret p))
      then get_eka_emr_headers_from_params login cfg p now t_after st
      else let '(r, st') := get_eka_emr_headers login cfg now t_after st in
           (let! h := r in Ok (h, PyStr.rstrip_char "/" (Executor.or_str (Some (EKAEMR_BASE_URL cfg)) EKAEMR_BASE)), st')
  | None =>
      let '(r, st') := get_eka_emr_headers login cfg now t_after st in
      (let! h := r in Ok (h, PyStr.rstrip_char "/" (Executor.or_str (Some (EKAEMR_BASE_URL cfg)) EKAEMR_BASE)), st')
  end.

End Login.

End Abdm.

(* ================================================================= *)
(** * Sample inputs *)

Module Fixtures.

(** Characters other than the superscript digits: [isdigit] and
    [isdecimal] agree on them. *)
Definition no_superscript (c : ascii) : bool :=
  negb (PyStr.is_digit_char c) || PyStr.is_decimal_char c.

(** The superscript two, U+00B2. *)
Definition sup2 : string := String (ascii_of_nat 178) EmptyString.

(** [c * n]: the character [c] repeated [n] times. *)
Fixpoint repeat_char (n : nat) (c : ascii) : string :=
  match n with O => EmptyString | S k => String c (repeat_char k c) end.

(** A line break, and a reply wrapped in a code fence. *)
Definition nl : string := String (ascii_of_nat 10) EmptyString.

Definition fenced (lang body : string) : string :=
  ("```" ++ lang ++ nl ++ body ++ nl ++ "```")%string.

(** The upsert of the plan store failing with a database error. *)
Definition failing_upsert (_ _ _ _ : json) : pyres unit := Err (TransportError "database unavailable").

(** A pipeline state whose plan holds a push spec that is not a dict. *)
Definition state_with_invalid_spec : list (string * json) :=
  [("request_plan", JObj [("push_fhir", JArr [JInt 5])])].

(** [RequestSpec()]: every field at its default. *)
Definition default_spec : Stages.RequestSpec :=
  {| Stages.method := "POST"; Stages.url := EmptyString; Stages.headers := []; Stages.body_template := JNull;
     Stages.fhir_mapping := []; Stages.description := EmptyString |}.

(** A configuration with no credentials of its own. *)
Definition cfg0 : Broker.config :=
  {| Broker.EKASCRIBE_API_TOKEN := None; Broker.EKASCRIBE_CLIENT_ID := None;
     Broker.EKASCRIBE_CLIENT_SECRET := None; Broker.EKASCRIBE_BASE_URL := "https://api.eka.care";
     Broker.EKAEMR_API_TOKEN := None; Broker.EKAEMR_CLIENT_ID := None;
     Broker.EKAEMR_CLIENT_SECRET := None; Broker.EKAEMR_BASE_URL := "https://api.eka.care" |}.

(** The same with scribe client credentials configured. *)
Definition cfg_scribe : Broker.config :=
  {| Broker.EKASCRIBE_API_TOKEN := None; Broker.EKASCRIBE_CLIENT_ID := Some "cid";
     Broker.EKASCRIBE_CLIENT_SECRET := Some "sec"; Broker.EKASCRIBE_BASE_URL := "https://api.eka.care";
     Broker.EKAEMR_API_TOKEN := None; Broker.EKAEMR_CLIENT_ID := None;
     Broker.EKAEMR_CLIENT_SECRET := None; Broker.EKAEMR_BASE_URL := "https://api.eka.care" |}.

(** Per-call client credentials, no static token, default base URL. *)
Definition client_params : Broker.params :=
  {| Broker.p_api_token := None; Broker.p_client_id := Some "cid";
     Broker.p_client_secret := Some "sec"; Broker.p_base_url := None |}.

Definition emr_key : Broker.cache_key := ("emr", "cid", "sec", "https://api.eka.care")%string.

(** The process start: empty caches, no login made yet. *)
Definition empty_state : Broker.broker_state :=
  {| Broker.emr_connect_cache := empty; Broker.scribe_token := None;
     Broker.scribe_expires_at := None; Broker.logins := [] |}.

Definition cached_state : Broker.broker_state :=
  Broker.set_cache empty_state {[ emr_key := {| Broker.access_token := "tok";
                                                Broker.expires_at := 2740 |} ]}.

(** A login endpoint answering [{access_token: "tok", expires_in: e}]. *)
Definition login_answering (e : Z) (_ : list Broker.login_request) (_ : Broker.login_request)
    : option Broker.login_response :=
  Some {| Broker.lr_access_token := Some "tok"; Broker.lr_expires_in := Some e |}.

End Fixtures.

(* ================================================================= *)
(** * Properties *)

(* ----------------------------------------------------------------- *)
(** ** Strings *)

Module StringFacts.

(** [String.append] is [simpl never] under stdpp: its two equations. *)
Lemma app_nil (q : string) : (EmptyString ++ q)%string = q.
Proof. reflexivity. Qed.

Lemma app_cons (c : ascii) (p q : string) : (String c p ++ q)%string = String c (p ++ q).
Proof. reflexivity. Qed.

Lemma substring_0_app (p q : string) :
  substring 0 (String.length p) (p ++ q) = p.
Proof.
  induction p as [|c p IH]; [destruct q; reflexivity|].
  rewrite app_cons. simpl. now rewrite IH.
Qed.

Lemma substring_0_full (q : string) : substring 0 (String.length q) q = q.
Proof. induction q as [|c q IH]; simpl; [reflexivity | now rewrite IH]. Qed.

Lemma substring_len_app (p q : string) :
  substring (String.length p) (String.length q) (p ++ q) = q.
Proof.
  induction p as [|c p IH]; [apply substring_0_full|].
  rewrite app_cons. exact IH.
Qed.

Lemma length_app (p q : string) :
  String.length (p ++ q) = (String.length p + String.length q)%nat.
Proof. induction p; [reflexivity|]. rewrite app_cons. simpl. congruence. Qed.

Lemma substring_split (n : nat) (s : string) :
  (n <= String.length s)%nat ->
  s = (substring 0 n s ++ substring n (String.length s - n) s)%string.
Proof.
  revert s; induction n as [|n IH]; intros s Hn.
  - simpl. rewrite Nat.sub_0_r. destruct s as [|c s]; [reflexivity|].
    simpl. rewrite app_nil. f_equal. symmetry. apply substring_0_full.
  - destruct s as [|c s]; simpl in Hn; [lia|]. simpl. rewrite app_cons. f_equal. apply IH. lia.
Qed.

Lemma chop_suffix_app (suf p : string) :
  TemplatingSpec.chop_suffix suf (p ++ suf) = Some p.
Proof.
  induction p as [|c p IH].
  - rewrite app_nil. destruct suf; [reflexivity|]. cbn -[String.eqb].
    now rewrite String.eqb_refl.
  - rewrite app_cons. cbn -[String.eqb]. destruct (String.eqb (String c (p ++ suf)) suf) eqn:E.
    + apply String.eqb_eq in E. apply (f_equal String.length) in E.
      simpl in E. rewrite length_app in E. lia.
    + now rewrite IH.
Qed.

Lemma chop_suffix_sound (suf s p : string) :
  TemplatingSpec.chop_suffix suf s = Some p -> s = (p ++ suf)%string.
Proof.
  revert p; induction s as [|c s IH]; intros p H; cbn -[String.eqb] in H.
  - destruct (String.eqb EmptyString suf) eqn:E; [|discriminate].
    apply String.eqb_eq in E. injection H as <-. now subst.
  - destruct (String.eqb (String c s) suf) eqn:E.
    + apply String.eqb_eq in E. injection H as <-. now subst.
    + destruct (TemplatingSpec.chop_suffix suf s) as [p'|] eqn:E2; [|discriminate].
      injection H as <-. rewrite app_cons. f_equal. now apply IH.
Qed.

Lemma chop_prefix_sound (p s r : string) :
  TemplatingSpec.chop_prefix p s = Some r -> s = (p ++ r)%string.
Proof.
  revert s; induction p as [|a p IH]; intros s H.
  - injection H as <-. reflexivity.
  - destruct s as [|b s]; [discriminate|]. cbn in H.
    destruct (Ascii.eqb a b) eqn:E; [|discriminate].
    apply Ascii.eqb_eq in E as <-. rewrite app_cons. f_equal. now apply IH.
Qed.

Lemma chop_prefix_app (p r : string) :
  TemplatingSpec.chop_prefix p (p ++ r) = Some r.
Proof.
  induction p as [|a p IH]; [destruct r; reflexivity|].
  rewrite app_cons. cbn. now rewrite Ascii.eqb_refl.
Qed.

Lemma prefix_app (p r : string) : String.prefix p (p ++ r) = true.
Proof.
  induction p as [|a p IH]; [destruct r; reflexivity|].
  rewrite app_cons. cbn. destruct (Ascii.ascii_dec a a); [exact IH | contradiction].
Qed.

Lemma prefix_sound (p s : string) : String.prefix p s = true -> exists r, s = (p ++ r)%string.
Proof.
  revert s; induction p as [|a p IH]; intros s H.
  - now exists s.
  - destruct s as [|b s]; [discriminate|]. cbn in H.
    destruct (Ascii.ascii_dec a b) as [<-|]; [|discriminate].
    destruct (IH s H) as [r ->]. exists r. reflexivity.
Qed.

(** [v.startswith("{{") and v.endswith("}}")] followed by [v[2:-2]] is
    the same as matching ["{{" ++ p ++ "}}"]: the two tests cannot overlap. *)
Lemma placeholder_source_spec (s : string) :
  Templating.is_placeholder (JStr s) = option_map PyStr.strip (TemplatingSpec.placeholder_of s).
Proof.
  unfold Templating.is_placeholder, TemplatingSpec.placeholder_of, PyStr.startswith.
  destruct (String.prefix "{{" s) eqn:Hs.
  2:{ destruct (TemplatingSpec.chop_prefix "{{" s) as [r|] eqn:Hc; [|reflexivity].
      apply chop_prefix_sound in Hc. subst s. now rewrite prefix_app in Hs. }
  destruct (prefix_sound _ _ Hs) as [r ->]. rewrite chop_prefix_app.
  change ("{{" ++ r)%string with (String "{" (String "{" r)).
  cbn [andb]. unfold PyStr.endswith, PyStr.slice_from_to_end.
  cbn [String.length].
  destruct (Nat.le_gt_cases 2 (String.length r)) as [Hl|Hl].
  - assert (Hsplit := substring_split (String.length r - 2) r ltac:(lia)).
    replace (String.length r - (String.length r - 2))%nat with 2%nat in Hsplit by lia.
    set (p := substring 0 (String.length r - 2) r) in *.
    set (t := substring (String.length r - 2) 2 r) in *.
    replace (2 <=? S (S (String.length r)))%nat with true by (symmetry; apply Nat.leb_le; lia).
    replace (S (S (String.length r)) - 2)%nat with (String.length r) by lia.
    assert (Hsub : substring (String.length r) 2 (String "{" (String "{" r)) = t).
    { subst t. replace (String.length r) with (S (S (String.length r - 2))) at 1 by lia.
      reflexivity. }
    rewrite Hsub. cbn [andb].
    change (substring 2 (String.length r - 2) (String "{" (String "{" r))) with p.
    destruct (String.eqb t "}}") eqn:Et.
    + apply String.eqb_eq in Et. rewrite Et in Hsplit.
      rewrite Hsplit. now rewrite chop_suffix_app.
    + destruct (TemplatingSpec.chop_suffix "}}" r) as [q|] eqn:Ec; [|reflexivity].
      apply chop_suffix_sound in Ec. exfalso.
      assert (Hlen : String.length r = (String.length q + 2)%nat)
        by (rewrite Ec, length_app; reflexivity).
      assert (t = "}}"%string).
      { subst t. rewrite Hlen. replace (String.length q + 2 - 2)%nat with (String.length q) by lia.
        rewrite Ec. apply (substring_len_app q "}}"). }
      rewrite H, String.eqb_refl in Et. discriminate.
  - destruct r as [|c [|d r]]; cbn [String.length] in Hl; try lia.
    + reflexivity.
    + cbn. destruct (Ascii.eqb c "}"); reflexivity.
Qed.

End StringFacts.

(* ----------------------------------------------------------------- *)
(** ** Path navigation and the templating engine *)

Module TemplatingFacts.

Import Templating Executor Fixtures.

(** Induction over JSON values through their lists and items. *)
Lemma json_ind2 (P : json -> Prop)
  (Hnull : P JNull) (Hbool : forall b, P (JBool b)) (Hint : forall z, P (JInt z))
  (Hfloat : forall l, P (JFloat l)) (Hstr : forall s, P (JStr s))
  (Harr : forall xs, Forall P xs -> P (JArr xs))
  (Hobj : forall kvs, Forall (fun kv => P (snd kv)) kvs -> P (JObj kvs)) :
  forall v, P v.
Proof.
  fix IH 1. intros [| b | z | l | s | xs | kvs];
    [exact Hnull | apply Hbool | apply Hint | apply Hfloat | apply Hstr | |].
  - apply Harr. revert xs. fix IHl 1. intros [|x xs]; constructor; [apply IH | apply IHl].
  - apply Hobj. revert kvs. fix IHl 1. intros [|[k v] kvs]; constructor; [apply IH | apply IHl].
Qed.

Lemma apply_string (s : string) (m : list (string * string)) (b : json) :
  apply_fhir_mapping (JStr s) m b = Ok (JStr s).
Proof. cbn. now destruct (Nat.eqb (length m) 0). Qed.

Lemma digits_value_ok (s : string) (acc : Z) :
  PyStr.all_chars PyStr.is_decimal_char s = true -> exists z, PyStr.digits_value acc s = Some z.
Proof.
  revert acc; induction s as [|c s IH]; intros acc H; [now eexists|].
  cbn in H |- *. apply andb_prop in H as [H1 H2]. rewrite H1. now apply IH.
Qed.

Lemma lead_decimals_le (s : string) : (PyStr.lead_decimals s <= String.length s)%nat.
Proof.
  induction s as [|c s IH]; [reflexivity|]. cbn [PyStr.lead_decimals String.length].
  destruct (PyStr.is_decimal_char c); lia.
Qed.

Lemma step_ok (obj : json) (seg : string) :
  PyStr.all_chars no_superscript seg = true -> (String.length seg <= 4300)%nat ->
  exists v, step obj seg = Ok v.
Proof.
  intros H Hlen. destruct obj; try (now eexists).
  cbn. destruct (PyStr.isdigit seg) eqn:Hd; [|now eexists].
  assert (Hdec : PyStr.all_chars PyStr.is_decimal_char seg = true).
  { destruct seg as [|c r]; [discriminate|]. unfold PyStr.isdigit in Hd. revert Hd H.
    generalize (String c r) as s. intros s. induction s as [|c' s IHs]; [reflexivity|].
    cbn. intros Hd H. apply andb_prop in Hd as [Hd1 Hd2]. apply andb_prop in H as [H1 H2].
    unfold no_superscript in H1. rewrite Hd1 in H1. cbn in H1. rewrite H1. now apply IHs. }
  destruct (digits_value_ok seg 0 Hdec) as [z Hz].
  assert (Hlim : (PyStr.int_max_str_digits <? PyStr.lead_decimals seg)%nat = false)
    by (apply Nat.ltb_ge; pose proof (lead_decimals_le seg); unfold PyStr.int_max_str_digits; lia).
  unfold PyStr.py_int. rewrite Hlim, Hz. cbn. now eexists.
Qed.

Lemma all_chars_split (p : ascii -> bool) (sep : ascii) (s : string) :
  PyStr.all_chars p s = true -> Forall (fun x => PyStr.all_chars p x = true) (PyStr.split sep s).
Proof.
  induction s as [|c s IH]; intros H; cbn in H |- *; [constructor; [reflexivity | constructor]|].
  apply andb_prop in H as [H1 H2]. specialize (IH H2).
  destruct (Ascii.eqb c sep); [constructor; [reflexivity | exact IH]|].
  destruct (PyStr.split sep s) as [|h t] eqn:E.
  - constructor; [cbn; now rewrite H1 | constructor].
  - inversion IH; subst. constructor; [cbn; now rewrite H1, H3 | assumption].
Qed.

Lemma all_chars_remove (p : ascii -> bool) (ch : ascii) (s : string) :
  PyStr.all_chars p s = true -> PyStr.all_chars p (PyStr.remove_char ch s) = true.
Proof.
  induction s as [|c s IH]; intros H; [reflexivity|]. cbn in H |- *.
  apply andb_prop in H as [H1 H2]. destruct (Ascii.eqb c ch); cbn; [auto | now rewrite H1, IH].
Qed.

Lemma split_seg_length (sep : ascii) (s : string) :
  Forall (fun x => (String.length x <= String.length s)%nat) (PyStr.split sep s).
Proof.
  induction s as [|c s IH]; cbn [PyStr.split]; [constructor; [reflexivity | constructor]|].
  change (String.length (String c s)) with (S (String.length s)).
  destruct (Ascii.eqb c sep).
  - constructor; [cbn; lia|]. eapply List.Forall_impl; [|exact IH]. intros x Hx; cbv beta in Hx |- *; lia.
  - destruct (PyStr.split sep s) as [|h t] eqn:E.
    + constructor; [cbn; lia | constructor].
    + inversion IH; subst. constructor; [change (String.length (String c h)) with (S (String.length h)); lia|].
      eapply List.Forall_impl; [|eassumption]. intros x Hx; cbv beta in Hx |- *; lia.
Qed.

Lemma remove_char_length (ch : ascii) (s : string) :
  (String.length (PyStr.remove_char ch s) <= String.length s)%nat.
Proof.
  induction s as [|c s IH]; [reflexivity|]. cbn [PyStr.remove_char].
  destruct (Ascii.eqb c ch); cbn; lia.
Qed.

Lemma seg_ok_split (sep : ascii) (s : string) :
  PyStr.all_chars no_superscript s = true /\ (String.length s <= 4300)%nat ->
  Forall (fun x => PyStr.all_chars no_superscript x = true /\ (String.length x <= 4300)%nat) (PyStr.split sep s).
Proof.
  intros [H1 H2]. pose proof (all_chars_split _ sep s H1) as A. pose proof (split_seg_length sep s) as B.
  rewrite List.Forall_forall in A, B |- *. intros x Hx. split; [apply A, Hx|]. specialize (B x Hx). lia.
Qed.

Lemma walk_segs_ok (segs : list string) (obj : json) :
  Forall (fun x => PyStr.all_chars no_superscript x = true /\ (String.length x <= 4300)%nat) segs ->
  exists r, walk_segs obj segs = Ok r.
Proof.
  intros H; revert obj; induction H as [|seg segs [Hseg Hlen] Hsegs IH]; intros obj; cbn; [now eexists|].
  destruct (String.eqb seg EmptyString); [apply IH|].
  destruct (step_ok obj seg Hseg Hlen) as [v ->]. cbn. destruct v; try apply IH. now eexists.
Qed.

Lemma walk_parts_ok (parts : list string) (obj : json) :
  Forall (fun x => PyStr.all_chars no_superscript x = true /\ (String.length x <= 4300)%nat) parts ->
  exists r, walk_parts obj parts = Ok r.
Proof.
  intros H; revert obj; induction H as [|part parts Hp Hps IH]; intros obj; cbn; [now eexists|].
  destruct (walk_segs_ok (PyStr.split "." part) obj (seg_ok_split _ _ Hp)) as [r ->].
  cbn. destruct r; [apply IH | now eexists].
Qed.

Lemma get_path_ok (obj : json) (path : string) :
  PyStr.all_chars no_superscript path = true -> (String.length path <= 4300)%nat ->
  exists v, get_path obj path = Ok v.
Proof.
  intros H Hlen. unfold get_path.
  assert (Hr : PyStr.all_chars no_superscript (PyStr.remove_char "]" path) = true
               /\ (String.length (PyStr.remove_char "]" path) <= 4300)%nat)
    by (split; [apply all_chars_remove, H | pose proof (remove_char_length "]" path); lia]).
  destruct (walk_parts_ok (PyStr.split "[" (PyStr.remove_char "]" path)) obj
              (seg_ok_split _ _ Hr)) as [r ->].
  now eexists.
Qed.

(** The spec's own examples of path navigation. *)
Example get_path_examples :
  get_path (JObj [("entry", JArr [JObj [("resource", JObj [("id", JStr "42")])]])])
           "entry[0].resource.id" = Ok (JStr "42")
  /\ get_path (JObj []) "a.b.c" = Ok JNull
  /\ get_path (JObj [("a", JArr [JInt 1; JInt 2])]) "a[5]" = Ok JNull.
Proof. vm_compute. auto. Qed.

Lemma apply_refines_list (m : list (string * string)) (b : json) (xs : list json) :
  m <> [] ->
  Forall (fun x => apply_fhir_mapping x m b = TemplatingSpec.copy_subst x b) xs ->
  apply_fhir_mapping (JArr xs) m b = TemplatingSpec.copy_subst (JArr xs) b.
Proof.
  intros Hm H.
  assert (Hlen : Nat.eqb (length m) 0 = false) by (destruct m; [congruence | reflexivity]).
  cbn [apply_fhir_mapping TemplatingSpec.copy_subst]. rewrite Hlen.
  match goal with |- pbind (?F xs) ?K = pbind (?G xs) ?K =>
    enough (Hfg : F xs = G xs) by (rewrite Hfg; reflexivity) end.
  induction H as [|x xs Hx Hxs IH]; [reflexivity|].
  cbn. rewrite Hx, IH. reflexivity.
Qed.

Lemma apply_refines_obj (m : list (string * string)) (b : json) (kvs : list (string * json)) :
  m <> [] ->
  Forall (fun kv => apply_fhir_mapping (snd kv) m b = TemplatingSpec.copy_subst (snd kv) b) kvs ->
  apply_fhir_mapping (JObj kvs) m b = TemplatingSpec.copy_subst (JObj kvs) b.
Proof.
  intros Hm H.
  assert (Hlen : Nat.eqb (length m) 0 = false) by (destruct m; [congruence | reflexivity]).
  cbn [apply_fhir_mapping TemplatingSpec.copy_subst]. rewrite Hlen.
  match goal with |- pbind (?F kvs) ?K = pbind (?G kvs) ?K =>
    enough (Hfg : F kvs = G kvs) by (rewrite Hfg; reflexivity) end.
  induction H as [|[k v] kvs Hv Hkvs IH]; [reflexivity|].
  cbn [snd] in Hv. cbn. rewrite IH.
  destruct v as [| | | | s | |]; try (cbn [is_placeholder]; rewrite Hv; reflexivity).
  rewrite StringFacts.placeholder_source_spec.
  destruct (TemplatingSpec.placeholder_of s); cbn [option_map]; [reflexivity|].
  rewrite apply_string. reflexivity.
Qed.

(** Claim C1 (as amended): whenever the spec's [fhir_mapping] is
    non-empty, [_apply_fhir_mapping] is the recursive structural copy the
    spec describes: in every mapping a string value of the exact form
    ["{{" ++ path ++ "}}"] becomes the path navigation of the stripped path,
    every other value is kept, and mappings and sequences are walked
    recursively.  When [fhir_mapping] is empty, the template is returned
    unchanged, placeholders included. *)
Theorem apply_fhir_mapping_is_structural_copy (t bundle : json) (m : list (string * string)) :
  (m <> [] -> apply_fhir_mapping t m bundle = TemplatingSpec.copy_subst t bundle)
  /\ (m = [] -> apply_fhir_mapping t m bundle = Ok t).
Proof.
  split; [|intros ->; destruct t; reflexivity].
  intros Hm.
  assert (Hlen : Nat.eqb (length m) 0 = false) by (destruct m; [congruence | reflexivity]).
  induction t as [| | | | s | xs IH | kvs IH] using json_ind2;
    try (cbn; rewrite Hlen; reflexivity).
  - now apply apply_refines_list.
  - now apply apply_refines_obj.
Qed.

Lemma apply_fhir_mapping_is_structural_copy_witness :
  ([("patient_id", "id")] : list (string * string)) <> []
  /\ apply_fhir_mapping (JObj [("id", JStr "{{ entry[0].resource.id }}"); ("kind", JStr "visit")])
    [("patient_id", "id")]
    (JObj [("entry", JArr [JObj [("resource", JObj [("id", JStr "42")])]])])
  = TemplatingSpec.copy_subst
      (JObj [("id", JStr "{{ entry[0].resource.id }}"); ("kind", JStr "visit")])
      (JObj [("entry", JArr [JObj [("resource", JObj [("id", JStr "42")])]])]).
Proof.
  split; [discriminate|].
  apply (proj1 (apply_fhir_mapping_is_structural_copy _ _ [("patient_id", "id")])). discriminate.
Defined.

(** Claim C1, as stated, fails: with an empty [fhir_mapping] a placeholder
    in the template is not substituted. *)
Lemma apply_fhir_mapping_empty_mapping_no_substitution :
  apply_fhir_mapping (JObj [("id", JStr "{{entry[0].resource.id}}")]) []
    (JObj [("entry", JArr [JObj [("resource", JObj [("id", JStr "42")])]])])
  <> TemplatingSpec.copy_subst (JObj [("id", JStr "{{entry[0].resource.id}}")])
       (JObj [("entry", JArr [JObj [("resource", JObj [("id", JStr "42")])]])]).
Proof. vm_compute. discriminate. Qed.

(** Claim C2: with an empty [fhir_mapping], or a [None] template, the
    engine returns the template as given; the executor builds every
    request body through that gate, so a spec without [fhir_mapping] sends
    its [body_template] verbatim. *)
Theorem apply_fhir_mapping_gate :
  (forall (t bundle : json), apply_fhir_mapping t [] bundle = Ok t)
  /\ (forall (m : list (string * string)) (bundle : json), apply_fhir_mapping JNull m bundle = Ok JNull)
  /\ (forall (cred : option credentials) (bundle : json) (spec : request_spec),
        rs_fhir_mapping spec = [] ->
        build_request cred bundle spec =
        Ok {| req_method := PyStr.upper (or_str (rs_method spec) "GET");
              req_url := build_url spec cred;
              req_headers := setdefault "Content-Type" "application/json" (build_headers spec cred);
              req_json := if String.eqb (PyStr.upper (or_str (rs_method spec) "GET")) "GET" then None
                          else match rs_body_template spec with JNull => None | t => Some t end |}).
Proof.
  assert (H0 : forall (t bundle : json), apply_fhir_mapping t [] bundle = Ok t)
    by (intros [] ?; reflexivity).
  split; [exact H0|]. split; [intros m bundle; cbn; now destruct (Nat.eqb (length m) 0)|].
  intros cred bundle spec Hm. unfold build_request. rewrite Hm.
  destruct (rs_body_template spec) eqn:Eb; cbn [pbind]; try (rewrite H0; cbn [pbind]);
    reflexivity.
Qed.

Lemma apply_fhir_mapping_gate_witness :
  rs_fhir_mapping {| rs_method := Some "post"; rs_url := Some "/Patient"; rs_headers := [];
                     rs_body_template := JObj [("id", JStr "{{id}}")]; rs_fhir_mapping := [] |} = []
  /\ build_request None (JObj [("id", JStr "7")])
       {| rs_method := Some "post"; rs_url := Some "/Patient"; rs_headers := [];
          rs_body_template := JObj [("id", JStr "{{id}}")]; rs_fhir_mapping := [] |}
     = Ok {| req_method := "POST"; req_url := "/Patient";
             req_headers := [("Content-Type", "application/json")];
             req_json := Some (JObj [("id", JStr "{{id}}")]) |}.
Proof.
  split; [reflexivity|].
  exact (proj2 (proj2 apply_fhir_mapping_gate) None (JObj [("id", JStr "7")])
           {| rs_method := Some "post"; rs_url := Some "/Patient"; rs_headers := [];
              rs_body_template := JObj [("id", JStr "{{id}}")]; rs_fhir_mapping := [] |} eq_refl).
Defined.

(** Claim C7: path navigation raises on a list index made of digits that
    [str.isdigit] accepts and [int()] rejects, such as the superscript
    two: [_get_path({"a": [1, 2]}, "a[²]")] raises [ValueError]; so does
    an index of more than 4300 digits ([int()]'s digit limit).  Every
    path of at most 4300 characters free of the superscript digits is
    navigated without raising, and the spec's three examples evaluate as
    it says. *)
Theorem get_path_superscript_index_raises :
  get_path (JObj [("a", JArr [JInt 1; JInt 2])]) ("a[" ++ sup2 ++ "]")%string
    = Err (ValueError ("invalid literal for int() with base 10: '" ++ sup2 ++ "'")%string)
  /\ get_path (JObj [("a", JArr [JInt 1; JInt 2])]) ("a[" ++ repeat_char 4301 "1" ++ "]")%string
    = Err (ValueError (PyStr.int_limit_msg 4301))
  /\ (forall (obj : json) (path : string),
        PyStr.all_chars no_superscript path = true -> (String.length path <= 4300)%nat ->
        exists v, get_path obj path = Ok v)
  /\ get_path (JObj [("entry", JArr [JObj [("resource", JObj [("id", JStr "42")])]])])
              "entry[0].resource.id" = Ok (JStr "42")
  /\ get_path (JObj []) "a.b.c" = Ok JNull
  /\ get_path (JObj [("a", JArr [JInt 1; JInt 2])]) "a[5]" = Ok JNull.
Proof.
  split; [vm_compute; reflexivity|]. split; [vm_compute; reflexivity|].
  split; [exact get_path_ok | exact get_path_examples].
Qed.

Lemma get_path_superscript_index_raises_witness :
  PyStr.all_chars no_superscript "entry[0].resource.id" = true
  /\ (String.length "entry[0].resource.id" <= 4300)%nat
  /\ exists v, get_path (JObj []) "entry[0].resource.id" = Ok v.
Proof.
  split; [vm_compute; reflexivity|]. split; [cbn; lia|].
  apply (proj1 (proj2 (proj2 get_path_superscript_index_raises))); [vm_compute; reflexivity | cbn; lia].
Defined.

End TemplatingFacts.

(* ----------------------------------------------------------------- *)
(** ** The plan executor *)

Module ExecutorFacts.

Import Executor.

Section Run.
Variable send : list http_request -> http_request -> http_outcome.
Variable cred : option credentials.
Variable bundle : json.

(** Running a concatenation runs the first part, then, if it went
    through, the second part from where the first stopped. *)
Lemma run_specs_app (pre rest : list request_spec) (st : option Z) (b : string)
    (issued : list http_request) :
  run_specs send cred bundle (pre ++ rest) st b issued =
  match run_specs send cred bundle pre st b issued with
  | (Ok (Continue st' b'), issued') => run_specs send cred bundle rest st' b' issued'
  | other => other
  end.
Proof.
  revert st b issued; induction pre as [|spec pre IH]; intros st b issued; [reflexivity|].
  cbn [app run_specs]. destruct (build_request cred bundle spec); [|reflexivity].
  destruct (send issued a) as [code text|msg]; [|reflexivity].
  destruct (400 <=? code); [reflexivity | apply IH].
Qed.

End Run.

(** Claim C6: execution halts at the first failing spec.  If the specs
    before [s] went through (leaving the log [issued1]) and the call built
    for [s] answers with a status of at least 400 or raises a transport
    error, then no spec after [s] is issued (the log ends with that call)
    and the result is [ok = False] with that response's status, body and
    error. *)
Theorem execute_request_plan_halts_at_failure
    (send : list http_request -> http_request -> http_outcome) (cred : option credentials)
    (bundle : json) (plan : request_plan) (execute_get : bool)
    (pre post : list request_spec) (s : request_spec) (req : http_request)
    (issued0 issued1 : list http_request) (st : option Z) (b : string) :
  (if execute_get then get_fhir plan else push_fhir plan) = Some (pre ++ s :: post) ->
  run_specs send cred bundle pre None EmptyString issued0 = (Ok (Continue st b), issued1) ->
  build_request cred bundle s = Ok req ->
  (forall (code : Z) (text : string),
     send issued1 req = Response code text -> 400 <= code ->
     execute_request_plan send cred bundle plan execute_get issued0 =
       (Ok (false, Some code, PyStr.take 2000 text,
            Some ("HTTP " ++ PyStr.str_of_Z code ++ ": " ++ PyStr.take 500 (PyStr.take 2000 text))%string),
        issued1 ++ [req]))
  /\ (forall (msg : string),
     send issued1 req = Transport msg ->
     execute_request_plan send cred bundle plan execute_get issued0 =
       (Ok (false, None, EmptyString, Some msg), issued1 ++ [req])).
Proof.
  intros Hsel Hpre Hreq.
  assert (Hrun : forall o, send issued1 req = o ->
            execute_request_plan send cred bundle plan execute_get issued0 =
            match run_specs send cred bundle (s :: post) st b issued1 with
            | (Ok (Halt r), l) => (Ok r, l)
            | (Ok (Continue st' b'), l) => (Ok (true, st', b', None), l)
            | (Err e, l) => (Err e, l)
            end).
  { intros o _. unfold execute_request_plan. rewrite Hsel.
    destruct (pre ++ s :: post) as [|x xs] eqn:E; [exfalso; destruct pre; discriminate E|].
    rewrite <- E, run_specs_app, Hpre. reflexivity. }
  split.
  - intros code text Hsend Hcode. rewrite (Hrun _ Hsend). cbn [run_specs].
    rewrite Hreq, Hsend. replace (400 <=? code) with true by (symmetry; apply Z.leb_le; lia).
    reflexivity.
  - intros msg Hsend. rewrite (Hrun _ Hsend). cbn [run_specs]. rewrite Hreq, Hsend. reflexivity.
Qed.

Lemma execute_request_plan_halts_at_failure_witness :
  let s1 := {| rs_method := Some "POST"; rs_url := Some "/Patient"; rs_headers := [];
               rs_body_template := JNull; rs_fhir_mapping := [] |} in
  let s2 := {| rs_method := Some "POST"; rs_url := Some "/Encounter"; rs_headers := [];
               rs_body_template := JNull; rs_fhir_mapping := [] |} in
  let req1 := {| req_method := "POST"; req_url := "/Patient";
                 req_headers := [("Content-Type", "application/json")]; req_json := None |} in
  let send := fun (_ : list http_request) (_ : http_request) => Response 500 "boom" in
  execute_request_plan send None JNull {| push_fhir := Some [s1; s2]; get_fhir := None |} false []
  = (Ok (false, Some 500, "boom", Some "HTTP 500: boom"), [req1]).
Proof.
  intros s1 s2 req1 send.
  apply (proj1 (execute_request_plan_halts_at_failure send None JNull
                  {| push_fhir := Some [s1; s2]; get_fhir := None |} false [] [s2] s1 req1
                  [] [] None EmptyString eq_refl eq_refl eq_refl) 500 "boom" eq_refl).
  vm_compute. discriminate.
Defined.

(** Claim C9: when the selected spec list is empty or missing, the
    executor returns [(False, None, "", "No request specs in plan")] and
    issues no call. *)
Theorem execute_request_plan_no_specs
    (send : list http_request -> http_request -> http_outcome) (cred : option credentials)
    (bundle : json) (plan : request_plan) (execute_get : bool) (issued : list http_request) :
  match (if execute_get then get_fhir plan else push_fhir plan) with
  | Some l => l
  | None => []
  end = [] ->
  execute_request_plan send cred bundle plan execute_get issued =
  (Ok (false, None, EmptyString, Some "No request specs in plan"%string), issued).
Proof. intros H. unfold execute_request_plan. now rewrite H. Qed.

Lemma execute_request_plan_no_specs_witness :
  execute_request_plan (fun _ _ => Response 200 "ok") None JNull
    {| push_fhir := Some []; get_fhir := None |} false []
  = (Ok (false, None, EmptyString, Some "No request specs in plan"%string), []).
Proof. apply execute_request_plan_no_specs. reflexivity. Defined.

End ExecutorFacts.

(* ----------------------------------------------------------------- *)
(** ** The pipeline stages *)

Module StagesFacts.

Import Stages Fixtures.

(** Claim C10 (counterexample): for a state whose plan holds a spec that
    [RequestSpec.model_validate] refuses, [persist_mapping] raises before
    the upsert is reached; it does not report success. *)
Lemma persist_mapping_invalid_spec_raises :
  persist_mapping failing_upsert state_with_invalid_spec
  = Err (ValidationError "Input should be a valid dictionary or instance of RequestSpec").
Proof. vm_compute. reflexivity. Qed.

End StagesFacts.

(* ----------------------------------------------------------------- *)
(** ** The credential broker *)

Module BrokerFacts.

Import Broker Fixtures.

Section Login.
Variable login : list login_request -> login_request -> option login_response.

(** A per-call client-credential resolution reads the cache under its key
    and exchanges on a miss or an expired entry. *)
Lemma headers_from_params_key (dom : domain) (cfg : config) (p : params) (now t_after : Z)
    (st : broker_state) (dn cid csec base : string) :
  client_credentials_key dom cfg p = Some (dn, cid, csec, base) ->
  base = param_base dom cfg p
  /\ headers_from_params login dom cfg p now t_after st =
     let miss := let '(r, st') := exchange_and_store login (dn, cid, csec, base) cid csec base t_after st in
                 (let! t := r in Ok (bearer t, base), st') in
     match emr_connect_cache st !! (dn, cid, csec, base) with
     | Some c => if now <? expires_at c then (Ok (bearer (access_token c), base), st) else miss
     | None => miss
     end.
Proof.
  unfold client_credentials_key, headers_from_params.
  destruct (truthy_s (p_api_token p)); [discriminate|].
  destruct (truthy_s (p_client_id p) && truthy_s (p_client_secret p)); [|discriminate].
  destruct (String.eqb (PyStr.strip (os (p_client_id p))) EmptyString
            || String.eqb (PyStr.strip (os (p_client_secret p))) EmptyString); [discriminate|].
  intros H; injection H as <- <- <- <-. split; reflexivity.
Qed.

(** One exchange: the login call is logged, and the token, if any, is
    stored under the key until [t_after + 1800 - 60]. *)
Lemma exchange_and_store_spec (key : cache_key) (cid csec base : string) (t_after : Z)
    (st : broker_state) :
  let '(r, st') := exchange_and_store login key cid csec base t_after st in
  logins st' = logins st ++ [{| lq_url := login_url base; lq_client_id := Some cid;
                                lq_client_secret := Some csec |}]
  /\ match r with
     | Ok t => emr_connect_cache st'
               = <[key := {| access_token := t; expires_at := t_after + 1800 - 60 |}]>
                   (emr_connect_cache st)
     | Err _ => emr_connect_cache st' = emr_connect_cache st
     end.
Proof.
  unfold exchange_and_store, fetch_connect_token_from_params, exchange.
  destruct (login _ _) as [resp|]; [|split; reflexivity].
  destruct (token_of resp); split; reflexivity.
Qed.

(** The miss branch, for a lookup that is absent or expired. *)
Lemma headers_from_params_miss (dom : domain) (cfg : config) (p : params) (key : cache_key)
    (now t_after : Z) (st : broker_state) :
  client_credentials_key dom cfg p = Some key ->
  (forall c, emr_connect_cache st !! key = Some c -> expires_at c <= now) ->
  let '(r, st') := headers_from_params login dom cfg p now t_after st in
  logins st' = logins st ++ [login_request_for key]
  /\ match r with
     | Ok (h, b) => exists t, h = bearer t /\ b = param_base dom cfg p
                    /\ emr_connect_cache st'
                       = <[key := {| access_token := t; expires_at := t_after + 1800 - 60 |}]>
                           (emr_connect_cache st)
     | Err _ => emr_connect_cache st' = emr_connect_cache st
     end.
Proof.
  destruct key as [[[dn cid] csec] base]. intros Hkey Hexp.
  destruct (headers_from_params_key dom cfg p now t_after st dn cid csec base Hkey) as [Hb ->].
  cbv zeta.
  assert (Hm : forall r st', exchange_and_store login (dn, cid, csec, base) cid csec base t_after st = (r, st') ->
     logins st' = logins st ++ [login_request_for (dn, cid, csec, base)]
     /\ match (let! t := r in Ok (bearer t, base)) with
        | Ok (h, b) => exists t, h = bearer t /\ b = param_base dom cfg p
                       /\ emr_connect_cache st'
                          = <[(dn, cid, csec, base) := {| access_token := t;
                                                          expires_at := t_after + 1800 - 60 |}]>
                              (emr_connect_cache st)
        | Err _ => emr_connect_cache st' = emr_connect_cache st
        end).
  { intros r st' E. pose proof (exchange_and_store_spec (dn, cid, csec, base) cid csec base t_after st) as S.
    rewrite E in S. destruct S as [Hl Hc]. split; [exact Hl|].
    destruct r as [t|e]; cbn; [exists t; auto | exact Hc]. }
  destruct (emr_connect_cache st !! (dn, cid, csec, base)) as [c|] eqn:Hc.
  - specialize (Hexp c eq_refl). replace (now <? expires_at c) with false by (symmetry; apply Z.ltb_ge; lia).
    destruct (exchange_and_store _ _ _ _ _ _ _) as [r st'] eqn:E. now apply Hm.
  - destruct (exchange_and_store _ _ _ _ _ _ _) as [r st'] eqn:E. now apply Hm.
Qed.

End Login.

(** Claim C3: the per-call client-credential path stores its token until
    [time + 1800 - 60] whatever [expires_in] the login response declares
    (here [e]); the one-slot scribe cache of [_fetch_connect_token_scribe]
    is the only place that uses [expires_in - 60]. *)
Theorem connect_cache_ignores_expires_in (e : Z) :
  emr_connect_cache (snd (get_eka_emr_headers_from_params (login_answering e) cfg0 client_params
                            1000 1000 empty_state)) !! emr_key
  = Some {| access_token := "tok"; expires_at := 2740 |}
  /\ scribe_expires_at (snd (fetch_connect_token_scribe (login_answering e) cfg_scribe 1000 empty_state))
     = Some (1000 + (e - 60)).
Proof. split; reflexivity. Qed.

(** Claim C4: for a per-call client-credential resolution under [key], a
    cache entry with [expires_at > now] is returned without a login call
    and with the state unchanged; an absent or expired entry causes exactly
    one login call (a token it yields is stored under [key]).  Hence two
    calls within the validity window make one exchange, and a call after
    the expiry makes exactly one more. *)
Theorem connect_cache_exchange_exactly_on_miss
    (login : list login_request -> login_request -> option login_response)
    (dom : domain) (cfg : config) (p : params) (key : cache_key)
    (Hkey : client_credentials_key dom cfg p = Some key) :
  (forall now t_after st c,
     emr_connect_cache st !! key = Some c -> now < expires_at c ->
     headers_from_params login dom cfg p now t_after st
     = (Ok (bearer (access_token c), param_base dom cfg p), st))
  /\ (forall now t_after st,
     (forall c, emr_connect_cache st !! key = Some c -> expires_at c <= now) ->
     logins (snd (headers_from_params login dom cfg p now t_after st))
     = logins st ++ [login_request_for key])
  /\ (forall now1 t1 now2 t2 now3 t3 st0 h1 st1 r2 st2 r3 st3,
     emr_connect_cache st0 !! key = None ->
     headers_from_params login dom cfg p now1 t1 st0 = (Ok h1, st1) ->
     headers_from_params login dom cfg p now2 t2 st1 = (r2, st2) ->
     now2 < t1 + 1800 - 60 ->
     headers_from_params login dom cfg p now3 t3 st2 = (r3, st3) ->
     t1 + 1800 - 60 <= now3 ->
     r2 = Ok h1 /\ st2 = st1
     /\ logins st2 = logins st0 ++ [login_request_for key]
     /\ logins st3 = logins st0 ++ [login_request_for key; login_request_for key]).
Proof.
  assert (Hit : forall now t_after st c,
     emr_connect_cache st !! key = Some c -> now < expires_at c ->
     headers_from_params login dom cfg p now t_after st
     = (Ok (bearer (access_token c), param_base dom cfg p), st)).
  { intros now t_after st c Hc Hnow. destruct key as [[[dn cid] csec] base].
    destruct (headers_from_params_key login dom cfg p now t_after st dn cid csec base Hkey)
      as [Hb ->].
    rewrite Hc, <- Hb. replace (now <? expires_at c) with true by (symmetry; apply Z.ltb_lt; lia).
    reflexivity. }
  split; [exact Hit|]. split.
  - intros now t_after st Hexp.
    pose proof (headers_from_params_miss login dom cfg p key now t_after st Hkey Hexp) as M.
    destruct (headers_from_params login dom cfg p now t_after st) as [r st']. apply M.
  - intros now1 t1 now2 t2 now3 t3 st0 h1 st1 r2 st2 r3 st3 H0 E1 E2 Hw E3 Hx.
    pose proof (headers_from_params_miss login dom cfg p key now1 t1 st0 Hkey) as M1.
    rewrite E1 in M1. destruct h1 as [h b].
    destruct M1 as [L1 [t [-> [-> C1]]]]; [intros c; congruence|].
    assert (Hl : emr_connect_cache st1 !! key
                 = Some {| access_token := t; expires_at := t1 + 1800 - 60 |})
      by (rewrite C1; apply lookup_insert_eq).
    rewrite (Hit now2 t2 st1 _ Hl Hw) in E2. injection E2 as <- <-.
    split; [reflexivity|]. split; [reflexivity|]. split; [exact L1|].
    pose proof (headers_from_params_miss login dom cfg p key now3 t3 st1 Hkey) as M3.
    rewrite E3 in M3. destruct M3 as [L3 _].
    { intros c Hc. rewrite Hl in Hc. injection Hc as <-. exact Hx. }
    rewrite L3, L1, <- app_assoc. reflexivity.
Qed.

Lemma connect_cache_exchange_exactly_on_miss_witness :
  client_credentials_key Emr cfg0 client_params = Some emr_key
  /\ headers_from_params (login_answering 600) Emr cfg0 client_params 2000 2000 cached_state
     = (Ok (bearer "tok", "https://api.eka.care"%string), cached_state).
Proof.
  split; [vm_compute; reflexivity|].
  apply (proj1 (connect_cache_exchange_exactly_on_miss (login_answering 600) Emr cfg0 client_params
                  emr_key eq_refl) 2000 2000 cached_state
                  {| access_token := "tok"; expires_at := 2740 |}).
  - vm_compute. reflexivity.
  - vm_compute. reflexivity.
Defined.

End BrokerFacts.

(* ----------------------------------------------------------------- *)
(** ** Dictionaries *)

Module DictFacts.

Lemma assoc_get_set_same {V} (k : string) (v : V) (l : list (string * V)) :
  assoc_get k (assoc_set k v l) = Some v.
Proof.
  induction l as [|[k' v'] l IH]; simpl.
  - now rewrite String.eqb_refl.
  - destruct (String.eqb k k') eqn:E; simpl.
    + now rewrite String.eqb_refl.
    + now rewrite E.
Qed.

Lemma assoc_get_set_other {V} (k k' : string) (v : V) (l : list (string * V)) :
  String.eqb k' k = false -> assoc_get k' (assoc_set k v l) = assoc_get k' l.
Proof.
  intros H. induction l as [|[k0 v0] l IH]; simpl.
  - now rewrite H.
  - destruct (String.eqb k k0) eqn:E; simpl.
    + apply String.eqb_eq in E; subst k0. now rewrite H.
    + destruct (String.eqb k' k0); [reflexivity|exact IH].
Qed.

Lemma assoc_get_app {V} (k : string) (l l' : list (string * V)) :
  assoc_get k (l ++ l') = match assoc_get k l with Some v => Some v | None => assoc_get k l' end.
Proof.
  induction l as [|[k0 v0] l IH]; simpl; [reflexivity|].
  destruct (String.eqb k k0); [reflexivity|exact IH].
Qed.

End DictFacts.

(* ----------------------------------------------------------------- *)
(** ** The mapping agent's entry points *)

Module AgentFacts.

Import PyFormat Agent DictFacts.

(** The user prompt of [split_queries]: its JSON example is read by
    [str.format] as a replacement field named ["queries"] (with quotes). *)
Lemma split_queries_user_format (v : string) render :
  py_format [("api_doc_url", v)] render SPLIT_QUERIES_USER = AErr (KeyError (dq ++ "queries" ++ dq)).
Proof. vm_compute. reflexivity. Qed.

Lemma split_queries_node_eq G M py_str render invoke d state :
  split_queries_node G M py_str render invoke d state =
  match get_llm G M (dict_get state "groq_api_key") (dict_get state "groq_model") with
  | AOk _ => AErr (KeyError (dq ++ "queries" ++ dq))
  | AErr e => AErr e
  end.
Proof.
  unfold split_queries_node.
  destruct (get_llm G M (dict_get state "groq_api_key") (dict_get state "groq_model"));
    cbn [abind]; [|reflexivity].
  now rewrite split_queries_user_format.
Qed.

(** [split_queries] never reaches the model call: it raises the
    [ValueError] (or [AttributeError]) of [_get_llm], or else the
    [KeyError('"queries"')] of the prompt's [format]; the reply, the URL
    and the rendering play no part. *)
Theorem split_queries_node_never_invokes G M py_str render invoke d state :
  split_queries_node G M py_str render invoke d state =
  match get_llm G M (dict_get state "groq_api_key") (dict_get state "groq_model") with
  | AOk _ => AErr (KeyError (dq ++ "queries" ++ dq))
  | AErr e => AErr e
  end.
Proof. apply split_queries_node_eq. Qed.

Lemma or_json_ostr (k : option string) (d : string) :
  or_json (ostr k) (JStr d) = JStr (Executor.or_str k d).
Proof.
  destruct k as [s|]; unfold or_json, ostr, Executor.or_str; simpl; [|reflexivity].
  destruct (String.eqb s EmptyString); reflexivity.
Qed.

Lemma get_llm_ostr G M (k m : option string) :
  get_llm G M (ostr k) (ostr m) =
  if String.eqb (PyStr.strip (Executor.or_str k (Executor.or_str G EmptyString))) EmptyString
  then value_error "GROQ_API_KEY is required for the mapping agent (set in config or .env)"
  else AOk (PyStr.strip (Executor.or_str m (Executor.or_str M "llama-3.3-70b-versatile")),
            PyStr.strip (Executor.or_str k (Executor.or_str G EmptyString))).
Proof.
  unfold get_llm. rewrite !or_json_ostr.
  destruct (String.eqb _ EmptyString); reflexivity.
Qed.

(** Claim C5 fails: the Query Synthesizer never returns a list of
    queries, empty or not.  For every pipeline state [split_queries]
    raises, before the model is called: the error of [_get_llm], or else
    the [KeyError('"queries"')] of the prompt's [format].  With a Groq key
    configured it is the [KeyError], for every documentation URL, the
    empty one included. *)
Theorem split_queries_returns_no_queries G M py_str render invoke d (url : string) :
  (forall state, exists e, split_queries_node G M py_str render invoke d state = AErr e)
  /\ split_queries_node (Some "gsk_key"%string) M py_str render invoke d [("api_doc_url", JStr url)]
     = AErr (KeyError (dq ++ "queries" ++ dq)).
Proof.
  split.
  - intros state. rewrite split_queries_node_eq.
    destruct (get_llm _ _ _ _); eexists; reflexivity.
  - rewrite split_queries_node_eq. unfold dict_get. cbn [assoc_get String.eqb Ascii.eqb Bool.eqb].
    change JNull with (ostr None). rewrite get_llm_ostr. reflexivity.
Qed.

(** [POST /mapping] with a bundle in the database never succeeds: with
    a blank Groq key (the app's, else the configured one) it answers 400
    with the [ValueError] of [_get_llm], otherwise 502 with the
    [KeyError('"queries"')] of the prompt's [format]; the request body,
    the model and the later nodes play no part. *)
Theorem run_mapping_never_succeeds G M py_str render invoke d rest data kv kvs k m :
  run_mapping G M py_str render invoke d rest data (Some (JObj (kv :: kvs))) k m =
  if String.eqb (PyStr.strip (Executor.or_str k (Executor.or_str G EmptyString))) EmptyString
  then HttpException 400 (PyExn (ValueError "GROQ_API_KEY is required for the mapping agent (set in config or .env)"))
  else HttpException 502 (KeyError (dq ++ "queries" ++ dq)).
Proof.
  unfold run_mapping, run_mapping_agent.
  unfold dict_get. rewrite assoc_get_set_same.
  cbn [or_json truthy length Nat.eqb negb].
  unfold run_emr_mapping_agent. cbn [abind].
  rewrite split_queries_node_eq.
  unfold dict_get. cbn [assoc_get String.eqb Ascii.eqb Bool.eqb].
  rewrite get_llm_ostr.
  destruct (String.eqb _ EmptyString); reflexivity.
Qed.

(** [run_mapping_agent] rejects a [fhir_bundle] that is truthy but not a
    dict (a JSON text, say) with a [ValueError], without falling back to
    [fhir_bundle_json]. *)
Theorem run_mapping_agent_rejects_non_dict_bundle G M py_str render invoke d rest
    (data : list (string * json)) k m :
  truthy (dict_get data "fhir_bundle") = true ->
  (forall kvs, dict_get data "fhir_bundle" <> JObj kvs) ->
  run_mapping_agent G M py_str render invoke d rest (JObj data) k m = value_error "fhir_bundle (or first row from Supabase) is required".
Proof.
  intros Ht Hd. unfold run_mapping_agent, or_json. rewrite Ht.
  destruct (dict_get data "fhir_bundle") eqn:E; try reflexivity.
  exfalso. eapply Hd. reflexivity.
Qed.

Lemma run_mapping_agent_rejects_non_dict_bundle_witness :
  truthy (dict_get [("fhir_bundle", JStr "{}");
                    ("fhir_bundle_json", JObj [("resourceType", JStr "Bundle")])] "fhir_bundle") = true /\
  (forall kvs, dict_get [("fhir_bundle", JStr "{}");
                         ("fhir_bundle_json", JObj [("resourceType", JStr "Bundle")])] "fhir_bundle"
               <> JObj kvs) /\
  run_mapping_agent None None (fun _ => EmptyString) (fun _ _ _ _ => AOk EmptyString)
    (fun _ _ => EmptyString) 0 (fun s => AOk s)
    (JObj [("fhir_bundle", JStr "{}");
           ("fhir_bundle_json", JObj [("resourceType", JStr "Bundle")])]) None None
  = value_error "fhir_bundle (or first row from Supabase) is required".
Proof.
  assert (H1 : truthy (dict_get [("fhir_bundle", JStr "{}");
                ("fhir_bundle_json", JObj [("resourceType", JStr "Bundle")])] "fhir_bundle") = true)
    by reflexivity.
  assert (H2 : forall kvs, dict_get [("fhir_bundle", JStr "{}");
                ("fhir_bundle_json", JObj [("resourceType", JStr "Bundle")])] "fhir_bundle" <> JObj kvs)
    by (intros kvs; simpl; discriminate).
  split; [exact H1|split; [exact H2|]].
  exact (run_mapping_agent_rejects_non_dict_bundle None None (fun _ => EmptyString)
           (fun _ _ _ _ => AOk EmptyString) (fun _ _ => EmptyString) 0 (fun s => AOk s) _ None None H1 H2).
Defined.

(** [_get_llm] raises its [ValueError] on a non-empty, whitespace-only
    [api_key] even when [GROQ_API_KEY] is configured: the blank key is
    truthy, so the configured one is never consulted. *)
Theorem get_llm_blank_override_raises G M (s : string) (model : json) :
  s <> EmptyString -> PyStr.strip s = EmptyString ->
  get_llm G M (JStr s) model = value_error "GROQ_API_KEY is required for the mapping agent (set in config or .env)".
Proof.
  intros Hne Hs. unfold get_llm, or_json. cbn [truthy].
  destruct (String.eqb s EmptyString) eqn:E.
  - apply String.eqb_eq in E. contradiction.
  - cbn [negb]. rewrite Hs. reflexivity.
Qed.

Lemma get_llm_blank_override_raises_witness :
  "  "%string <> EmptyString /\ PyStr.strip "  " = EmptyString /\
  get_llm (Some "gsk_configured"%string) None (JStr "  ") JNull = value_error "GROQ_API_KEY is required for the mapping agent (set in config or .env)".
Proof.
  assert (H1 : "  "%string <> EmptyString) by discriminate.
  assert (H2 : PyStr.strip "  " = EmptyString) by reflexivity.
  split; [exact H1|split; [exact H2|]].
  exact (get_llm_blank_override_raises (Some "gsk_configured"%string) None "  " JNull H1 H2).
Defined.

End AgentFacts.

(* ----------------------------------------------------------------- *)
(** ** Documentation search and fetch *)

Module ToolsFacts.

Import Tools.

Lemma take_length_le (n : nat) (s : string) : (String.length (PyStr.take n s) <= n)%nat.
Proof.
  unfold PyStr.take. revert n; induction s as [|c s IH]; intros [|n]; simpl; try lia.
  specialize (IH n). lia.
Qed.

Lemma take_length_full (n : nat) (s : string) :
  (n <= String.length s)%nat -> String.length (PyStr.take n s) = n.
Proof.
  unfold PyStr.take. revert n; induction s as [|c s IH]; intros [|n] Hn; simpl in *; try lia.
  rewrite IH; lia.
Qed.

Lemma add_item_inv (seen : list string) (items : list doc_item) (u t c : string) :
  seen = map di_url items -> NoDup seen ->
  Forall (fun d => di_url d <> EmptyString /\ (String.length (di_content d) <= 2000)%nat) items ->
  let r := add_item seen items u t c in
  fst r = map di_url (snd r) /\ NoDup (fst r) /\
  Forall (fun d => di_url d <> EmptyString /\ (String.length (di_content d) <= 2000)%nat) (snd r).
Proof.
  intros Hs Hn Hf. unfold add_item.
  destruct (negb (String.eqb u EmptyString) && negb (existsb (String.eqb u) seen)) eqn:E;
    simpl; [|auto].
  apply andb_true_iff in E as [E1 E2]. apply negb_true_iff in E1, E2.
  assert (Hu : ~ In u seen).
  { intros Hin.
    assert (existsb (String.eqb u) seen = true)
      by (apply existsb_exists; exists u; split; [exact Hin | apply String.eqb_refl]).
    congruence. }
  split; [subst seen; rewrite map_app; reflexivity|]. split.
  - apply NoDup_app. split; [exact Hn|]. split; [|apply NoDup_singleton].
    intros x Hx Hx'. apply list_elem_of_singleton in Hx'. subst x.
    apply Hu. apply list_elem_of_In. exact Hx.
  - apply Forall_app. split; [exact Hf|]. constructor; [|constructor]. simpl. split.
    + intros Heq. rewrite Heq in E1. discriminate.
    + apply take_length_le.
Qed.

Lemma add_tavily_inv (hits : list tavily_hit) (seen : list string) (items : list doc_item) :
  seen = map di_url items -> NoDup seen ->
  Forall (fun d => di_url d <> EmptyString /\ (String.length (di_content d) <= 2000)%nat) items ->
  let r := add_tavily seen items hits in
  fst r = map di_url (snd r) /\ NoDup (fst r) /\
  Forall (fun d => di_url d <> EmptyString /\ (String.length (di_content d) <= 2000)%nat) (snd r).
Proof.
  revert seen items; induction hits as [|h hits IH]; intros seen items Hs Hn Hf; simpl; [auto|].
  destruct (add_item_inv seen items (or_str (th_url h) (or_str (th_href h) EmptyString))
              (or_str (th_title h) EmptyString)
              (or_str (th_content h) (or_str (th_snippet h) EmptyString)) Hs Hn Hf)
    as [H1 [H2 H3]].
  destruct (add_item _ _ _ _ _) as [seen' items']. apply IH; assumption.
Qed.

Lemma add_ddg_inv (hits : list ddg_hit) (seen : list string) (items : list doc_item) :
  seen = map di_url items -> NoDup seen ->
  Forall (fun d => di_url d <> EmptyString /\ (String.length (di_content d) <= 2000)%nat) items ->
  let r := add_ddg seen items hits in
  fst r = map di_url (snd r) /\ NoDup (fst r) /\
  Forall (fun d => di_url d <> EmptyString /\ (String.length (di_content d) <= 2000)%nat) (snd r).
Proof.
  revert seen items; induction hits as [|h hits IH]; intros seen items Hs Hn Hf; simpl; [auto|].
  destruct (add_item_inv seen items (or_str (dh_href h) EmptyString) (or_str (dh_title h) EmptyString)
              (or_str (dh_body h) EmptyString) Hs Hn Hf) as [H1 [H2 H3]].
  destruct (add_item _ _ _ _ _) as [seen' items']. apply IH; assumption.
Qed.

Lemma query_loop_inv {H} (add : list string -> list doc_item -> list H -> list string * list doc_item)
    (search : string -> option (list H)) :
  (forall seen items hits,
     seen = map di_url items -> NoDup seen ->
     Forall (fun d => di_url d <> EmptyString /\ (String.length (di_content d) <= 2000)%nat) items ->
     let r := add seen items hits in
     fst r = map di_url (snd r) /\ NoDup (fst r) /\
     Forall (fun d => di_url d <> EmptyString /\ (String.length (di_content d) <= 2000)%nat) (snd r)) ->
  forall qs seen items,
  seen = map di_url items -> NoDup seen ->
  Forall (fun d => di_url d <> EmptyString /\ (String.length (di_content d) <= 2000)%nat) items ->
  let r := query_loop add search qs seen items in
  NoDup (map di_url r) /\
  Forall (fun d => di_url d <> EmptyString /\ (String.length (di_content d) <= 2000)%nat) r.
Proof.
  intros Hadd qs. induction qs as [|q qs IH]; intros seen items Hs Hn Hf; simpl.
  - subst seen. auto.
  - destruct (search q) as [hits|]; [|apply (IH seen items); assumption].
    destruct (Hadd seen items hits Hs Hn Hf) as [H1 [H2 H3]].
    destruct (add seen items hits) as [seen' items']. apply (IH seen' items'); assumption.
Qed.

(** The results of [search_docs] (Tavily, or the DuckDuckGo fallback)
    have non-empty, pairwise distinct URLs, and each content holds at
    most 2000 characters. *)
Theorem search_docs_urls_distinct (TAVILY_API_KEY : option string)
    (client : option (string -> option (list tavily_hit)))
    (ddgs : option (string -> option (list ddg_hit))) (queries : list string) :
  let r := search_docs TAVILY_API_KEY client ddgs queries in
  NoDup (map di_url r) /\
  Forall (fun d => di_url d <> EmptyString /\ (String.length (di_content d) <= 2000)%nat) r.
Proof.
  assert (Ht : let r := tavily_search TAVILY_API_KEY client queries in
               NoDup (map di_url r) /\
               Forall (fun d => di_url d <> EmptyString /\ (String.length (di_content d) <= 2000)%nat) r).
  { unfold tavily_search.
    destruct (negb _); [simpl; split; constructor|].
    destruct client as [search|]; [|simpl; split; constructor].
    apply query_loop_inv; [|reflexivity|constructor|constructor].
    intros; apply add_tavily_inv; assumption. }
  assert (Hf : let r := fallback_web_search ddgs queries in
               NoDup (map di_url r) /\
               Forall (fun d => di_url d <> EmptyString /\ (String.length (di_content d) <= 2000)%nat) r).
  { unfold fallback_web_search.
    destruct ddgs as [text|]; [|simpl; split; constructor].
    apply query_loop_inv; [|reflexivity|constructor|constructor].
    intros; apply add_ddg_inv; assumption. }
  simpl in *. unfold search_docs.
  destruct (tavily_search TAVILY_API_KEY client queries); [exact Hf | exact Ht].
Qed.

(** Only the first five queries count: [search_docs] gives the same
    results on the list cut to its first five items. *)
Theorem search_docs_first_five (TAVILY_API_KEY : option string)
    (client : option (string -> option (list tavily_hit)))
    (ddgs : option (string -> option (list ddg_hit))) (queries : list string) :
  search_docs TAVILY_API_KEY client ddgs queries =
  search_docs TAVILY_API_KEY client ddgs (firstn 5 queries).
Proof.
  assert (Hf : forall l : list string, firstn 5 (firstn 5 l) = firstn 5 l)
    by (intros l; rewrite firstn_firstn; reflexivity).
  assert (Hl : Nat.eqb (length (firstn 5 queries)) 0 = Nat.eqb (length queries) 0)
    by (destruct queries; reflexivity).
  unfold search_docs, tavily_search, fallback_web_search. rewrite Hl, !Hf. reflexivity.
Qed.

Lemma fetch_url_spec (get : string -> option string) (url c : string) :
  fetch_url get url = Some c ->
  exists t, get url = Some t /\
  (Z.of_nat (String.length c) <= MAX_FETCH_CHARS + 16)%Z /\
  PyStr.take (Z.to_nat MAX_FETCH_CHARS) c = PyStr.take (Z.to_nat MAX_FETCH_CHARS) t.
Proof.
  unfold fetch_url. destruct (get url) as [t|]; [|discriminate]. intros Hc. injection Hc as <-.
  exists t. split; [reflexivity|].
  assert (Hn : Z.of_nat (Z.to_nat MAX_FETCH_CHARS) = MAX_FETCH_CHARS)
    by (apply Z2Nat.id; unfold MAX_FETCH_CHARS; lia).
  set (n := Z.to_nat MAX_FETCH_CHARS) in *. clearbody n.
  destruct (MAX_FETCH_CHARS <? Z.of_nat (String.length t))%Z eqn:E.
  - apply Z.ltb_lt in E.
    assert (Hlen : String.length (PyStr.take n t) = n) by (apply take_length_full; lia).
    split.
    + rewrite StringFacts.length_app, Hlen. cbn [String.length]. lia.
    + unfold PyStr.take at 1. rewrite <- Hlen at 1. apply StringFacts.substring_0_app.
  - apply Z.ltb_ge in E. split; [lia | reflexivity].
Qed.

(** [fetch_url] keeps the first [MAX_FETCH_CHARS] characters of the page
    intact and returns at most [MAX_FETCH_CHARS + 16] characters (the cut
    page and its ["\n... [truncated]"] marker). *)
Theorem fetch_url_truncation (get : string -> option string) (url c : string) :
  fetch_url get url = Some c ->
  exists t, get url = Some t /\
  (Z.of_nat (String.length c) <= MAX_FETCH_CHARS + 16)%Z /\
  PyStr.take (Z.to_nat MAX_FETCH_CHARS) c = PyStr.take (Z.to_nat MAX_FETCH_CHARS) t.
Proof. apply fetch_url_spec. Qed.

Lemma fetch_url_truncation_witness :
  fetch_url (fun _ => Some "page"%string) "https://docs.example.com" = Some "page"%string /\
  exists t, (fun _ : string => Some "page"%string) "https://docs.example.com" = Some t /\
  (Z.of_nat (String.length "page") <= MAX_FETCH_CHARS + 16)%Z /\
  PyStr.take (Z.to_nat MAX_FETCH_CHARS) "page" = PyStr.take (Z.to_nat MAX_FETCH_CHARS) t.
Proof.
  assert (H : fetch_url (fun _ => Some "page"%string) "https://docs.example.com" = Some "page"%string)
    by reflexivity.
  split; [exact H|]. exact (fetch_url_truncation _ _ _ H).
Defined.

Lemma fetch_docs_spec (get : string -> option string) (urls : list string) :
  let r := fetch_docs_from_urls get urls in
  (length r <= 10)%nat /\ sublist (map fst r) urls /\
  Forall (fun d => PyStr.startswith (fst d) "http" = true /\
                   (Z.of_nat (String.length (snd d)) <= MAX_FETCH_CHARS + 16)%Z) r.
Proof.
  assert (Hg : forall l, let r := flat_map (fun url =>
              if String.eqb url EmptyString || negb (PyStr.startswith url "http") then []
              else match fetch_url get url with
                   | Some content => [(url, content)]
                   | None => []
                   end) l in
            (length r <= length l)%nat /\ sublist (map fst r) l /\
            Forall (fun d => PyStr.startswith (fst d) "http" = true /\
                   (Z.of_nat (String.length (snd d)) <= MAX_FETCH_CHARS + 16)%Z) r).
  { induction l as [|u l [IH1 [IH2 IH3]]]; simpl; [split; [lia|split; constructor]|].
    destruct (String.eqb u EmptyString || negb (PyStr.startswith u "http")) eqn:E.
    - simpl. split; [lia|]. split; [apply sublist_cons; exact IH2 | exact IH3].
    - destruct (fetch_url get u) as [c|] eqn:Ef; simpl.
      + split; [lia|]. split; [apply sublist_skip; exact IH2|].
        constructor; [|exact IH3]. simpl.
          apply orb_false_iff in E as [_ E]. apply negb_false_iff in E. split; [exact E|].
          destruct (fetch_url_spec get u c Ef) as [t [_ [Hc _]]]. exact Hc.
      + split; [lia|]. split; [apply sublist_cons; exact IH2 | exact IH3]. }
  destruct (Hg (firstn 10 urls)) as [H1 [H2 H3]]. simpl. split; [|split].
  - unfold fetch_docs_from_urls. rewrite length_firstn in H1. lia.
  - etrans; [exact H2|]. apply sublist_take.
  - exact H3.
Qed.

(** [fetch_docs_from_urls] returns at most ten documents; their URLs are
    a subsequence of the input, each starts with ["http"], and each
    content holds at most [MAX_FETCH_CHARS + 16] characters. *)
Theorem fetch_docs_from_urls_bounds (get : string -> option string) (urls : list string) :
  let r := fetch_docs_from_urls get urls in
  (length r <= 10)%nat /\ sublist (map fst r) urls /\
  Forall (fun d => PyStr.startswith (fst d) "http" = true /\
                   (Z.of_nat (String.length (snd d)) <= MAX_FETCH_CHARS + 16)%Z) r.
Proof. apply fetch_docs_spec. Qed.

End ToolsFacts.

(* ----------------------------------------------------------------- *)
(** ** The search and fetch nodes *)

Module NodesFacts.

Import Tools Nodes DictFacts.

Lemma fetch_docs_node_shape (get : string -> option string) (state out : list (string * json)) :
  fetch_docs_node get state = Ok out ->
  exists docs c, out = [("fetched_docs", JObj [("docs", JArr docs)]); ("doc_content", JStr c)] /\
  (length docs <= 10)%nat /\ (Z.of_nat (String.length c) <= 100000)%Z.
Proof.
  unfold fetch_docs_node.
  destruct (Stages.get_or state "doc_search_result" (JObj [])) as [| | | | | |sd]; try discriminate.
  destruct (Stages.py_iter _) as [results|]; cbn [pbind]; [|discriminate].
  destruct (result_urls results) as [urls|]; cbn [pbind]; [|discriminate].
  destruct urls as [|u0 urls0].
  - intros H. injection H as <-. exists [], "(no docs fetched)"%string.
    split; [reflexivity|]. cbn [String.length length]. lia.
  - destruct (str_urls _) as [us|]; cbn [pbind]; [|discriminate].
    intros H. injection H as <-.
    eexists _, _. split; [reflexivity|]. split.
    + rewrite length_map. apply (ToolsFacts.fetch_docs_spec get us).
    + assert (Hn : Z.of_nat (Z.to_nat 100000) = 100000%Z) by (apply Z2Nat.id; lia).
      set (n := Z.to_nat 100000) in *. clearbody n.
      destruct (map doc_part (fetch_docs_from_urls get us)).
      * cbn [String.length]. lia.
      * pose proof (ToolsFacts.take_length_le n (join two_nl (s :: l))). lia.
Qed.

(** On success [fetch_docs_node] returns [fetched_docs] with at most ten
    documents and a [doc_content] of at most 100000 characters. *)
Theorem fetch_docs_node_bounds (get : string -> option string) (state out : list (string * json)) :
  fetch_docs_node get state = Ok out ->
  exists docs c, out = [("fetched_docs", JObj [("docs", JArr docs)]); ("doc_content", JStr c)] /\
  (length docs <= 10)%nat /\ (Z.of_nat (String.length c) <= 100000)%Z.
Proof. apply fetch_docs_node_shape. Qed.

Lemma fetch_docs_node_bounds_witness :
  fetch_docs_node (fun _ => Some "page"%string)
    [("doc_search_result", JObj [("results", JArr [JObj [("url", JStr "https://docs.example.com")]])])]
  = Ok [("fetched_docs", JObj [("docs", JArr [JObj [("url", JStr "https://docs.example.com");
                                                      ("content", JStr "page")]])]);
        ("doc_content", JStr ("--- URL: https://docs.example.com ---"
                              ++ String (ascii_of_nat 10) "page")%string)] /\
  exists docs c,
    [("fetched_docs", JObj [("docs", JArr [JObj [("url", JStr "https://docs.example.com");
                                                  ("content", JStr "page")]])]);
     ("doc_content", JStr ("--- URL: https://docs.example.com ---"
                           ++ String (ascii_of_nat 10) "page")%string)]
    = [("fetched_docs", JObj [("docs", JArr docs)]); ("doc_content", JStr c)] /\
    (length docs <= 10)%nat /\ (Z.of_nat (String.length c) <= 100000)%Z.
Proof.
  assert (H : fetch_docs_node (fun _ => Some "page"%string)
    [("doc_search_result", JObj [("results", JArr [JObj [("url", JStr "https://docs.example.com")]])])]
    = Ok [("fetched_docs", JObj [("docs", JArr [JObj [("url", JStr "https://docs.example.com");
                                                        ("content", JStr "page")]])]);
          ("doc_content", JStr ("--- URL: https://docs.example.com ---"
                                ++ String (ascii_of_nat 10) "page")%string)])
    by (vm_compute; reflexivity).
  split; [exact H|]. exact (fetch_docs_node_bounds _ _ _ H).
Defined.

Lemma result_urls_none (rs : list json) :
  Forall (fun r => exists kvs, r = JObj kvs /\ truthy (dict_get kvs "url") = false) rs ->
  result_urls rs = Ok [].
Proof.
  induction 1 as [|r rs [kvs [-> Hu]] _ IH]; [reflexivity|].
  cbn [result_urls]. rewrite IH. cbn [pbind].
  unfold dict_get in Hu. destruct (assoc_get "url" kvs); [rewrite Hu|]; reflexivity.
Qed.

(** When no search result has a truthy ["url"], [fetch_docs_node] fetches
    nothing (the result is the same for every fetch function) and
    reports ["(no docs fetched)"]. *)
Theorem fetch_docs_node_no_urls (get : string -> option string) (state sd : list (string * json))
    (rs : list json) :
  Stages.get_or state "doc_search_result" (JObj []) = JObj sd ->
  Stages.get_or sd "results" (JArr []) = JArr rs ->
  Forall (fun r => exists kvs, r = JObj kvs /\ truthy (dict_get kvs "url") = false) rs ->
  fetch_docs_node get state =
  Ok [("fetched_docs", JObj [("docs", JArr [])]); ("doc_content", JStr "(no docs fetched)")].
Proof.
  intros H1 H2 H3. unfold fetch_docs_node. rewrite H1, H2. cbn [Stages.py_iter pbind].
  rewrite (result_urls_none rs H3). reflexivity.
Qed.

Lemma fetch_docs_node_no_urls_witness :
  Stages.get_or [("doc_search_result", JObj [("results", JArr [JObj [("url", JStr "")];
                                                                JObj [("title", JStr "t")]])])]
    "doc_search_result" (JObj [])
  = JObj [("results", JArr [JObj [("url", JStr "")]; JObj [("title", JStr "t")]])] /\
  Stages.get_or [("results", JArr [JObj [("url", JStr "")]; JObj [("title", JStr "t")]])]
    "results" (JArr []) = JArr [JObj [("url", JStr "")]; JObj [("title", JStr "t")]] /\
  Forall (fun r => exists kvs, r = JObj kvs /\ truthy (dict_get kvs "url") = false)
    [JObj [("url", JStr "")]; JObj [("title", JStr "t")]] /\
  fetch_docs_node (fun _ => Some "page"%string)
    [("doc_search_result", JObj [("results", JArr [JObj [("url", JStr "")];
                                                   JObj [("title", JStr "t")]])])]
  = Ok [("fetched_docs", JObj [("docs", JArr [])]); ("doc_content", JStr "(no docs fetched)")].
Proof.
  assert (H1 : Stages.get_or [("doc_search_result", JObj [("results", JArr [JObj [("url", JStr "")];
                                                                JObj [("title", JStr "t")]])])]
    "doc_search_result" (JObj [])
    = JObj [("results", JArr [JObj [("url", JStr "")]; JObj [("title", JStr "t")]])]) by reflexivity.
  assert (H2 : Stages.get_or [("results", JArr [JObj [("url", JStr "")]; JObj [("title", JStr "t")]])]
    "results" (JArr []) = JArr [JObj [("url", JStr "")]; JObj [("title", JStr "t")]]) by reflexivity.
  assert (H3 : Forall (fun r => exists kvs, r = JObj kvs /\ truthy (dict_get kvs "url") = false)
    [JObj [("url", JStr "")]; JObj [("title", JStr "t")]]).
  { constructor; [eexists; split; reflexivity|].
    constructor; [eexists; split; reflexivity|constructor]. }
  split; [exact H1|split; [exact H2|split; [exact H3|]]].
  exact (fetch_docs_node_no_urls (fun _ => Some "page"%string) _ _ _ H1 H2 H3).
Defined.

End NodesFacts.

(* ----------------------------------------------------------------- *)
(** ** Configuration and credentials *)

Module SettingsFacts.

Import Settings.

(** [CORS_ORIGINS] is never empty and holds no empty origin, whatever the
    environment. *)
Theorem cors_origins_nonempty (env : string -> option string) :
  cors_origins env <> [] /\ Forall (fun o => o <> EmptyString) (cors_origins env).
Proof.
  unfold cors_origins.
  destruct (String.eqb _ "*"); [split; [discriminate|repeat constructor; discriminate]|].
  destruct (List.filter _ _) as [|o l] eqn:E; [split; [discriminate|repeat constructor; discriminate]|].
  split; [discriminate|]. rewrite <- E. apply List.Forall_forall. intros x Hx.
  apply filter_In in Hx as [_ Hx]. intros ->. discriminate.
Qed.

Lemma env_str_nonempty (env : string -> option string) (k s : string) :
  env_str env k = Some s -> String.eqb s EmptyString = false.
Proof.
  unfold env_str. destruct (String.eqb _ EmptyString) eqn:E; [discriminate|].
  intros H. injection H as <-. exact E.
Qed.

(** With no scribe or legacy API token and no scribe client secret
    configured, the scribe backup [EKA_CLIENT_SCRIBE_SECRET] becomes
    [EKASCRIBE_API_TOKEN]: [get_eka_scribe_headers] sends it as the bearer
    token, with no login and no state change. *)
Theorem scribe_backup_secret_as_bearer login (env : string -> option string) (now t_after : Z)
    (st : Broker.broker_state) (s : string) :
  env_str env "EKASCRIBE_API_TOKEN" = None -> env_str env "EKA_API_TOKEN" = None ->
  env_str env "EKA_CLIENT_SCRIBE_SECRET" = Some s ->
  env_str env "EKASCRIBE_CLIENT_SECRET" = None -> env_str env "EKA_CLIENT_SECRET" = None ->
  Broker.get_eka_scribe_headers login (load_config env) now t_after st = (Ok (Broker.bearer s), st).
Proof.
  intros H1 H2 H3 H4 H5.
  unfold Broker.get_eka_scribe_headers, Broker.validate_eka_scribe_config, load_config.
  cbn [Broker.EKASCRIBE_API_TOKEN Broker.EKASCRIBE_CLIENT_ID Broker.EKASCRIBE_CLIENT_SECRET].
  rewrite H1, H2, H3, H4, H5. cbn [or_opt].
  unfold Broker.truthy_s, Executor.str_truthy. rewrite (env_str_nonempty env _ s H3).
  cbn [negb]. rewrite andb_false_r. reflexivity.
Qed.

Lemma scribe_backup_secret_as_bearer_witness :
  env_str (fun k => if String.eqb k "EKA_CLIENT_SCRIBE_SECRET" then Some "scribe-secret"%string else None)
    "EKASCRIBE_API_TOKEN" = None /\
  env_str (fun k => if String.eqb k "EKA_CLIENT_SCRIBE_SECRET" then Some "scribe-secret"%string else None)
    "EKA_API_TOKEN" = None /\
  env_str (fun k => if String.eqb k "EKA_CLIENT_SCRIBE_SECRET" then Some "scribe-secret"%string else None)
    "EKA_CLIENT_SCRIBE_SECRET" = Some "scribe-secret"%string /\
  env_str (fun k => if String.eqb k "EKA_CLIENT_SCRIBE_SECRET" then Some "scribe-secret"%string else None)
    "EKASCRIBE_CLIENT_SECRET" = None /\
  env_str (fun k => if String.eqb k "EKA_CLIENT_SCRIBE_SECRET" then Some "scribe-secret"%string else None)
    "EKA_CLIENT_SECRET" = None /\
  Broker.get_eka_scribe_headers (Fixtures.login_answering 1800)
    (load_config (fun k => if String.eqb k "EKA_CLIENT_SCRIBE_SECRET" then Some "scribe-secret"%string else None))
    0 0 Fixtures.empty_state = (Ok (Broker.bearer "scribe-secret"), Fixtures.empty_state).
Proof.
  assert (H1 : env_str (fun k => if String.eqb k "EKA_CLIENT_SCRIBE_SECRET" then Some "scribe-secret"%string else None)
    "EKASCRIBE_API_TOKEN" = None) by reflexivity.
  assert (H2 : env_str (fun k => if String.eqb k "EKA_CLIENT_SCRIBE_SECRET" then Some "scribe-secret"%string else None)
    "EKA_API_TOKEN" = None) by reflexivity.
  assert (H3 : env_str (fun k => if String.eqb k "EKA_CLIENT_SCRIBE_SECRET" then Some "scribe-secret"%string else None)
    "EKA_CLIENT_SCRIBE_SECRET" = Some "scribe-secret"%string) by reflexivity.
  assert (H4 : env_str (fun k => if String.eqb k "EKA_CLIENT_SCRIBE_SECRET" then Some "scribe-secret"%string else None)
    "EKASCRIBE_CLIENT_SECRET" = None) by reflexivity.
  assert (H5 : env_str (fun k => if String.eqb k "EKA_CLIENT_SCRIBE_SECRET" then Some "scribe-secret"%string else None)
    "EKA_CLIENT_SECRET" = None) by reflexivity.
  split; [exact H1|split; [exact H2|split; [exact H3|split; [exact H4|split; [exact H5|]]]]].
  exact (scribe_backup_secret_as_bearer (Fixtures.login_answering 1800) _ 0 0 Fixtures.empty_state _
           H1 H2 H3 H4 H5).
Defined.

End SettingsFacts.

Module BrokerMoreFacts.

Import Broker.

Lemma fetch_scribe_ok login (cfg : config) (t_after : Z) (st st' : broker_state) (tok : string) :
  fetch_connect_token_scribe login cfg t_after st = (Ok tok, st') ->
  String.eqb tok EmptyString = false /\ scribe_token st' = Some tok /\
  exists e, scribe_expires_at st' = Some e.
Proof.
  unfold fetch_connect_token_scribe, exchange.
  destruct (login _ _) as [resp|]; [|discriminate].
  unfold token_of. destruct (lr_access_token resp) as [a|]; [|discriminate].
  destruct (String.eqb a EmptyString) eqn:Ea; [discriminate|].
  intros H. injection H as <- <-. cbn. split; [exact Ea|]. split; [reflexivity|]. eexists; reflexivity.
Qed.

(** After a successful [get_eka_scribe_headers], every later call made
    before the stored expiry returns the same headers and leaves the
    state unchanged: no login is made, whatever the login endpoint. *)
Theorem scribe_headers_reuse login login' (cfg : config) (now t_after now' t_after' : Z)
    (st st1 : broker_state) (h : list (string * string)) :
  get_eka_scribe_headers login cfg now t_after st = (Ok h, st1) ->
  (now' < match scribe_expires_at st1 with Some e => e | None => 0 end)%Z ->
  get_eka_scribe_headers login' cfg now' t_after' st1 = (Ok h, st1).
Proof.
  intros H Hnow. unfold get_eka_scribe_headers in *.
  destruct (validate_eka_scribe_config cfg); [|discriminate].
  destruct (truthy_s (EKASCRIBE_CLIENT_ID cfg) && truthy_s (EKASCRIBE_CLIENT_SECRET cfg));
    [|injection H as <- <-; reflexivity].
  assert (Hlt : (match scribe_expires_at st1 with Some e => e | None => 0 end <=? now')%Z = false)
    by (apply Z.leb_gt; exact Hnow).
  destruct (negb (truthy_s (scribe_token st))
            || (match scribe_expires_at st with Some e => e | None => 0 end <=? now))%Z eqn:Ef.
  - destruct (fetch_connect_token_scribe login cfg t_after st) as [r st'] eqn:F.
    destruct r as [tok|e]; cbn [pbind] in H; [|discriminate].
    injection H as <- <-.
    destruct (fetch_scribe_ok login cfg t_after st st' tok F) as [Hne [Htok _]].
    rewrite Htok, Hlt. unfold truthy_s, Executor.str_truthy. rewrite Hne. reflexivity.
  - injection H as <- <-. rewrite Hlt.
    apply orb_false_iff in Ef as [Ef _]. rewrite Ef. reflexivity.
Qed.

Lemma scribe_headers_reuse_witness :
  get_eka_scribe_headers (Fixtures.login_answering 1800) Fixtures.cfg_scribe 0 0 Fixtures.empty_state
  = (Ok (bearer "tok"),
     {| emr_connect_cache := empty; scribe_token := Some "tok"%string; scribe_expires_at := Some 1740%Z;
        logins := [login_request_for ("scribe", "cid", "sec", "https://api.eka.care")%string] |}) /\
  (100 < 1740)%Z /\
  get_eka_scribe_headers (fun _ _ => None) Fixtures.cfg_scribe 100 100
    {| emr_connect_cache := empty; scribe_token := Some "tok"%string; scribe_expires_at := Some 1740%Z;
       logins := [login_request_for ("scribe", "cid", "sec", "https://api.eka.care")%string] |}
  = (Ok (bearer "tok"),
     {| emr_connect_cache := empty; scribe_token := Some "tok"%string; scribe_expires_at := Some 1740%Z;
        logins := [login_request_for ("scribe", "cid", "sec", "https://api.eka.care")%string] |}).
Proof.
  assert (H1 : get_eka_scribe_headers (Fixtures.login_answering 1800) Fixtures.cfg_scribe 0 0 Fixtures.empty_state
    = (Ok (bearer "tok"),
       {| emr_connect_cache := empty; scribe_token := Some "tok"%string; scribe_expires_at := Some 1740%Z;
          logins := [login_request_for ("scribe", "cid", "sec", "https://api.eka.care")%string] |}))
    by reflexivity.
  assert (H2 : (100 < 1740)%Z) by lia.
  split; [exact H1|split; [exact H2|]].
  exact (scribe_headers_reuse _ (fun _ _ => None) Fixtures.cfg_scribe 0 0 100 100 _ _ _ H1 H2).
Defined.

(** [_eka_headers_and_base] with an [eka_auth] whose client credentials
    are truthy but blank after [strip] (and no [api_token]) raises the
    [ValueError] of [get_eka_emr_headers_from_params], with no login and
    no state change, instead of falling back to the configured EMR
    credentials. *)
Theorem eka_headers_and_base_blank_credentials login (cfg : config) (p : params) (now t_after : Z)
    (st : broker_state) :
  truthy_s (p_api_token p) = false ->
  truthy_s (p_client_id p) = true -> truthy_s (p_client_secret p) = true ->
  (String.eqb (PyStr.strip (os (p_client_id p))) EmptyString
   || String.eqb (PyStr.strip (os (p_client_secret p))) EmptyString) = true ->
  Abdm.eka_headers_and_base login cfg (Some p) now t_after st
  = (Err (ValueError "client_id and client_secret must be non-empty"), st).
Proof.
  intros H1 H2 H3 H4. unfold Abdm.eka_headers_and_base. rewrite H1, H2, H3. cbn [orb andb].
  unfold get_eka_emr_headers_from_params, headers_from_params. rewrite H1, H2, H3. cbn [andb].
  rewrite H4. reflexivity.
Qed.

Lemma eka_headers_and_base_blank_credentials_witness :
  truthy_s (p_api_token {| p_api_token := None; p_client_id := Some "  "%string;
                           p_client_secret := Some "sec"%string; p_base_url := None |}) = false /\
  truthy_s (p_client_id {| p_api_token := None; p_client_id := Some "  "%string;
                           p_client_secret := Some "sec"%string; p_base_url := None |}) = true /\
  truthy_s (p_client_secret {| p_api_token := None; p_client_id := Some "  "%string;
                               p_client_secret := Some "sec"%string; p_base_url := None |}) = true /\
  (String.eqb (PyStr.strip (os (p_client_id {| p_api_token := None; p_client_id := Some "  "%string;
                           p_client_secret := Some "sec"%string; p_base_url := None |}))) EmptyString
   || String.eqb (PyStr.strip (os (p_client_secret {| p_api_token := None; p_client_id := Some "  "%string;
                           p_client_secret := Some "sec"%string; p_base_url := None |}))) EmptyString) = true /\
  Abdm.eka_headers_and_base (Fixtures.login_answering 1800) Fixtures.cfg0
    (Some {| p_api_token := None; p_client_id := Some "  "%string;
             p_client_secret := Some "sec"%string; p_base_url := None |}) 0 0 Fixtures.empty_state
  = (Err (ValueError "client_id and client_secret must be non-empty"), Fixtures.empty_state).
Proof.
  assert (H1 : truthy_s (p_api_token {| p_api_token := None; p_client_id := Some "  "%string;
                           p_client_secret := Some "sec"%string; p_base_url := None |}) = false)
    by reflexivity.
  assert (H2 : truthy_s (p_client_id {| p_api_token := None; p_client_id := Some "  "%string;
                           p_client_secret := Some "sec"%string; p_base_url := None |}) = true)
    by reflexivity.
  assert (H3 : truthy_s (p_client_secret {| p_api_token := None; p_client_id := Some "  "%string;
                               p_client_secret := Some "sec"%string; p_base_url := None |}) = true)
    by reflexivity.
  assert (H4 : (String.eqb (PyStr.strip (os (p_client_id {| p_api_token := None; p_client_id := Some "  "%string;
                           p_client_secret := Some "sec"%string; p_base_url := None |}))) EmptyString
   || String.eqb (PyStr.strip (os (p_client_secret {| p_api_token := None; p_client_id := Some "  "%string;
                           p_client_secret := Some "sec"%string; p_base_url := None |}))) EmptyString) = true)
    by reflexivity.
  split; [exact H1|split; [exact H2|split; [exact H3|split; [exact H4|]]]].
  exact (eka_headers_and_base_blank_credentials (Fixtures.login_answering 1800) Fixtures.cfg0 _ 0 0
           Fixtures.empty_state H1 H2 H3 H4).
Defined.

End BrokerMoreFacts.

(* ----------------------------------------------------------------- *)
(** ** The plan executor, more *)

Module ExecutorMoreFacts.

Import Executor DictFacts.

Lemma run_specs_all_ok send cred bundle (specs : list request_spec) (reqs : list http_request) :
  Forall2 (fun s r => build_request cred bundle s = Ok r) specs reqs ->
  (forall hist r, In r reqs -> exists code text, send hist r = Response code text /\ (code < 400)%Z) ->
  forall st b issued, exists st' b',
  run_specs send cred bundle specs st b issued = (Ok (Continue st' b'), issued ++ reqs) /\
  ((specs = [] /\ st' = st /\ b' = b) \/
   exists pre r code text, reqs = pre ++ [r] /\ send (issued ++ pre) r = Response code text /\
     st' = Some code /\ b' = PyStr.take 2000 text /\ (code < 400)%Z).
Proof.
  induction 1 as [|s r specs reqs Hb HF IH]; intros Hsend st b issued.
  - exists st, b. rewrite app_nil_r. split; [reflexivity|left; auto].
  - destruct (Hsend issued r (or_introl eq_refl)) as [code [text [Hs Hc]]].
    assert (Hsend' : forall hist r', In r' reqs ->
              exists code text, send hist r' = Response code text /\ (code < 400)%Z)
      by (intros hist r' Hin; apply Hsend; right; exact Hin).
    destruct (IH Hsend' (Some code) (PyStr.take 2000 text) (issued ++ [r]))
      as [st' [b' [Hrun Hcase]]].
    exists st', b'. cbn [run_specs]. rewrite Hb, Hs.
    assert (Hn : (400 <=? code)%Z = false) by (apply Z.leb_gt; exact Hc).
    rewrite Hn, Hrun, <- app_assoc. split; [reflexivity|right].
    destruct Hcase as [[-> [-> ->]] | [pre [r' [code' [text' [-> [Hs' Hrest]]]]]]].
    + inversion HF; subst. exists [], r, code, text. rewrite app_nil_r. auto.
    + exists (r :: pre), r', code', text'. rewrite <- app_assoc in Hs'. auto.
Qed.

(** When every spec of the plan builds and every call answers with a
    status below 400, [execute_request_plan] issues exactly one request
    per spec, in order, and reports success with the status of the
    response to the last request and the first 2000 characters of its
    body. *)
Theorem execute_request_plan_all_ok send cred bundle (plan : request_plan) (execute_get : bool)
    (issued : list http_request) (specs : list request_spec) (reqs : list http_request) :
  (if execute_get then get_fhir plan else push_fhir plan) = Some specs -> specs <> [] ->
  Forall2 (fun s r => build_request cred bundle s = Ok r) specs reqs ->
  (forall hist r, In r reqs -> exists code text, send hist r = Response code text /\ (code < 400)%Z) ->
  exists pre r code text, reqs = pre ++ [r] /\ send (issued ++ pre) r = Response code text /\
  (code < 400)%Z /\
  execute_request_plan send cred bundle plan execute_get issued
  = (Ok (true, Some code, PyStr.take 2000 text, None), issued ++ reqs).
Proof.
  intros Hp Hne HF Hsend. unfold execute_request_plan. rewrite Hp.
  destruct (run_specs_all_ok send cred bundle specs reqs HF Hsend None EmptyString issued)
    as [st' [b' [Hrun [[Hnil _] | [pre [r [code [text [Hreqs [Hs [-> [-> Hc]]]]]]]]]]]]; [contradiction|].
  exists pre, r, code, text. split; [exact Hreqs|]. split; [exact Hs|]. split; [exact Hc|].
  destruct specs; [contradiction|]. rewrite Hrun. reflexivity.
Qed.

Lemma execute_request_plan_all_ok_witness :
  (if false then get_fhir {| push_fhir := Some [
        {| rs_method := Some "post"%string; rs_url := Some "https://emr.example/patients"%string;
           rs_headers := []; rs_body_template := JNull; rs_fhir_mapping := [] |};
        {| rs_method := None; rs_url := Some "https://emr.example/status"%string;
           rs_headers := []; rs_body_template := JNull; rs_fhir_mapping := [] |}];
        get_fhir := None |}
   else push_fhir {| push_fhir := Some [
        {| rs_method := Some "post"%string; rs_url := Some "https://emr.example/patients"%string;
           rs_headers := []; rs_body_template := JNull; rs_fhir_mapping := [] |};
        {| rs_method := None; rs_url := Some "https://emr.example/status"%string;
           rs_headers := []; rs_body_template := JNull; rs_fhir_mapping := [] |}];
        get_fhir := None |})
  = Some [
        {| rs_method := Some "post"%string; rs_url := Some "https://emr.example/patients"%string;
           rs_headers := []; rs_body_template := JNull; rs_fhir_mapping := [] |};
        {| rs_method := None; rs_url := Some "https://emr.example/status"%string;
           rs_headers := []; rs_body_template := JNull; rs_fhir_mapping := [] |}] /\
  exists pre r code text,
  [{| req_method := "POST"; req_url := "https://emr.example/patients";
      req_headers := [("Content-Type", "application/json")]; req_json := None |};
   {| req_method := "GET"; req_url := "https://emr.example/status";
      req_headers := [("Content-Type", "application/json")]; req_json := None |}] = pre ++ [r] /\
  (fun _ _ => Response 201 "created") ([] ++ pre) r = Response code text /\ (code < 400)%Z /\
  execute_request_plan (fun _ _ => Response 201 "created") None JNull
    {| push_fhir := Some [
        {| rs_method := Some "post"%string; rs_url := Some "https://emr.example/patients"%string;
           rs_headers := []; rs_body_template := JNull; rs_fhir_mapping := [] |};
        {| rs_method := None; rs_url := Some "https://emr.example/status"%string;
           rs_headers := []; rs_body_template := JNull; rs_fhir_mapping := [] |}];
       get_fhir := None |} false []
  = (Ok (true, Some code, PyStr.take 2000 text, None),
     [] ++ [{| req_method := "POST"; req_url := "https://emr.example/patients";
               req_headers := [("Content-Type", "application/json")]; req_json := None |};
            {| req_method := "GET"; req_url := "https://emr.example/status";
               req_headers := [("Content-Type", "application/json")]; req_json := None |}]).
Proof.
  assert (Hp : (if false then get_fhir {| push_fhir := Some [
        {| rs_method := Some "post"%string; rs_url := Some "https://emr.example/patients"%string;
           rs_headers := []; rs_body_template := JNull; rs_fhir_mapping := [] |};
        {| rs_method := None; rs_url := Some "https://emr.example/status"%string;
           rs_headers := []; rs_body_template := JNull; rs_fhir_mapping := [] |}];
        get_fhir := None |}
   else push_fhir {| push_fhir := Some [
        {| rs_method := Some "post"%string; rs_url := Some "https://emr.example/patients"%string;
           rs_headers := []; rs_body_template := JNull; rs_fhir_mapping := [] |};
        {| rs_method := None; rs_url := Some "https://emr.example/status"%string;
           rs_headers := []; rs_body_template := JNull; rs_fhir_mapping := [] |}];
        get_fhir := None |})
  = Some [
        {| rs_method := Some "post"%string; rs_url := Some "https://emr.example/patients"%string;
           rs_headers := []; rs_body_template := JNull; rs_fhir_mapping := [] |};
        {| rs_method := None; rs_url := Some "https://emr.example/status"%string;
           rs_headers := []; rs_body_template := JNull; rs_fhir_mapping := [] |}]) by reflexivity.
  split; [exact Hp|].
  apply (execute_request_plan_all_ok (fun _ _ => Response 201 "created") None JNull _ false [] _ _ Hp).
  - discriminate.
  - repeat constructor; vm_compute; reflexivity.
  - intros hist r _. exists 201%Z, "created"%string. split; [reflexivity|lia].
Defined.

Lemma setdefault_get (k k' v : string) (h : list (string * string)) (x : string) :
  assoc_get k h = Some x -> assoc_get k (setdefault k' v h) = Some x.
Proof.
  intros H. unfold setdefault. destruct (assoc_get k' h); [exact H|].
  rewrite assoc_get_app, H. reflexivity.
Qed.

(** A credential [api_token] always wins: the request carries
    [Authorization: Bearer <api_token>], whatever [Authorization] header
    the spec sets. *)
Theorem build_request_token_overrides_spec_header (c : credentials) (bundle : json)
    (spec : request_spec) (t : string) (r : http_request) :
  cr_api_token c = Some t -> t <> EmptyString ->
  build_request (Some c) bundle spec = Ok r ->
  assoc_get "Authorization" (req_headers r) = Some ("Bearer " ++ t)%string.
Proof.
  intros Ht Hne Hb. unfold build_request in Hb.
  destruct (match rs_body_template spec with
            | JNull => Ok JNull
            | bt => Templating.apply_fhir_mapping bt (rs_fhir_mapping spec) bundle
            end); cbn [pbind] in Hb; [|discriminate].
  injection Hb as <-. cbn [req_headers]. apply setdefault_get.
  unfold build_headers. rewrite Ht.
  assert (Htr : String.eqb t EmptyString = false)
    by (destruct (String.eqb t EmptyString) eqn:E; [apply String.eqb_eq in E; contradiction | reflexivity]).
  rewrite Htr. cbn [negb].
  destruct (cr_client_id c) as [i|]; [destruct (negb (String.eqb i EmptyString))|];
    try (rewrite assoc_get_set_other by reflexivity); apply assoc_get_set_same.
Qed.

Lemma build_request_token_overrides_spec_header_witness :
  cr_api_token {| cr_api_token := Some "cred-token"%string; cr_client_id := Some "clinic-7"%string;
                  cr_base_url := Some "https://emr.example"%string |} = Some "cred-token"%string /\
  "cred-token"%string <> EmptyString /\
  build_request (Some {| cr_api_token := Some "cred-token"%string; cr_client_id := Some "clinic-7"%string;
                         cr_base_url := Some "https://emr.example"%string |}) JNull
    {| rs_method := None; rs_url := Some "/patients"%string;
       rs_headers := [("Authorization", "Bearer spec-token")]; rs_body_template := JNull;
       rs_fhir_mapping := [] |}
  = Ok {| req_method := "GET"; req_url := "https://emr.example/patients";
          req_headers := [("Authorization", "Bearer cred-token"); ("client-id", "clinic-7");
                          ("Content-Type", "application/json")]; req_json := None |} /\
  assoc_get "Authorization" [("Authorization", "Bearer cred-token"); ("client-id", "clinic-7");
                             ("Content-Type", "application/json")]
  = Some ("Bearer " ++ "cred-token")%string.
Proof.
  assert (H1 : cr_api_token {| cr_api_token := Some "cred-token"%string; cr_client_id := Some "clinic-7"%string;
                  cr_base_url := Some "https://emr.example"%string |} = Some "cred-token"%string)
    by reflexivity.
  assert (H2 : "cred-token"%string <> EmptyString) by discriminate.
  assert (H3 : build_request (Some {| cr_api_token := Some "cred-token"%string;
                 cr_client_id := Some "clinic-7"%string; cr_base_url := Some "https://emr.example"%string |}) JNull
    {| rs_method := None; rs_url := Some "/patients"%string;
       rs_headers := [("Authorization", "Bearer spec-token")]; rs_body_template := JNull;
       rs_fhir_mapping := [] |}
    = Ok {| req_method := "GET"; req_url := "https://emr.example/patients";
            req_headers := [("Authorization", "Bearer cred-token"); ("client-id", "clinic-7");
                            ("Content-Type", "application/json")]; req_json := None |})
    by (vm_compute; reflexivity).
  split; [exact H1|split; [exact H2|split; [exact H3|]]].
  exact (build_request_token_overrides_spec_header _ JNull _ _ _ H1 H2 H3).
Defined.

End ExecutorMoreFacts.

(* ----------------------------------------------------------------- *)
(** ** Path navigation, more *)

Module PathFacts.

Import Templating.

Lemma walk_segs_app (obj : json) (s1 s2 : list string) :
  walk_segs obj (s1 ++ s2) =
  (let! o := walk_segs obj s1 in
   match o with None => Ok None | Some v => walk_segs v s2 end).
Proof.
  revert obj; induction s1 as [|seg s1 IH]; intros obj; [reflexivity|].
  cbn [app walk_segs]. destruct (String.eqb seg EmptyString); [apply IH|].
  destruct (step obj seg) as [v|e]; cbn [pbind]; [|reflexivity].
  destruct v; try reflexivity; apply IH.
Qed.

Lemma walk_parts_flat (obj : json) (parts : list string) :
  walk_parts obj parts = walk_segs obj (flat_map (PyStr.split ".") parts).
Proof.
  revert obj; induction parts as [|part parts IH]; intros obj; [reflexivity|].
  cbn [walk_parts flat_map]. rewrite walk_segs_app.
  destruct (walk_segs obj (PyStr.split "." part)) as [[v|]|e]; cbn [pbind]; try reflexivity.
  apply IH.
Qed.

Lemma split_nonempty (c : ascii) (s : string) : PyStr.split c s <> [].
Proof.
  destruct s as [|x s]; cbn; [discriminate|].
  destruct (Ascii.eqb x c); [discriminate|]. destruct (PyStr.split c s); discriminate.
Qed.

Lemma flat_split_nonempty (s : string) :
  flat_map (PyStr.split ".") (PyStr.split "[" s) <> [].
Proof.
  destruct (PyStr.split "[" s) as [|h t] eqn:E; [exfalso; exact (split_nonempty _ _ E)|].
  cbn [flat_map]. destruct (PyStr.split "." h) eqn:E2; [exfalso; exact (split_nonempty _ _ E2)|].
  discriminate.
Qed.

Lemma flat_split_cons (x : ascii) (s : string) :
  Ascii.eqb x "[" = false ->
  flat_map (PyStr.split ".") (PyStr.split "[" (String x s)) =
  if Ascii.eqb x "." then EmptyString :: flat_map (PyStr.split ".") (PyStr.split "[" s)
  else match flat_map (PyStr.split ".") (PyStr.split "[" s) with
       | h :: t => String x h :: t
       | [] => [String x EmptyString]
       end.
Proof.
  intros Hx. cbn [PyStr.split]. rewrite Hx.
  destruct (PyStr.split "[" s) as [|h t] eqn:E; [exfalso; exact (split_nonempty _ _ E)|].
  cbn [flat_map PyStr.split].
  destruct (Ascii.eqb x "."); [reflexivity|].
  destruct (PyStr.split "." h) eqn:E2; [exfalso; exact (split_nonempty _ _ E2)|]. reflexivity.
Qed.

Lemma flat_split_app (a b : string) (d : ascii) :
  (Ascii.eqb d "." || Ascii.eqb d "[") = true ->
  flat_map (PyStr.split ".") (PyStr.split "[" (a ++ String d b)) =
  flat_map (PyStr.split ".") (PyStr.split "[" a) ++ flat_map (PyStr.split ".") (PyStr.split "[" b).
Proof.
  intros Hd. induction a as [|x a IH].
  - rewrite StringFacts.app_nil.
    destruct (Ascii.eqb d "[") eqn:E1.
    + apply Ascii.eqb_eq in E1; subst d. reflexivity.
    + rewrite orb_false_r in Hd. rewrite (flat_split_cons d b E1), Hd. reflexivity.
  - rewrite StringFacts.app_cons.
    destruct (Ascii.eqb x "[") eqn:Ex.
    + apply Ascii.eqb_eq in Ex; subst x. cbn [PyStr.split Ascii.eqb Bool.eqb flat_map].
      rewrite IH. reflexivity.
    + rewrite (flat_split_cons x _ Ex), (flat_split_cons x a Ex), IH.
      destruct (Ascii.eqb x "."); [reflexivity|].
      destruct (flat_map (PyStr.split ".") (PyStr.split "[" a)) eqn:E;
        [exfalso; exact (flat_split_nonempty a E)|]. reflexivity.
Qed.

Lemma remove_char_app (ch d : ascii) (a b : string) :
  Ascii.eqb d ch = false ->
  PyStr.remove_char ch (a ++ String d b) = (PyStr.remove_char ch a ++ String d (PyStr.remove_char ch b))%string.
Proof.
  intros Hd. induction a as [|x a IH].
  - rewrite !StringFacts.app_nil. cbn [PyStr.remove_char]. rewrite Hd. reflexivity.
  - rewrite !StringFacts.app_cons. cbn [PyStr.remove_char].
    destruct (Ascii.eqb x ch); [exact IH|]. rewrite IH. reflexivity.
Qed.

Lemma walk_segs_null (segs : list string) :
  walk_segs JNull segs = Ok None \/ walk_segs JNull segs = Ok (Some JNull).
Proof.
  induction segs as [|seg segs IH]; [right; reflexivity|].
  cbn [walk_segs]. destruct (String.eqb seg EmptyString); [exact IH|]. left; reflexivity.
Qed.

Lemma get_path_null (path : string) : get_path JNull path = Ok JNull.
Proof.
  unfold get_path. rewrite walk_parts_flat.
  destruct (walk_segs_null (flat_map (PyStr.split ".") (PyStr.split "[" (PyStr.remove_char "]" path))))
    as [-> | ->]; reflexivity.
Qed.

(** Path navigation composes: following [p], then a [.] or [[], then [q]
    is following [q] from the value [p] leads to (a missing value, [None],
    stays [None]); errors of the first walk are kept. *)
Theorem get_path_compose (obj : json) (p q : string) (d : ascii) :
  (Ascii.eqb d "." || Ascii.eqb d "[") = true ->
  get_path obj (p ++ String d q)%string = (let! v := get_path obj p in get_path v q).
Proof.
  intros Hd. unfold get_path at 1 2.
  assert (Hd' : Ascii.eqb d "]" = false)
    by (destruct (Ascii.eqb d ".") eqn:E1; [apply Ascii.eqb_eq in E1; subst d; reflexivity|];
        destruct (Ascii.eqb d "[") eqn:E2; [apply Ascii.eqb_eq in E2; subst d; reflexivity|];
        discriminate).
  rewrite remove_char_app by exact Hd'.
  rewrite !walk_parts_flat, flat_split_app by exact Hd. rewrite walk_segs_app.
  destruct (walk_segs obj (flat_map (PyStr.split ".") (PyStr.split "[" (PyStr.remove_char "]" p))))
    as [[v|]|e]; cbn [pbind].
  - unfold get_path. rewrite walk_parts_flat. reflexivity.
  - rewrite get_path_null. reflexivity.
  - reflexivity.
Qed.

Lemma get_path_compose_witness :
  (Ascii.eqb "[" "." || Ascii.eqb "[" "[") = true /\
  get_path (JObj [("entry", JArr [JObj [("resource", JObj [("id", JStr "p1")])]])])
    ("entry" ++ String "[" "0].resource.id")%string
  = (let! v := get_path (JObj [("entry", JArr [JObj [("resource", JObj [("id", JStr "p1")])]])]) "entry" in
     get_path v "0].resource.id").
Proof.
  assert (H : (Ascii.eqb "[" "." || Ascii.eqb "[" "[") = true) by reflexivity.
  split; [exact H|]. exact (get_path_compose _ "entry" "0].resource.id" "[" H).
Defined.

End PathFacts.

(* ----------------------------------------------------------------- *)
(** ** Spec validation and persistence, more *)

Module StagesMoreFacts.

Import Stages.

Lemma str_dict_dump (h : list (string * string)) :
  str_dict (map (fun '(k, v) => (k, JStr v)) h) = Some h.
Proof. induction h as [|[k v] h IH]; cbn; [reflexivity|]. rewrite IH. reflexivity. Qed.

Lemma validate_spec_dump (v : json) (s : RequestSpec) :
  validate_spec v = Ok s -> validate_spec (dump_spec s) = Ok s.
Proof.
  unfold validate_spec at 1. destruct v as [| | | | | |kvs]; try discriminate.
  destruct (v_str kvs "method" "POST") as [m|]; cbn [pbind]; [|discriminate].
  destruct (v_str kvs "url" "") as [u|]; cbn [pbind]; [|discriminate].
  destruct (v_str_dict kvs "headers") as [h|]; cbn [pbind]; [|discriminate].
  destruct (v_body kvs) as [b|] eqn:Eb; cbn [pbind]; [|discriminate].
  destruct (v_str_dict kvs "fhir_mapping") as [f|]; cbn [pbind]; [|discriminate].
  destruct (v_str kvs "description" "") as [d|]; cbn [pbind]; [|discriminate].
  intros H. injection H as <-.
  assert (Hb : match b with JObj _ | JArr _ | JNull => True | _ => False end).
  { unfold v_body in Eb. destruct (assoc_get "body_template" kvs) as [[]|];
      try discriminate; injection Eb as <-; exact I. }
  unfold validate_spec, dump_spec. cbn [body_template headers fhir_mapping method url description].
  unfold v_str, v_str_dict, v_body.
  cbn [assoc_get String.eqb Ascii.eqb Bool.eqb pbind].
  rewrite !str_dict_dump. cbn [pbind].
  destruct b; try contradiction; reflexivity.
Qed.

(** [RequestSpec] validation and [model_dump] round-trip: a spec that
    validated once validates again from its dump, to the same spec. *)
Theorem validate_spec_dump_roundtrip (v : json) (s : RequestSpec) :
  validate_spec v = Ok s -> validate_spec (dump_spec s) = Ok s.
Proof. apply validate_spec_dump. Qed.

Lemma validate_spec_dump_roundtrip_witness :
  validate_spec (JObj [("url", JStr "/Patient"); ("body_template", JObj [("name", JStr "{{entry[0].resource.name}}")]);
                       ("extra", JInt 1)])
  = Ok {| method := "POST"; url := "/Patient"; headers := [];
          body_template := JObj [("name", JStr "{{entry[0].resource.name}}")];
          fhir_mapping := []; description := "" |} /\
  validate_spec (dump_spec {| method := "POST"; url := "/Patient"; headers := [];
          body_template := JObj [("name", JStr "{{entry[0].resource.name}}")];
          fhir_mapping := []; description := "" |})
  = Ok {| method := "POST"; url := "/Patient"; headers := [];
          body_template := JObj [("name", JStr "{{entry[0].resource.name}}")];
          fhir_mapping := []; description := "" |}.
Proof.
  assert (H : validate_spec (JObj [("url", JStr "/Patient");
                 ("body_template", JObj [("name", JStr "{{entry[0].resource.name}}")]); ("extra", JInt 1)])
    = Ok {| method := "POST"; url := "/Patient"; headers := [];
            body_template := JObj [("name", JStr "{{entry[0].resource.name}}")];
            fhir_mapping := []; description := "" |}) by reflexivity.
  split; [exact H|]. exact (validate_spec_dump_roundtrip _ _ H).
Defined.

Lemma validate_all_dump (xs : list json) (l : list RequestSpec) :
  validate_all xs = Ok l -> validate_all (map dump_spec l) = Ok l.
Proof.
  revert l; induction xs as [|x xs IH]; intros l H; cbn [validate_all] in H.
  - injection H as <-. reflexivity.
  - destruct (validate_spec x) as [s|] eqn:Es; cbn [pbind] in H; [|discriminate].
    destruct (validate_all xs) as [r|]; cbn [pbind] in H; [|discriminate].
    injection H as <-. cbn [map validate_all].
    rewrite (validate_spec_dump x s Es), (IH r eq_refl). reflexivity.
Qed.

Lemma py_iter_or_empty (xs : list json) :
  py_iter (if negb (length xs =? 0)%nat then JArr xs else JArr []) = Ok xs.
Proof. destruct xs; reflexivity. Qed.

(** What [persist_mapping] stores as [final_mapping] reads back: the
    plan dump [EMRMappingResult(...).model_dump()] yields the same push
    and get specs when validated again. *)
Theorem persist_specs_dump_roundtrip (state : list (string * json)) (push get : list RequestSpec) :
  persist_specs state = Ok (push, get) ->
  persist_specs [("request_plan", dump_mapping push get)] = Ok (push, get).
Proof.
  unfold persist_specs at 1.
  destruct (get_or state "request_plan" (JObj [])) as [| | | | | |plan]; try discriminate.
  destruct (py_iter (get_or plan "push_fhir" (JArr []))) as [pi|]; cbn [pbind]; [|discriminate].
  destruct (validate_all pi) as [p|] eqn:Ep; cbn [pbind]; [|discriminate].
  destruct (py_iter (get_or plan "get_fhir" (JArr []))) as [gi|]; cbn [pbind]; [|discriminate].
  destruct (validate_all gi) as [g|] eqn:Eg; cbn [pbind]; [|discriminate].
  intros H. injection H as <- <-.
  unfold persist_specs, dump_mapping, get_or, dict_get.
  cbn [assoc_get String.eqb Ascii.eqb Bool.eqb truthy length Nat.eqb negb].
  rewrite py_iter_or_empty. cbn [pbind]. rewrite (validate_all_dump pi p Ep). cbn [pbind].
  rewrite py_iter_or_empty. cbn [pbind]. rewrite (validate_all_dump gi g Eg). reflexivity.
Qed.

Lemma persist_specs_dump_roundtrip_witness :
  persist_specs [("request_plan", JObj [("push_fhir", JArr [JObj [("url", JStr "/Patient")]])])]
  = Ok ([{| method := "POST"; url := "/Patient"; headers := []; body_template := JNull;
            fhir_mapping := []; description := "" |}], []) /\
  persist_specs [("request_plan", dump_mapping
                    [{| method := "POST"; url := "/Patient"; headers := []; body_template := JNull;
                        fhir_mapping := []; description := "" |}] [])]
  = Ok ([{| method := "POST"; url := "/Patient"; headers := []; body_template := JNull;
            fhir_mapping := []; description := "" |}], []).
Proof.
  assert (H : persist_specs [("request_plan", JObj [("push_fhir", JArr [JObj [("url", JStr "/Patient")]])])]
    = Ok ([{| method := "POST"; url := "/Patient"; headers := []; body_template := JNull;
              fhir_mapping := []; description := "" |}], [])) by reflexivity.
  split; [exact H|]. exact (persist_specs_dump_roundtrip _ _ _ H).
Defined.

Lemma lstrip_chars (c : ascii) (s : string) :
  In c (list_ascii_of_string (PyStr.lstrip s)) -> In c (list_ascii_of_string s).
Proof.
  induction s as [|x s IH]; cbn; [tauto|].
  destruct (PyStr.is_space x); [intros H; right; exact (IH H)|tauto].
Qed.

Lemma rstrip_chars (c : ascii) (s : string) :
  In c (list_ascii_of_string (PyStr.rstrip s)) -> In c (list_ascii_of_string s).
Proof.
  induction s as [|x s IH]; cbn; [tauto|].
  destruct (PyStr.rstrip s) eqn:E.
  - destruct (PyStr.is_space x); cbn; [tauto|]. intros [H|H]; [left; exact H|contradiction].
  - cbn. intros [H|H]; [left; exact H|right; apply IH; exact H].
Qed.

Lemma fence_search_none (l : list ascii) :
  forallb (fun c => negb (Ascii.eqb c "`")) l = true -> fence_search l = None.
Proof.
  induction l as [|c l IH]; intros H; [reflexivity|].
  cbn [forallb] in H. apply andb_true_iff in H as [Hc Hl].
  cbn [fence_search]. unfold fence_at, ticks, JsonDecode.lit. cbn [list_ascii_of_string JsonDecode.starts_with].
  apply negb_true_iff in Hc. rewrite Ascii.eqb_sym, Hc. apply IH. exact Hl.
Qed.

Lemma llm_json_text_no_backtick (text : string) :
  forallb (fun c => negb (Ascii.eqb c "`")) (list_ascii_of_string text) = true ->
  llm_json_text text = PyStr.strip text.
Proof.
  intros H. unfold llm_json_text.
  rewrite fence_search_none; [reflexivity|].
  apply forallb_forall. intros c Hc. unfold PyStr.strip in Hc.
  apply rstrip_chars, lstrip_chars in Hc.
  rewrite forallb_forall in H. exact (H c Hc).
Qed.

(** A reply with no backtick is decoded whole: [_parse_json_from_llm]
    hands [json.loads] the stripped reply. *)
Theorem parse_json_without_fence (d : nat) (text : string) :
  forallb (fun c => negb (Ascii.eqb c "`")) (list_ascii_of_string text) = true ->
  parse_json_from_llm d text = JsonDecode.json_loads d (PyStr.strip text).
Proof.
  intros H. unfold parse_json_from_llm. rewrite llm_json_text_no_backtick by exact H. reflexivity.
Qed.

Lemma parse_json_without_fence_witness :
  forallb (fun c => negb (Ascii.eqb c "`")) (list_ascii_of_string " [1, 2] ") = true /\
  parse_json_from_llm 995 " [1, 2] " = JsonDecode.json_loads 995 (PyStr.strip " [1, 2] ").
Proof.
  assert (H : forallb (fun c => negb (Ascii.eqb c "`")) (list_ascii_of_string " [1, 2] ") = true)
    by reflexivity.
  split; [exact H|]. exact (parse_json_without_fence 995 _ H).
Defined.

Lemma list_ascii_repeat_char (n : nat) (c : ascii) :
  list_ascii_of_string (Fixtures.repeat_char n c) = repeat c n.
Proof. induction n as [|n IH]; cbn; [reflexivity|]. now rewrite IH. Qed.

Lemma no_backtick_repeat (n : nat) (c : ascii) :
  Ascii.eqb c "`" = false ->
  forallb (fun x => negb (Ascii.eqb x "`")) (list_ascii_of_string (Fixtures.repeat_char n c)) = true.
Proof.
  intros Hc. rewrite list_ascii_repeat_char. induction n as [|n IH]; [reflexivity|].
  cbn [repeat forallb]. rewrite Hc, IH. reflexivity.
Qed.

Lemma rstrip_repeat (n : nat) (c : ascii) :
  PyStr.is_space c = false -> PyStr.rstrip (Fixtures.repeat_char n c) = Fixtures.repeat_char n c.
Proof.
  intros Hc. induction n as [|n IH]; [reflexivity|].
  cbn [Fixtures.repeat_char PyStr.rstrip]. rewrite IH.
  destruct n; [cbn [Fixtures.repeat_char]; rewrite Hc; reflexivity | reflexivity].
Qed.

Lemma strip_repeat (n : nat) (c : ascii) :
  PyStr.is_space c = false -> PyStr.strip (Fixtures.repeat_char n c) = Fixtures.repeat_char n c.
Proof.
  intros Hc. unfold PyStr.strip.
  assert (Hl : PyStr.lstrip (Fixtures.repeat_char n c) = Fixtures.repeat_char n c)
    by (destruct n; [reflexivity | cbn [Fixtures.repeat_char PyStr.lstrip]; rewrite Hc; reflexivity]).
  rewrite Hl. apply rstrip_repeat, Hc.
Qed.

Lemma take_digits_ones (k : nat) :
  JsonDecode.take_digits (repeat "1"%char k) = (repeat "1"%char k, []).
Proof. induction k as [|k IH]; [reflexivity|]. cbn [repeat JsonDecode.take_digits]. rewrite IH. reflexivity. Qed.

Lemma parse_number_ones (k : nat) :
  (4300 < S k)%nat ->
  JsonDecode.parse_number (repeat "1"%char (S k))
  = Some (Err (ValueError (PyStr.int_limit_msg (S k))), []).
Proof.
  intros Hk. unfold JsonDecode.parse_number. cbn [repeat].
  cbn [JsonDecode.take_digits]. change (JsonDecode.is_dig "1") with true. rewrite take_digits_ones.
  cbv iota beta zeta.
  change (length ("1"%char :: repeat "1"%char k)) with (S (length (repeat "1"%char k))).
  rewrite repeat_length.
  assert (Hlt : (PyStr.int_max_str_digits <? S k)%nat = true) by (apply Nat.ltb_lt; exact Hk).
  rewrite Hlt. reflexivity.
Qed.

Lemma parse_value_ones (f d k : nat) :
  (4300 < S k)%nat ->
  JsonDecode.parse_value (S f) d (repeat "1"%char (S k))
  = JsonDecode.SRaise (ValueError (PyStr.int_limit_msg (S k))).
Proof.
  intros Hk. pose proof (parse_number_ones k Hk) as Hn. cbn [repeat] in Hn |- *.
  cbn [JsonDecode.parse_value]. cbn [JsonDecode.starts_with JsonDecode.lit list_ascii_of_string Ascii.eqb Bool.eqb].
  rewrite Hn. reflexivity.
Qed.

Lemma parse_value_nested (d : nat) :
  forall j fuel, (d < j)%nat -> (2 * d < fuel)%nat ->
  JsonDecode.parse_value fuel d (repeat "["%char j)
  = JsonDecode.SRaise (RecursionError (JsonDecode.recursion_msg "array")).
Proof.
  induction d as [|d IH]; intros j fuel Hj Hf.
  - destruct j as [|j]; [lia|]. destruct fuel as [|f]; [lia|]. reflexivity.
  - destruct j as [|j]; [lia|]. destruct j as [|j]; [lia|].
    destruct fuel as [|f]; [lia|]. destruct f as [|f]; [lia|].
    cbn [repeat JsonDecode.parse_value JsonDecode.skip_ws].
    change (JsonDecode.is_ws "[") with false. cbv iota beta.
    cbn [JsonDecode.parse_elems].
    change ("["%char :: repeat "["%char j) with (repeat "["%char (S j)).
    rewrite IH by lia. reflexivity.
Qed.

Lemma skip_ws_nonws (c : ascii) (r : list ascii) :
  JsonDecode.is_ws c = false -> JsonDecode.skip_ws (c :: r) = c :: r.
Proof. intros Hc. cbn [JsonDecode.skip_ws]. rewrite Hc. reflexivity. Qed.

Lemma json_loads_ones (d n : nat) :
  (4300 < n)%nat ->
  JsonDecode.json_loads d (Fixtures.repeat_char n "1") = Err (ValueError (PyStr.int_limit_msg n)).
Proof.
  intros Hn. destruct n as [|k]; [lia|].
  unfold JsonDecode.json_loads. cbv zeta. rewrite list_ascii_repeat_char.
  cbn [repeat]. rewrite skip_ws_nonws by reflexivity.
  change ("1"%char :: repeat "1"%char k) with (repeat "1"%char (S k)).
  replace (2 * length (repeat "1"%char (S k)) + 2)%nat with (S (2 * length (repeat "1"%char (S k)) + 1))
    by lia.
  rewrite parse_value_ones by exact Hn. reflexivity.
Qed.

Lemma json_loads_nested (d : nat) :
  JsonDecode.json_loads d (Fixtures.repeat_char (S d) "[")
  = Err (RecursionError (JsonDecode.recursion_msg "array")).
Proof.
  unfold JsonDecode.json_loads. cbv zeta. rewrite list_ascii_repeat_char.
  cbn [repeat]. rewrite skip_ws_nonws by reflexivity.
  change ("["%char :: repeat "["%char d) with (repeat "["%char (S d)).
  rewrite parse_value_nested by (rewrite ?repeat_length; lia). reflexivity.
Qed.

(** Claim C8 fails: [plan_emr] catches only [json.JSONDecodeError], and
    [json.loads] raises other exceptions.  A reply that is an integer of
    more than 4300 digits makes it raise [ValueError] (the integer digit
    limit); a reply opening more arrays than the scanner's recursion
    budget makes it raise [RecursionError]; both escape [plan_emr].  A
    reply that fails with [JSONDecodeError], plain text say, does give the
    empty plan with the reply's first 500 characters as reasoning. *)
Theorem plan_emr_uncaught_decode_errors (d n : nat) (text : string) :
  (4300 < n)%nat ->
  plan_emr d (Fixtures.repeat_char n "1") = Err (ValueError (PyStr.int_limit_msg n))
  /\ plan_emr d (Fixtures.repeat_char (S d) "[") = Err (RecursionError (JsonDecode.recursion_msg "array"))
  /\ (parse_json_from_llm d text = Ok None -> plan_emr d text = Ok (empty_plan, PyStr.take 500 text))
  /\ plan_emr d "I cannot produce a plan." = Ok (empty_plan, "I cannot produce a plan."%string).
Proof.
  intros Hn. split; [|split; [|split]].
  - unfold plan_emr, parse_json_from_llm.
    rewrite llm_json_text_no_backtick by (apply no_backtick_repeat; reflexivity).
    rewrite strip_repeat by reflexivity. rewrite json_loads_ones by exact Hn. reflexivity.
  - unfold plan_emr, parse_json_from_llm.
    rewrite llm_json_text_no_backtick by (apply no_backtick_repeat; reflexivity).
    rewrite strip_repeat by reflexivity. rewrite json_loads_nested. reflexivity.
  - intros H. unfold plan_emr. rewrite H. reflexivity.
  - vm_compute. reflexivity.
Qed.

Lemma plan_emr_uncaught_decode_errors_witness :
  (4300 < 4301)%nat
  /\ parse_json_from_llm 995 "Sorry, no plan" = Ok None
  /\ plan_emr 995 (Fixtures.repeat_char 4301 "1") = Err (ValueError (PyStr.int_limit_msg 4301))
  /\ plan_emr 995 (Fixtures.repeat_char 996 "[") = Err (RecursionError (JsonDecode.recursion_msg "array"))
  /\ plan_emr 995 "Sorry, no plan" = Ok (empty_plan, "Sorry, no plan"%string).
Proof.
  assert (Hn : (4300 < 4301)%nat) by lia.
  assert (Hp : parse_json_from_llm 995 "Sorry, no plan" = Ok None) by (vm_compute; reflexivity).
  destruct (plan_emr_uncaught_decode_errors 995 4301 "Sorry, no plan" Hn) as [H1 [H2 [H3 _]]].
  split; [exact Hn|]. split; [exact Hp|]. split; [exact H1|]. split; [exact H2|].
  exact (H3 Hp).
Defined.

Lemma v_str_err (kvs : list (string * json)) (k d : string) (e : exn) :
  v_str kvs k d = Err e -> exists msg, e = ValidationError msg.
Proof. unfold v_str. destruct (assoc_get k kvs) as [[]|]; intros H; try discriminate; injection H as <-; eexists; reflexivity. Qed.

Lemma v_str_dict_err (kvs : list (string * json)) (k : string) (e : exn) :
  v_str_dict kvs k = Err e -> exists msg, e = ValidationError msg.
Proof.
  unfold v_str_dict. destruct (assoc_get k kvs) as [[| | | | | |d]|]; intros H; try discriminate;
    try (injection H as <-; eexists; reflexivity).
  destruct (str_dict d); [discriminate|]. injection H as <-. eexists; reflexivity.
Qed.

Lemma v_body_err (kvs : list (string * json)) (e : exn) :
  v_body kvs = Err e -> exists msg, e = ValidationError msg.
Proof. unfold v_body. destruct (assoc_get "body_template" kvs) as [[]|]; intros H; try discriminate; injection H as <-; eexists; reflexivity. Qed.

Lemma validate_spec_err (v : json) (e : exn) :
  validate_spec v = Err e -> exists msg, e = ValidationError msg.
Proof.
  unfold validate_spec. destruct v as [| | | | | |kvs]; intros H;
    try (injection H as <-; eexists; reflexivity).
  destruct (v_str kvs "method" "POST") eqn:E1; cbn [pbind] in H; [|injection H as <-; eapply v_str_err; eauto].
  destruct (v_str kvs "url" "") eqn:E2; cbn [pbind] in H; [|injection H as <-; eapply v_str_err; eauto].
  destruct (v_str_dict kvs "headers") eqn:E3; cbn [pbind] in H; [|injection H as <-; eapply v_str_dict_err; eauto].
  destruct (v_body kvs) eqn:E4; cbn [pbind] in H; [|injection H as <-; eapply v_body_err; eauto].
  destruct (v_str_dict kvs "fhir_mapping") eqn:E5; cbn [pbind] in H; [|injection H as <-; eapply v_str_dict_err; eauto].
  destruct (v_str kvs "description" "") eqn:E6; cbn [pbind] in H; [discriminate|injection H as <-; eapply v_str_err; eauto].
Qed.

Lemma validate_all_err (xs : list json) (e : exn) :
  validate_all xs = Err e -> exists msg, e = ValidationError msg.
Proof.
  induction xs as [|x xs IH]; cbn [validate_all]; intros H; [discriminate|].
  destruct (validate_spec x) eqn:E; cbn [pbind] in H; [|injection H as <-; eapply validate_spec_err; eauto].
  destruct (validate_all xs); cbn [pbind] in H; [discriminate|injection H as <-; apply IH; reflexivity].
Qed.

Lemma py_iter_err (v : json) (e : exn) : py_iter v = Err e -> e = TypeError "object is not iterable".
Proof. destruct v; cbn; intros H; try discriminate; injection H as <-; reflexivity. Qed.

(** Claim C10 (as amended): whatever the upsert does, raising included,
    [persist_mapping] has the same outcome for a given pipeline state:
    either the final mapping with [success = true], or the exception of
    building the specs, raised before the upsert: an [AttributeError]
    (a [request_plan] that is not a dict), a [TypeError] (a [push_fhir] or
    [get_fhir] that is not iterable) or a validation error (an item that
    [RequestSpec.model_validate] refuses). *)
Theorem persist_mapping_success_despite_upsert (state : list (string * json)) :
  (exists push get, persist_specs state = Ok (push, get) /\
     forall upsert_emr_mapping : json -> json -> json -> json -> pyres unit,
       persist_mapping upsert_emr_mapping state
       = Ok [("final_mapping", dump_mapping push get); ("success", JBool true)])
  \/ (exists e, persist_specs state = Err e /\
       (forall upsert_emr_mapping : json -> json -> json -> json -> pyres unit,
          persist_mapping upsert_emr_mapping state = Err e) /\
       (e = AttributeError "object has no attribute 'get'" \/ e = TypeError "object is not iterable"
        \/ exists msg, e = ValidationError msg)).
Proof.
  destruct (persist_specs state) as [[push get]|e] eqn:E.
  - left. exists push, get. split; [reflexivity|].
    intros upsert. unfold persist_mapping. rewrite E. reflexivity.
  - right. exists e. split; [reflexivity|]. split; [intros upsert; unfold persist_mapping; rewrite E; reflexivity|].
    unfold persist_specs in E.
    destruct (get_or state "request_plan" (JObj [])) as [| | | | | |plan];
      try (injection E as <-; left; reflexivity).
    destruct (py_iter (get_or plan "push_fhir" (JArr []))) as [l|e1] eqn:E1; cbn [pbind] in E;
      [|injection E as <-; right; left; eapply py_iter_err; eauto].
    destruct (validate_all l) as [l0|e2] eqn:E2; cbn [pbind] in E;
      [|injection E as <-; right; right; eapply validate_all_err; eauto].
    destruct (py_iter (get_or plan "get_fhir" (JArr []))) as [l1|e3] eqn:E3; cbn [pbind] in E;
      [|injection E as <-; right; left; eapply py_iter_err; eauto].
    destruct (validate_all l1) as [l2|e4] eqn:E4; cbn [pbind] in E;
      [discriminate|injection E as <-; right; right; eapply validate_all_err; eauto].
Qed.

End StagesMoreFacts.
